(** * splunk2am: the Splunk webhook to Alertmanager translator

    A shallow embedding of [HandleSplunkWebhook] (package [alertmanager]) and
    of the server loop around it (package [api]), together with the parts of
    the Go standard library whose results the handler branches on.

    The repository carries two compilable revisions of the handler:
    - [src/unnamed/part_002]: start time read from the result field
      ["_time"], labels copied from an allow-list of result keys, annotations
      fixed to ["summary"] and ["link"]  (module [Part002]);
    - [src/pkg/alertmanager/archives/alertmanager.go.11022501] (first
      document): start time taken from the clock, every string-valued result
      entry routed to an annotation (key prefix ["ann."]) or to a label,
      labels ["alertname"] and ["app"] injected  (module [Archive]).
    The two further documents of the archive file read a field
    [TriggerTime] that their [SplunkPayload] does not declare and store the
    result map where a [map[string]string] is expected; they do not compile
    and are not modelled.

    Conventions.
    - Go strings are byte strings: [string] of 8-bit [ascii].
    - Go integers are [Z]; where the library code relies on a width, the
      wrap-around is written out ([u64]).
    - [time.Duration] is a number of nanoseconds in [Z].  A [time.Time] is
      kept as the one number [t.Unix() * 10^9 + t.Nanosecond()]; the [int64]
      seconds field on which [Time.Add] works is recovered from it, with its
      wrap-around and its saturation ([Time_sec], [addSec]).
    - A Go [(T, error)] result is [result T].
    - The handler writes to the response writer, to the logger and to the
      network; these effects are recorded as a trace of [Event]s. *)

From Stdlib Require Import ZArith String Ascii List Lia.
From Stdlib Require PrimFloat Uint63.
From stdpp Require Import gmap strings list fin_maps.

Open Scope string_scope.
Open Scope Z_scope.

#[local] Set Warnings "-register-all".

(* ===================================================================== *)
(** * Part I: definitions                                                 *)
(* ===================================================================== *)

(** ** Results and errors *)

(** The error values the handler can meet.  [strconv] distinguishes syntax
    from range errors; every other library error is kept as its text. *)
Inductive error : Type :=
| ErrSyntax
| ErrRange
| ErrMsg (msg : string).

Inductive result (A : Type) : Type :=
| Ok (a : A)
| Err (e : error).
Arguments Ok {A} a.
Arguments Err {A} e.

Definition is_ok {A} (r : result A) : bool :=
  match r with Ok _ => true | Err _ => false end.

(** ** Bytes and strings *)

Definition byte (c : ascii) : Z := Z.of_N (N_of_ascii c).

Definition chr (n : Z) : ascii := ascii_of_N (Z.to_N n).

Definition is_digit (c : ascii) : bool := (48 <=? byte c) && (byte c <=? 57).

Definition eqb_ascii (a b : ascii) : bool := byte a =? byte b.

(** [strings.HasPrefix(s, prefix)] *)
Fixpoint HasPrefix (s prefix : string) {struct prefix} : bool :=
  match prefix, s with
  | EmptyString, _ => true
  | String p prefix', String c s' => eqb_ascii c p && HasPrefix s' prefix'
  | String _ _, EmptyString => false
  end.

(** [s[n:]] for [n <= len(s)] *)
Fixpoint drop_bytes (n : nat) (s : string) : string :=
  match n, s with
  | O, _ => s
  | S n', String _ s' => drop_bytes n' s'
  | S _, EmptyString => EmptyString
  end.

(** [strings.TrimPrefix(s, prefix)]: [s] without the leading [prefix], or [s]
    itself when it does not start with [prefix]. *)
Definition TrimPrefix (s prefix : string) : string :=
  if HasPrefix s prefix then drop_bytes (String.length prefix) s else s.

(** [strings.Split(s, sep)] for a one-byte separator: the pieces between the
    separators, in order; the empty string gives one empty piece. *)
Fixpoint Split_go (sep : ascii) (s : string) (cur : string) : list string :=
  match s with
  | EmptyString => [cur]
  | String c s' =>
      if eqb_ascii c sep then cur :: Split_go sep s' EmptyString
      else Split_go sep s' (cur +:+ String c EmptyString)
  end.

Definition Split (s : string) (sep : ascii) : list string :=
  Split_go sep s EmptyString.

(** [strings.Contains(s, sub)], used to state what a response body holds. *)
Fixpoint Contains (s sub : string) : bool :=
  HasPrefix s sub ||
  match s with
  | EmptyString => false
  | String _ s' => Contains s' sub
  end.

(** ** Machine integers *)

Definition maxUint64 : Z := 2 ^ 64 - 1.

(** Arithmetic on [uint64] wraps modulo 2^64. *)
Definition u64 (x : Z) : Z := x mod 2 ^ 64.

(** Conversion [int64(x)] of a [uint64]. *)
Definition i64 (x : Z) : Z :=
  let y := x mod 2 ^ 64 in if y <? 2 ^ 63 then y else y - 2 ^ 64.

(** ** strconv.ParseInt(s, 10, 64) *)

(** The digit loop of [strconv.ParseUint] at [base = 10], [bitSize = 64]:
    [cutoff = maxUint64/10 + 1], [maxVal = 1<<64 - 1].  A letter is a digit
    of value at least 10, which is not below the base; any other byte is not
    a digit at all; both are syntax errors. *)
Fixpoint ParseUint_loop (s : string) (n : Z) : result Z :=
  match s with
  | EmptyString => Ok n
  | String c s' =>
      if is_digit c then
        let d := byte c - 48 in
        if n >=? maxUint64 / 10 + 1 then Err ErrRange
        else
          let n10 := u64 (n * 10) in
          let n1 := u64 (n10 + d) in
          if (n1 <? n10) || (n1 >? maxUint64) then Err ErrRange
          else ParseUint_loop s' n1
      else Err ErrSyntax
  end.

Definition ParseUint (s : string) : result Z :=
  match s with
  | EmptyString => Err ErrSyntax
  | _ => ParseUint_loop s 0
  end.

(** [strconv.ParseInt(s, 10, 64)]: an optional sign, then [ParseUint]; the
    magnitude is checked against [cutoff = 1 << 63]. *)
Definition ParseInt (s : string) : result Z :=
  match s with
  | EmptyString => Err ErrSyntax
  | String c s' =>
      let '(neg, s1) :=
        if eqb_ascii c "+" then (false, s')
        else if eqb_ascii c "-" then (true, s')
        else (false, s) in
      match ParseUint s1 with
      | Err ErrRange => Err ErrRange
      | Err e => Err e
      | Ok un =>
          let cutoff := 2 ^ 63 in
          if negb neg && (un >=? cutoff) then Err ErrRange
          else if neg && (un >? cutoff) then Err ErrRange
          else Ok (if neg then i64 (- i64 un) else i64 un)
      end
  end.

(** ** Package time *)

(** A [Time] is a wall-clock reading: the [int64] seconds since 1 January of
    the year 1 (the field [ext]) and the nanoseconds within the second.  It
    is kept here as the number [t.Unix() * 10^9 + t.Nanosecond()], where
    [t.Unix()] is the [int64] that the method returns: [ext - unixToInternal]
    with wrap-around.  The monotonic reading that [time.Now()] adds takes no
    part in the wall-clock result of [Add] and is not kept. *)
Definition Time : Type := Z.
Definition Duration : Type := Z.

Definition Nanosecond : Duration := 1.
Definition Microsecond : Duration := 1000 * Nanosecond.
Definition Millisecond : Duration := 1000 * Microsecond.
Definition Second : Duration := 1000 * Millisecond.
Definition Minute : Duration := 60 * Second.
Definition Hour : Duration := 60 * Minute.

(** [time.Unix(sec, nsec)] *)
Definition time_Unix (sec nsec : Z) : Time := sec * Second + nsec.

(** [unixToInternal]: the seconds from 1 January of the year 1 to the Unix
    epoch. *)
Definition unixToInternal : Z := 62135596800.

(** The field [ext] of [t], as [unixTime] sets it: [sec + unixToInternal] in
    [int64]; and [t.nsec()]. *)
Definition Time_sec (t : Time) : Z := i64 (t / Second + unixToInternal).
Definition Time_nsec (t : Time) : Z := t mod Second.

(** The [Time] whose fields are [ext = sec] and [nsec]. *)
Definition Time_of (sec nsec : Z) : Time :=
  i64 (sec - unixToInternal) * Second + nsec.

(** [t.addSec(d)] on the field [ext]: the sum in [int64] when it did not
    overflow, else the largest or the smallest value kept for a [Time]. *)
Definition addSec (ext d : Z) : Z :=
  let sum := i64 (ext + d) in
  if Bool.eqb (sum >? ext) (d >? 0) then sum
  else if d >? 0 then 2 ^ 63 - 1
  else - (2 ^ 63 - 1).

(** [t.Add(d)]: [d] is cut into seconds and nanoseconds (Go's [/] and [%]
    truncate towards zero), the nanoseconds are brought back into one second
    and the seconds are added by [addSec]. *)
Definition Time_Add (t : Time) (d : Duration) : Time :=
  let dsec := Z.quot d 1000000000 in
  let nsec := Time_nsec t + Z.rem d 1000000000 in
  let '(dsec, nsec) :=
    if nsec >=? 1000000000 then (dsec + 1, nsec - 1000000000)
    else if nsec <? 0 then (dsec - 1, nsec + 1000000000)
    else (dsec, nsec) in
  Time_of (addSec (Time_sec t) dsec) nsec.

(** *** float64 arithmetic used by [time.ParseDuration]

    Go's [float64] is IEEE 754 binary64, which is what the primitive floats
    are.  [float64(x)] of a [uint64] rounds to nearest; the only argument
    above 2^63 - 1 the parser can produce is 2^63 itself. *)
Definition float64_of_uint64 (x : Z) : PrimFloat.float :=
  if x =? 2 ^ 63
  then PrimFloat.mul (PrimFloat.of_uint63 (Uint63.of_Z (2 ^ 62))) PrimFloat.two
  else PrimFloat.of_uint63 (Uint63.of_Z x).

(** [uint64(f)] of a finite non-negative [float64] below 2^64: truncation.
    [frshiftexp] gives mantissa and exponent, biased by 2101. *)
Definition uint64_of_float64 (f : PrimFloat.float) : Z :=
  let '(m, e) := PrimFloat.frshiftexp f in
  Z.shiftl (Uint63.to_Z (PrimFloat.normfr_mantissa m))
           (Uint63.to_Z e - 2101 - 53).

(** *** time.ParseDuration *)

Definition errInvalidDuration : error := ErrMsg "time: invalid duration".
Definition errMissingUnit : error := ErrMsg "time: missing unit in duration".
Definition errUnknownUnit : error := ErrMsg "time: unknown unit in duration".
Definition errLeadingInt : error := ErrMsg "time: bad leading digits".

(** [leadingInt]: the leading digits of [s] as a [uint64], and the rest. *)
Fixpoint leadingInt_go (s : string) (x : Z) : result (Z * string) :=
  match s with
  | EmptyString => Ok (x, s)
  | String c s' =>
      if negb (is_digit c) then Ok (x, s)
      else if x >? 2 ^ 63 / 10 then Err errLeadingInt
      else
        let x' := u64 (u64 (x * 10) + byte c - 48) in
        if x' >? 2 ^ 63 then Err errLeadingInt
        else leadingInt_go s' x'
  end.

Definition leadingInt (s : string) : result (Z * string) := leadingInt_go s 0.

(** [leadingFraction]: the leading digits of [s] as a fraction [x/scale];
    digits after an overflow are consumed and ignored. *)
Fixpoint leadingFraction_go (s : string) (x : Z) (scale : PrimFloat.float)
    (overflow : bool) : Z * PrimFloat.float * string :=
  match s with
  | EmptyString => (x, scale, s)
  | String c s' =>
      if negb (is_digit c) then (x, scale, s)
      else if overflow then leadingFraction_go s' x scale true
      else if x >? (2 ^ 63 - 1) / 10 then leadingFraction_go s' x scale true
      else
        let y := u64 (u64 (x * 10) + byte c - 48) in
        if y >? 2 ^ 63 then leadingFraction_go s' x scale true
        else leadingFraction_go s' y
               (PrimFloat.mul scale (float64_of_uint64 10)) false
  end.

Definition leadingFraction (s : string) : Z * PrimFloat.float * string :=
  leadingFraction_go s 0 PrimFloat.one false.

(** The unit of a term: the bytes up to the next ['.'] or digit. *)
Fixpoint span_unit (s : string) : string * string :=
  match s with
  | EmptyString => (EmptyString, EmptyString)
  | String c s' =>
      if eqb_ascii c "." || is_digit c then (EmptyString, s)
      else let '(u, r) := span_unit s' in (String c u, r)
  end.

(** [unitMap]; the two micro signs are U+00B5 and U+03BC in UTF-8. *)
Definition unitMap : list (string * Z) :=
  [ ("ns", Nanosecond);
    ("us", Microsecond);
    (String (chr 194) (String (chr 181) "s"), Microsecond);
    (String (chr 206) (String (chr 188) "s"), Microsecond);
    ("ms", Millisecond);
    ("s", Second);
    ("m", Minute);
    ("h", Hour) ].

Fixpoint assoc_string {A} (k : string) (l : list (string * A)) : option A :=
  match l with
  | [] => None
  | (k', a) :: l' => if String.eqb k k' then Some a else assoc_string k l'
  end.

(** One pass of the loop of [ParseDuration]: a term made of digits, an
    optional point and more digits, and a unit; its value in nanoseconds and
    the rest of the input. *)
Definition ParseDuration_term (s : string) : result (Z * string) :=
  match s with
  | EmptyString => Err errInvalidDuration
  | String c _ =>
      if negb (eqb_ascii c "." || is_digit c) then Err errInvalidDuration
      else
        match leadingInt s with
        | Err _ => Err errInvalidDuration
        | Ok (v, s1) =>
            let pre := negb (String.length s =? String.length s1)%nat in
            let '(f, scale, s2, post) :=
              match s1 with
              | String c1 s1' =>
                  if eqb_ascii c1 "." then
                    let '(f, scale, r) := leadingFraction s1' in
                    (f, scale, r,
                     negb (String.length s1' =? String.length r)%nat)
                  else (0, PrimFloat.one, s1, false)
              | EmptyString => (0, PrimFloat.one, s1, false)
              end in
            if negb pre && negb post then Err errInvalidDuration
            else
              let '(u, s3) := span_unit s2 in
              match u with
              | EmptyString => Err errMissingUnit
              | _ =>
                  match assoc_string u unitMap with
                  | None => Err errUnknownUnit
                  | Some unit =>
                      if v >? 2 ^ 63 / unit then Err errInvalidDuration
                      else
                        let v1 := u64 (v * unit) in
                        if f >? 0 then
                          let v2 :=
                            u64 (v1 + uint64_of_float64
                                   (PrimFloat.mul (float64_of_uint64 f)
                                      (PrimFloat.div (float64_of_uint64 unit)
                                         scale))) in
                          if v2 >? 2 ^ 63 then Err errInvalidDuration
                          else Ok (v2, s3)
                        else Ok (v1, s3)
                  end
              end
        end
  end.

(** The loop [for s != ""]: every pass consumes at least the unit, so the
    length of the input bounds the number of passes. *)
Fixpoint ParseDuration_loop (fuel : nat) (s : string) (d : Z) : result Z :=
  match s with
  | EmptyString => Ok d
  | _ =>
      match fuel with
      | O => Err errInvalidDuration
      | S fuel' =>
          match ParseDuration_term s with
          | Err e => Err e
          | Ok (v, s') =>
              let d' := u64 (d + v) in
              if d' >? 2 ^ 63 then Err errInvalidDuration
              else ParseDuration_loop fuel' s' d'
          end
      end
  end.

(** [time.ParseDuration(s)]: an optional sign, then either ["0"] or one or
    more terms. *)
Definition ParseDuration (s : string) : result Duration :=
  let '(neg, s1) :=
    match s with
    | String c s' =>
        if eqb_ascii c "-" || eqb_ascii c "+" then (eqb_ascii c "-", s')
        else (false, s)
    | EmptyString => (false, s)
    end in
  if String.eqb s1 "0" then Ok 0
  else
    match s1 with
    | EmptyString => Err errInvalidDuration
    | _ =>
        match ParseDuration_loop (String.length s1) s1 0 with
        | Err e => Err e
        | Ok d =>
            if neg then Ok (i64 (- i64 d))
            else if d >? 2 ^ 63 - 1 then Err errInvalidDuration
            else Ok (i64 d)
        end
    end.

(** ** JSON values

    What [encoding/json] stores into an [interface{}]: [nil], [bool],
    [float64], [string], [[]interface{}] or [map[string]interface{}].  The
    handler only ever asks whether a value is a string, so a number is kept
    as its literal and a nested object as its members in source order. *)
Inductive JSON : Type :=
| JNull
| JBool (b : bool)
| JNumber (lit : string)
| JString (s : string)
| JArray (elems : list JSON)
| JObject (members : list (string * JSON)).

(** The type assertion [v.(string)] on the result of a map lookup: a missing
    key gives the nil interface, on which the assertion fails as well. *)
Definition assert_string (v : option JSON) : option string :=
  match v with
  | Some (JString s) => Some s
  | _ => None
  end.

(** ** Configuration  (pkg/config/config.go) *)

Record Config : Type := {
  AlertmanagerURL : string;
  BindAddress : string;
  LogLevel : string;
  LogFormat : string;
  EndsAtDuration : string;
  AdditionalLabels : list string;
  AnnotationPrefix : string
}.

(** The values of the command-line flags after [flag.Parse()]. *)
Record Flags : Type := {
  flag_u : string;
  flag_b : string;
  flag_l : string;
  flag_f : string;
  flag_e : string;
  flag_add_labels : string;
  flag_p : string
}.

(** The defaults declared in [LoadConfig]. *)
Definition defaultFlags : Flags := {|
  flag_u := "http://localhost:9093";
  flag_b := "localhost:8080";
  flag_l := "info";
  flag_f := "text";
  flag_e := "";
  flag_add_labels := "";
  flag_p := "ann."
|}.

Definition LoadConfig (flags : Flags) : Config := {|
  AlertmanagerURL := flag_u flags;
  BindAddress := flag_b flags;
  LogLevel := flag_l flags;
  LogFormat := flag_f flags;
  EndsAtDuration := flag_e flags;
  AdditionalLabels := Split (flag_add_labels flags) ",";
  AnnotationPrefix := flag_p flags
|}.

(** ** The outbound alert and the world around a request *)

(** [V2Alert], declared identically in both revisions. *)
Record V2Alert : Type := {
  Status : string;
  Labels : gmap string string;
  Annotations : gmap string string;
  StartsAt : Time;
  EndsAt : option Time;
  GeneratorURL : string
}.

(** The response [http.Post] hands back: the status code and the bytes
    [io.ReadAll(resp.Body)] yields. *)
Record HTTPResponse : Type := {
  StatusCode : Z;
  RespBody : string
}.

(** An inbound request, as far as the handler looks at it: what
    [io.ReadAll(r.Body)] returns. *)
Record Request : Type := {
  Body : result string
}.

(** Everything outside the handler that one call depends on.  [P] is the
    struct the body is decoded into.  [json.Unmarshal], [json.Marshal] and
    [http.Post] are library calls whose results the handler only inspects;
    [time_Now] is the clock reading of the one call to [time.Now()]. *)
Record Env (P : Type) : Type := {
  json_Unmarshal : string -> result P;
  json_Marshal : list V2Alert -> result string;
  http_Post : string -> string -> string -> result HTTPResponse;
  time_Now : Time
}.
Arguments json_Unmarshal {P} _ _.
Arguments json_Marshal {P} _ _.
Arguments http_Post {P} _ _ _ _.
Arguments time_Now {P} _.

(** ** Effects of a handler *)

Inductive Level : Type := LevelDebug | LevelInfo | LevelWarn | LevelError.

Inductive Event : Type :=
| EvWriteHeader (code : Z)                     (* w.WriteHeader(code) *)
| EvWrite (data : string)                      (* bytes written to w *)
| EvLog (lvl : Level) (msg : string)           (* logger.Debug/Info/Error *)
| EvPost (url contentType payload : string).   (* http.Post *)

(** A handler either goes on with a value or has executed [return]. *)
Inductive Step (A : Type) : Type :=
| Next (a : A)
| Return.
Arguments Next {A} a.
Arguments Return {A}.

Definition Handler (A : Type) : Type := list Event * Step A.

Definition ret {A} (a : A) : Handler A := ([], Next a).

Definition bind {A B} (m : Handler A) (f : A -> Handler B) : Handler B :=
  match m with
  | (t, Next a) => let '(t', s) := f a in ((t ++ t')%list, s)
  | (t, Return) => (t, Return)
  end.

Notation "'let*' x ':=' m 'in' k" := (bind m (fun x => k))
  (at level 10, x name, m at level 100, k at level 200).
Notation "m >> k" := (bind m (fun _ => k))
  (at level 90, right associativity).

Definition emit (e : Event) : Handler unit := ([e], Next tt).

Definition return_ {A} : Handler A := ([], Return).

Definition StatusOK : Z := 200.
Definition StatusBadRequest : Z := 400.
Definition StatusInternalServerError : Z := 500.

Definition newline : string := String (chr 10) EmptyString.

(** [http.Error(w, msg, code)]: the status line, then [msg] and a newline. *)
Definition http_Error (msg : string) (code : Z) : Handler unit :=
  emit (EvWriteHeader code) >> emit (EvWrite (msg +:+ newline)).

(** [fmt.Fprintln(w, msg)] *)
Definition Fprintln (msg : string) : Handler unit :=
  emit (EvWrite (msg +:+ newline)).

Definition logger_Debug (msg : string) : Handler unit := emit (EvLog LevelDebug msg).
Definition logger_Info (msg : string) : Handler unit := emit (EvLog LevelInfo msg).
Definition logger_Error (msg : string) : Handler unit := emit (EvLog LevelError msg).

(** The recurring [if err != nil { http.Error(...); logger.Error(...); return }]. *)
Definition reject {A} (msg : string) (code : Z) (logmsg : string) : Handler A :=
  http_Error msg code >> logger_Error logmsg >> return_.

Definition orReject {A} (r : result A) (msg : string) (code : Z)
    (logmsg : string) : Handler A :=
  match r with
  | Ok a => ret a
  | Err _ => reject msg code logmsg
  end.

(** What a finished run shows to the outside. *)
Definition trace {A} (h : Handler A) : list Event := fst h.

(** The status the caller receives: the first [WriteHeader]. *)
Fixpoint status_of (t : list Event) : option Z :=
  match t with
  | [] => None
  | EvWriteHeader code :: _ => Some code
  | _ :: t' => status_of t'
  end.

(** The response body: everything written to [w], in order. *)
Fixpoint body_of (t : list Event) : string :=
  match t with
  | [] => EmptyString
  | EvWrite data :: t' => data +:+ body_of t'
  | _ :: t' => body_of t'
  end.

(** The outbound POSTs of a run. *)
Fixpoint posts_of (t : list Event) : list (string * string * string) :=
  match t with
  | [] => []
  | EvPost url ct payload :: t' => (url, ct, payload) :: posts_of t'
  | _ :: t' => posts_of t'
  end.

(** The value a handler phase went on with, if it did not return early. *)
Definition produced {A} (h : Handler A) : option A :=
  match snd h with
  | Next a => Some a
  | Return => None
  end.

(** ** Code shared by both revisions of the handler *)

(** The block "Calculate the EndsAt time if the endsAtDuration argument is
    provided" (part_002 lines 72-86, archive lines 92-106). *)
Definition computeEndsAt (cfg : Config) (startsAt : Time) : Handler (option Time) :=
  if negb (String.eqb (EndsAtDuration cfg) "") then
    let* duration := orReject (ParseDuration (EndsAtDuration cfg))
                  "Invalid ends-at duration" StatusBadRequest
                  "Invalid ends-at duration" in
    let endsAtTime := Time_Add startsAt duration in
    logger_Info "Calculated EndsAt time" >>
    ret (Some endsAtTime)
  else
    logger_Info "No EndsAt time set" >>
    ret None.

(** From "Wrap the alert in an array" to the end of the function (part_002
    lines 123-156, archive lines 118-151): serialise, POST, relay. *)
Definition forward {P} (env : Env P) (cfg : Config) (v2Alert : V2Alert) : Handler unit :=
  let alertmanagerV2Payload := [v2Alert] in
  let* payloadBytes := orReject (json_Marshal env alertmanagerV2Payload)
                    "Failed to serialize Alertmanager payload"
                    StatusInternalServerError
                    "Failed to serialize Alertmanager payload" in
  logger_Debug "Sending payload to Alertmanager" >>
  let url := AlertmanagerURL cfg +:+ "/api/v2/alerts" in
  emit (EvPost url "application/json" payloadBytes) >>
  let* resp := orReject (http_Post env url "application/json" payloadBytes)
            "Failed to send payload to Alertmanager"
            StatusInternalServerError
            "Failed to send payload to Alertmanager" in
  if negb (StatusCode resp =? StatusOK) then
    let bodyBytes := RespBody resp in
    reject ("Error from Alertmanager: " +:+ bodyBytes)
           StatusInternalServerError "Error from Alertmanager"
  else
    emit (EvWriteHeader StatusOK) >>
    Fprintln "Payload successfully forwarded to Alertmanager" >>
    logger_Info "Payload successfully forwarded to Alertmanager".

(** ** The handler of src/unnamed/part_002 *)

Module Part002.

(** [SplunkPayload] after [json.Unmarshal]; a nil [Result] map reads like
    the empty one. *)
Record SplunkPayload : Type := {
  Sid : string;
  SearchName : string;
  App : string;
  Owner : string;
  ResultsLink : string;
  Result : gmap string JSON
}.

Definition defaultLabels : list string :=
  ["_raw"; "host"; "index"; "name"; "source"; "sourcetype"].

(** The body shared by the two label loops (lines 94-98 and 106-110):
    copy [Result[key]] into [labels] when it is present and a string. *)
Definition copyLabel (Result : gmap string JSON)
    (labels : gmap string string) (key : string) : gmap string string :=
  match Result !! key with
  | Some value =>
      match value with
      | JString strVal => <[key := strVal]> labels
      | _ => labels
      end
  | None => labels
  end.

(** Lines 88-111: the default labels, then the configured ones, skipping
    the empty strings [strings.Split] leaves. *)
Definition buildLabels (cfg : Config) (Result : gmap string JSON)
    : gmap string string :=
  let labels : gmap string string := ∅ in
  let labels := foldl (copyLabel Result) labels defaultLabels in
  foldl (fun labels key =>
           if String.eqb key "" then labels
           else copyLabel Result labels key)
        labels (AdditionalLabels cfg).

(** Line 117: the annotations literal. *)
Definition buildAnnotations (splunkPayload : SplunkPayload)
    : gmap string string :=
  <["link" := ResultsLink splunkPayload]>
    (<["summary" := "Alert triggered in Splunk: " +:+ SearchName splunkPayload]> ∅).

(** Lines 38-121: from the request to the alert [v2Alert]. *)
Definition buildAlert (env : Env SplunkPayload) (cfg : Config) (r : Request)
    : Handler V2Alert :=
  let* body := orReject (Body r)
                 "Failed to read request body" StatusBadRequest
                 "Failed to read request body" in
  let* splunkPayload := orReject (json_Unmarshal env body)
                 "Failed to parse JSON" StatusBadRequest
                 "Failed to parse JSON" in
  logger_Debug "Received Splunk payload" >>
  match assert_string (Result splunkPayload !! "_time") with
  | None =>
      reject "Invalid or missing trigger time" StatusBadRequest
             "Invalid or missing trigger time in Splunk payload"
  | Some triggerTimeStr =>
      let* triggerTimeUnix := orReject (ParseInt triggerTimeStr)
                 "Invalid trigger time format" StatusBadRequest
                 "Invalid trigger time format" in
      let startsAt := time_Unix triggerTimeUnix 0 in
      let* endsAt := computeEndsAt cfg startsAt in
      let labels := buildLabels cfg (Result splunkPayload) in
      ret {| Status := "firing";
             Labels := labels;
             Annotations := buildAnnotations splunkPayload;
             StartsAt := startsAt;
             EndsAt := endsAt;
             GeneratorURL := ResultsLink splunkPayload |}
  end.

Definition HandleSplunkWebhook (env : Env SplunkPayload) (cfg : Config)
    (r : Request) : Handler unit :=
  let* v2Alert := buildAlert env cfg r in
  forward env cfg v2Alert.

End Part002.

(** ** The handler of archives/alertmanager.go.11022501 *)

Module Archive.

Record SplunkWebhook : Type := {
  Sid : string;
  SearchName : string;
  App : string;
  ResultsLink : string;
  Result : gmap string JSON
}.

(** The body of [for key, value := range splunkPayload.Result] (lines
    64-75), on the pair of maps it updates. *)
Definition rangeBody (key : string) (value : JSON)
    (st : gmap string string * gmap string string)
    : gmap string string * gmap string string :=
  let '(labels, annotations) := st in
  match value with
  | JString strVal =>
      if HasPrefix key "ann." then
        let cleanKey := TrimPrefix key "ann." in
        (labels, <[cleanKey := strVal]> annotations)
      else
        (<[key := strVal]> labels, annotations)
  | _ => (labels, annotations)
  end.

(** Lines 61-83: both maps after the loop and the four fixed entries.  The
    loop visits the entries in the order [map_fold] picks; lemma
    [Archive_range_order_irrelevant]: no other order gives another
    result. *)
Definition extract (splunkPayload : SplunkWebhook)
    : gmap string string * gmap string string :=
  let '(labels, annotations) :=
    map_fold rangeBody (∅, ∅) (Result splunkPayload) in
  let labels := <["alertname" := SearchName splunkPayload]> labels in
  let labels := <["app" := App splunkPayload]> labels in
  let annotations :=
    <["summary" := "Alert triggered in Splunk: " +:+ SearchName splunkPayload]>
      annotations in
  let annotations := <["link" := ResultsLink splunkPayload]> annotations in
  (labels, annotations).

(** Lines 38-116: from the request to the alert [v2Alert]. *)
Definition buildAlert (env : Env SplunkWebhook) (cfg : Config) (r : Request)
    : Handler V2Alert :=
  let* body := orReject (Body r)
                 "Failed to read request body" StatusBadRequest
                 "Failed to read request body" in
  logger_Debug "Raw request body received" >>
  let* splunkPayload := orReject (json_Unmarshal env body)
                 "Failed to parse Splunk payload" StatusBadRequest
                 "Failed to parse Splunk payload" in
  logger_Debug "Parsed Splunk payload successfully" >>
  let '(labels, annotations) := extract splunkPayload in
  logger_Debug "Final Labels" >>
  logger_Debug "Final Annotations" >>
  let startsAt := time_Now env in
  let* endsAt := computeEndsAt cfg startsAt in
  ret {| Status := "firing";
         Labels := labels;
         Annotations := annotations;
         StartsAt := startsAt;
         EndsAt := endsAt;
         GeneratorURL := ResultsLink splunkPayload |}.

Definition HandleSplunkWebhook (env : Env SplunkWebhook) (cfg : Config)
    (r : Request) : Handler unit :=
  let* v2Alert := buildAlert env cfg r in
  forward env cfg v2Alert.

End Archive.

(** ** The server  (pkg/api/handlers.go)

    [StartServer] registers one closure over [cfg] and serves: every request
    that arrives on the registered path is handed to the handler with the
    same [cfg], and nothing else is carried from one request to the next.
    A request comes with the world it is handled in. *)
Definition StartServer {P} (handle : Env P -> Config -> Request -> Handler unit)
    (cfg : Config) (arrivals : list (Env P * Request)) : list (list Event) :=
  map (fun a => trace (handle (fst a) cfg (snd a))) arrivals.

(** ** A decoder for request bodies

    The theorems of Part II hold for every [json_Unmarshal].  To run the
    handlers on concrete bodies this module provides one, written after the
    documented behaviour of [encoding/json]: the text must be exactly one
    JSON value (RFC 8259) surrounded by optional white space, nested at most
    10000 deep; an object is stored into the struct field by field, keys
    matched to the field tags without regard to ASCII case, unknown keys
    skipped, [null] leaving a string field as it is and emptying a map field,
    a value of the wrong kind being an error.  Not modelled: the replacement
    of invalid UTF-8 inside strings, the range check on number literals, and
    the non-ASCII case folds of field names. *)
Module GoJSON.

Definition is_ws (c : ascii) : bool :=
  (byte c =? 32) || (byte c =? 9) || (byte c =? 13) || (byte c =? 10).

Fixpoint skip_ws (s : string) : string :=
  match s with
  | String c s' => if is_ws c then skip_ws s' else s
  | EmptyString => s
  end.

Definition hexval (c : ascii) : option Z :=
  let b := byte c in
  if (48 <=? b) && (b <=? 57) then Some (b - 48)
  else if (97 <=? b) && (b <=? 102) then Some (b - 87)
  else if (65 <=? b) && (b <=? 70) then Some (b - 55)
  else None.

(** [getu4]: the code unit of four hexadecimal digits. *)
Definition hex4 (a b c d : ascii) : option Z :=
  match hexval a, hexval b, hexval c, hexval d with
  | Some x, Some y, Some z, Some w => Some (((x * 16 + y) * 16 + z) * 16 + w)
  | _, _, _, _ => None
  end.

(** [utf8.EncodeRune] *)
Definition utf8_encode (r : Z) : string :=
  if r <? 128 then String (chr r) EmptyString
  else if r <? 2048 then
    String (chr (192 + r / 64)) (String (chr (128 + r mod 64)) EmptyString)
  else if r <? 65536 then
    String (chr (224 + r / 4096))
      (String (chr (128 + (r / 64) mod 64))
         (String (chr (128 + r mod 64)) EmptyString))
  else
    String (chr (240 + r / 262144))
      (String (chr (128 + (r / 4096) mod 64))
         (String (chr (128 + (r / 64) mod 64))
            (String (chr (128 + r mod 64)) EmptyString))).

Definition ReplacementChar : Z := 65533.

Definition is_surrogate (r : Z) : bool := (55296 <=? r) && (r <? 57344).

(** [utf16.DecodeRune] *)
Definition decode_surrogates (r1 r2 : Z) : Z :=
  if (55296 <=? r1) && (r1 <? 56320) && (56320 <=? r2) && (r2 <? 57344)
  then (r1 - 55296) * 1024 + (r2 - 56320) + 65536
  else ReplacementChar.

Definition simple_escape (c : ascii) : option ascii :=
  let b := byte c in
  if (b =? 34) || (b =? 92) || (b =? 47) then Some c
  else if b =? 98 then Some (chr 8)
  else if b =? 102 then Some (chr 12)
  else if b =? 110 then Some (chr 10)
  else if b =? 114 then Some (chr 13)
  else if b =? 116 then Some (chr 9)
  else None.

(** A string literal after its opening quote: the decoded bytes and the
    text after the closing quote. *)
Fixpoint scan_string (s : string) : option (string * string) :=
  match s with
  | EmptyString => None
  | String c r =>
      if byte c =? 34 then Some (EmptyString, r)
      else if byte c <? 32 then None
      else if byte c =? 92 then
        match r with
        | EmptyString => None
        | String e r1 =>
            if byte e =? 117 then
              match r1 with
              | String h1 (String h2 (String h3 (String h4 r2))) =>
                  match hex4 h1 h2 h3 h4 with
                  | None => None
                  | Some rr =>
                      let lone :=
                        match scan_string r2 with
                        | Some (t, r') =>
                            Some (utf8_encode
                                    (if is_surrogate rr then ReplacementChar
                                     else rr) +:+ t, r')
                        | None => None
                        end in
                      if is_surrogate rr then
                        match r2 with
                        | String b1 (String b2 (String g1 (String g2
                            (String g3 (String g4 r3))))) =>
                            match
                              (if (byte b1 =? 92) && (byte b2 =? 117)
                               then hex4 g1 g2 g3 g4 else None)
                            with
                            | Some rr1 =>
                                let dec := decode_surrogates rr rr1 in
                                if dec =? ReplacementChar then lone
                                else
                                  match scan_string r3 with
                                  | Some (t, r') =>
                                      Some (utf8_encode dec +:+ t, r')
                                  | None => None
                                  end
                            | None => lone
                            end
                        | _ => lone
                        end
                      else lone
                  end
              | _ => None
              end
            else
              match simple_escape e with
              | None => None
              | Some x =>
                  match scan_string r1 with
                  | Some (t, r') => Some (String x t, r')
                  | None => None
                  end
              end
        end
      else
        match scan_string r with
        | Some (t, r') => Some (String c t, r')
        | None => None
        end
  end.

Fixpoint skip_digits (s : string) : string :=
  match s with
  | String c s' => if is_digit c then skip_digits s' else s
  | EmptyString => s
  end.

(** One or more digits. *)
Definition digits1 (s : string) : option string :=
  match s with
  | String c s' => if is_digit c then Some (skip_digits s') else None
  | EmptyString => None
  end.

(** The text after a number literal that starts [s]. *)
Definition scan_number (s : string) : option string :=
  let s1 :=
    match s with
    | String c s' => if byte c =? 45 then s' else s
    | EmptyString => s
    end in
  let int_part :=
    match s1 with
    | String c s' =>
        if byte c =? 48 then Some s'
        else if is_digit c then Some (skip_digits s')
        else None
    | EmptyString => None
    end in
  match int_part with
  | None => None
  | Some s2 =>
      let frac_part :=
        match s2 with
        | String c s' => if byte c =? 46 then digits1 s' else Some s2
        | EmptyString => Some s2
        end in
      match frac_part with
      | None => None
      | Some s3 =>
          match s3 with
          | String c s' =>
              if (byte c =? 101) || (byte c =? 69) then
                match s' with
                | String g s'' =>
                    if (byte g =? 43) || (byte g =? 45) then digits1 s''
                    else digits1 s'
                | EmptyString => None
                end
              else Some s3
          | EmptyString => Some s3
          end
      end
  end.

Definition expect (word : string) (v : JSON) (s : string)
    : option (JSON * string) :=
  if HasPrefix s word then Some (v, drop_bytes (String.length word) s)
  else None.

Definition maxNestingDepth : Z := 10000.

(** One JSON value at the head of [s], and the text after it.  [fuel]
    bounds the number of calls; [parse] supplies twice the length of the
    text plus two. *)
Fixpoint parse_value (fuel : nat) (depth : Z) (s : string)
    : option (JSON * string) :=
  match fuel with
  | O => None
  | S fuel' =>
      match skip_ws s with
      | EmptyString => None
      | String c r =>
          let b := byte c in
          if b =? 123 then
            if depth + 1 >? maxNestingDepth then None
            else
              match skip_ws r with
              | EmptyString => None
              | String c1 r1 =>
                  if byte c1 =? 125 then Some (JObject [], r1)
                  else parse_members fuel' (depth + 1) r []
              end
          else if b =? 91 then
            if depth + 1 >? maxNestingDepth then None
            else
              match skip_ws r with
              | EmptyString => None
              | String c1 r1 =>
                  if byte c1 =? 93 then Some (JArray [], r1)
                  else parse_elements fuel' (depth + 1) r []
              end
          else if b =? 34 then
            match scan_string r with
            | Some (str, r') => Some (JString str, r')
            | None => None
            end
          else if b =? 116 then expect "true" (JBool true) (String c r)
          else if b =? 102 then expect "false" (JBool false) (String c r)
          else if b =? 110 then expect "null" JNull (String c r)
          else
            match scan_number (String c r) with
            | Some r' =>
                let n := (String.length (String c r) - String.length r')%nat in
                Some (JNumber (String.substring 0 n (String c r)), r')
            | None => None
            end
      end
  end
with parse_elements (fuel : nat) (depth : Z) (s : string) (acc : list JSON)
    : option (JSON * string) :=
  match fuel with
  | O => None
  | S fuel' =>
      match parse_value fuel' depth s with
      | None => None
      | Some (v, r) =>
          match skip_ws r with
          | EmptyString => None
          | String c r' =>
              if byte c =? 44 then parse_elements fuel' depth r' (v :: acc)
              else if byte c =? 93 then Some (JArray (rev (v :: acc)), r')
              else None
          end
      end
  end
with parse_members (fuel : nat) (depth : Z) (s : string)
    (acc : list (string * JSON)) : option (JSON * string) :=
  match fuel with
  | O => None
  | S fuel' =>
      match skip_ws s with
      | EmptyString => None
      | String q r =>
          if negb (byte q =? 34) then None
          else
            match scan_string r with
            | None => None
            | Some (k, r1) =>
                match skip_ws r1 with
                | EmptyString => None
                | String c r2 =>
                    if negb (byte c =? 58) then None
                    else
                      match parse_value fuel' depth r2 with
                      | None => None
                      | Some (v, r3) =>
                          match skip_ws r3 with
                          | EmptyString => None
                          | String c' r4 =>
                              if byte c' =? 44 then
                                parse_members fuel' depth r4 ((k, v) :: acc)
                              else if byte c' =? 125 then
                                Some (JObject (rev ((k, v) :: acc)), r4)
                              else None
                          end
                      end
                end
            end
      end
  end.

Definition errSyntax : error := ErrMsg "json: syntax error".
Definition errType : error := ErrMsg "json: cannot unmarshal value into Go value".

(** [checkValid] and the scan into a value tree. *)
Definition parse (data : string) : result JSON :=
  match parse_value (2 * String.length data + 2) 0 data with
  | Some (v, rest) =>
      match skip_ws rest with
      | EmptyString => Ok v
      | _ => Err errSyntax
      end
  | None => Err errSyntax
  end.

Definition lower (c : ascii) : ascii :=
  if (65 <=? byte c) && (byte c <=? 90) then chr (byte c + 32) else c.

Fixpoint foldName (s : string) : string :=
  match s with
  | EmptyString => EmptyString
  | String c s' => String (lower c) (foldName s')
  end.

(** Storing a value into a [string] field. *)
Definition storeString (cur : string) (v : JSON) : string * bool :=
  match v with
  | JString s => (s, true)
  | JNull => (cur, true)
  | _ => (cur, false)
  end.

(** Storing a value into a [map[string]interface{}] field: an object adds
    its members to the map, later ones replacing earlier ones. *)
Definition storeMap (cur : gmap string JSON) (v : JSON)
    : gmap string JSON * bool :=
  match v with
  | JObject members =>
      (foldl (fun m kv => <[fst kv := snd kv]> m) cur members, true)
  | JNull => (∅, true)
  | _ => (cur, false)
  end.

(** Storing the members of an object one after the other; the flag records
    whether a type error was met on the way. *)
Definition storeMembers {P} (store : P -> string -> JSON -> P * bool)
    (zero : P) (members : list (string * JSON)) : P * bool :=
  foldl (fun st kv =>
           let '(p, ok) := st in
           let '(p', ok') := store p (foldName (fst kv)) (snd kv) in
           (p', ok && ok'))
        (zero, true) members.

Definition Unmarshal {P} (store : P -> string -> JSON -> P * bool)
    (zero : P) (data : string) : result P :=
  match parse data with
  | Err e => Err e
  | Ok JNull => Ok zero
  | Ok (JObject members) =>
      let '(p, ok) := storeMembers store zero members in
      if ok then Ok p else Err errType
  | Ok _ => Err errType
  end.

(** The fields of [Part002.SplunkPayload] by their [json] tags. *)
Definition storePart002 (p : Part002.SplunkPayload) (key : string) (v : JSON)
    : Part002.SplunkPayload * bool :=
  let '(Part002.Build_SplunkPayload sid name app owner link res) := p in
  if String.eqb key "sid" then
    let '(x, ok) := storeString sid v in
    (Part002.Build_SplunkPayload x name app owner link res, ok)
  else if String.eqb key "search_name" then
    let '(x, ok) := storeString name v in
    (Part002.Build_SplunkPayload sid x app owner link res, ok)
  else if String.eqb key "app" then
    let '(x, ok) := storeString app v in
    (Part002.Build_SplunkPayload sid name x owner link res, ok)
  else if String.eqb key "owner" then
    let '(x, ok) := storeString owner v in
    (Part002.Build_SplunkPayload sid name app x link res, ok)
  else if String.eqb key "results_link" then
    let '(x, ok) := storeString link v in
    (Part002.Build_SplunkPayload sid name app owner x res, ok)
  else if String.eqb key "result" then
    let '(x, ok) := storeMap res v in
    (Part002.Build_SplunkPayload sid name app owner link x, ok)
  else (p, true).

(** The fields of [Archive.SplunkWebhook] by their [json] tags. *)
Definition storeArchive (p : Archive.SplunkWebhook) (key : string) (v : JSON)
    : Archive.SplunkWebhook * bool :=
  let '(Archive.Build_SplunkWebhook sid name app link res) := p in
  if String.eqb key "sid" then
    let '(x, ok) := storeString sid v in
    (Archive.Build_SplunkWebhook x name app link res, ok)
  else if String.eqb key "search_name" then
    let '(x, ok) := storeString name v in
    (Archive.Build_SplunkWebhook sid x app link res, ok)
  else if String.eqb key "app" then
    let '(x, ok) := storeString app v in
    (Archive.Build_SplunkWebhook sid name x link res, ok)
  else if String.eqb key "results_link" then
    let '(x, ok) := storeString link v in
    (Archive.Build_SplunkWebhook sid name app x res, ok)
  else if String.eqb key "result" then
    let '(x, ok) := storeMap res v in
    (Archive.Build_SplunkWebhook sid name app link x, ok)
  else (p, true).

Definition UnmarshalPart002 : string -> result Part002.SplunkPayload :=
  Unmarshal storePart002 (Part002.Build_SplunkPayload "" "" "" "" "" ∅).

Definition UnmarshalArchive : string -> result Archive.SplunkWebhook :=
  Unmarshal storeArchive (Archive.Build_SplunkWebhook "" "" "" "" ∅).

End GoJSON.

(** ** Worlds to run the handlers in *)

(** Request bodies are written with ['] where the JSON text has a double
    quote. *)
Fixpoint q (s : string) : string :=
  match s with
  | EmptyString => EmptyString
  | String c s' => String (if byte c =? 39 then chr 34 else c) (q s')
  end.

(** A stand-in for [json.Marshal] in examples: it always succeeds, with a
    text that shows how many alerts it was given.  It is not a model of the
    encoder. *)
Definition exampleMarshal (alerts : list V2Alert) : result string :=
  Ok (fold_right (fun _ acc => "{alert}" +:+ acc) "" alerts).

(** A world with the decoder above, a destination that answers every POST
    with [resp], and the clock at [now]. *)
Definition worldPart002 (now : Time) (resp : result HTTPResponse)
    : Env Part002.SplunkPayload := {|
  json_Unmarshal := GoJSON.UnmarshalPart002;
  json_Marshal := exampleMarshal;
  http_Post := fun _ _ _ => resp;
  time_Now := now
|}.

Definition worldArchive (now : Time) (resp : result HTTPResponse)
    : Env Archive.SplunkWebhook := {|
  json_Unmarshal := GoJSON.UnmarshalArchive;
  json_Marshal := exampleMarshal;
  http_Post := fun _ _ _ => resp;
  time_Now := now
|}.

Definition respOK : result HTTPResponse :=
  Ok {| StatusCode := 200; RespBody := "" |}.

Definition respDown : result HTTPResponse :=
  Ok {| StatusCode := 503; RespBody := "alertmanager is down" |}.

Definition defaultConfig : Config := LoadConfig defaultFlags.

(** The command line [-e <offset> --add-labels <keys>]. *)
Definition configWith (offset keys : string) : Config :=
  LoadConfig {| flag_u := flag_u defaultFlags;
                flag_b := flag_b defaultFlags;
                flag_l := flag_l defaultFlags;
                flag_f := flag_f defaultFlags;
                flag_e := offset;
                flag_add_labels := keys;
                flag_p := flag_p defaultFlags |}.

Definition request (body : string) : Request := {| Body := Ok (q body) |}.

(** ** Vocabulary of the specification *)

(** Where a result-set entry can end up. *)
Inductive Route : Type := ToLabels | ToAnnotations | Dropped.

(** The entry at [key] feeds a set computed from the result map when taking
    the entry away changes that set. *)
Definition feeds (set : gmap string JSON -> gmap string string)
    (Result : gmap string JSON) (key : string) : Prop :=
  set (delete key Result) ≠ set Result.

(** [routed labels annotations Result key d]: the entry at [key] goes to [d],
    and only there. *)
Definition routed (labels annotations : gmap string JSON -> gmap string string)
    (Result : gmap string JSON) (key : string) (d : Route) : Prop :=
  match d with
  | ToLabels => feeds labels Result key /\ ~ feeds annotations Result key
  | ToAnnotations => ~ feeds labels Result key /\ feeds annotations Result key
  | Dropped => ~ feeds labels Result key /\ ~ feeds annotations Result key
  end.

(** The label set and the annotation set of the alert, as functions of the
    result map, the rest of the payload being fixed. *)
Definition labelsPart002 (cfg : Config) (p : Part002.SplunkPayload)
    (Result : gmap string JSON) : gmap string string :=
  Part002.buildLabels cfg Result.

Definition annotationsPart002 (p : Part002.SplunkPayload)
    (Result : gmap string JSON) : gmap string string :=
  Part002.buildAnnotations
    (Part002.Build_SplunkPayload (Part002.Sid p) (Part002.SearchName p)
       (Part002.App p) (Part002.Owner p) (Part002.ResultsLink p) Result).

Definition withResult (p : Archive.SplunkWebhook) (Result : gmap string JSON)
    : Archive.SplunkWebhook :=
  Archive.Build_SplunkWebhook (Archive.Sid p) (Archive.SearchName p)
    (Archive.App p) (Archive.ResultsLink p) Result.

Definition labelsArchive (p : Archive.SplunkWebhook)
    (Result : gmap string JSON) : gmap string string :=
  fst (Archive.extract (withResult p Result)).

Definition annotationsArchive (p : Archive.SplunkWebhook)
    (Result : gmap string JSON) : gmap string string :=
  snd (Archive.extract (withResult p Result)).

(** The keys [Part002] copies into labels: the fixed list and the configured
    one without its empty strings. *)
Definition allowed (cfg : Config) (key : string) : Prop :=
  key ∈ Part002.defaultLabels \/ (key ∈ AdditionalLabels cfg /\ key <> "").

(** The end-time offset is absent or parses. *)
Definition durationOK (cfg : Config) : Prop :=
  EndsAtDuration cfg = "" \/ exists d, ParseDuration (EndsAtDuration cfg) = Ok d.

(** The instants that a [Time] holds without overflow: the seconds since the
    year 1 fit [int64] and so do the Unix seconds, that is, the Unix seconds
    lie between -2^63 and 2^63 - 1 - 62135596800. *)
Definition representable (t : Time) : bool :=
  (- 2 ^ 63 <=? t / Second) && (t / Second <=? 2 ^ 63 - 1 - unixToInternal).

(** A base-10 integer literal, as the specification words it: an optional
    sign and one or more decimal digits; [decimalInteger] is the integer it
    names. *)
Fixpoint all_digits (s : string) : bool :=
  match s with
  | EmptyString => true
  | String c s' => is_digit c && all_digits s'
  end.

Fixpoint digits_value (s : string) (acc : Z) : Z :=
  match s with
  | EmptyString => acc
  | String c s' => digits_value s' (acc * 10 + (byte c - 48))
  end.

Definition decimalInteger (s : string) : option Z :=
  match s with
  | EmptyString => None
  | String c s' =>
      let '(neg, ds) :=
        if eqb_ascii c "+" then (false, s')
        else if eqb_ascii c "-" then (true, s')
        else (false, s) in
      match ds with
      | EmptyString => None
      | _ =>
          if all_digits ds
          then Some (if neg then - digits_value ds 0 else digits_value ds 0)
          else None
      end
  end.

(** The literal names a Unix time in seconds: an integer of 64 bits. *)
Definition decimalInt64 (s : string) : option Z :=
  match decimalInteger s with
  | Some n => if (- 2 ^ 63 <=? n) && (n <? 2 ^ 63) then Some n else None
  | None => None
  end.

(** ** Outcomes of the shared blocks *)

(** The three ways through the end-time block. *)
Inductive EndsAtOutcome (cfg : Config) (startsAt : Time)
    : Handler (option Time) -> Prop :=
| EndsAtNone :
    EndsAtDuration cfg = "" ->
    EndsAtOutcome cfg startsAt ([EvLog LevelInfo "No EndsAt time set"], Next None)
| EndsAtSome d :
    EndsAtDuration cfg <> "" ->
    ParseDuration (EndsAtDuration cfg) = Ok d ->
    EndsAtOutcome cfg startsAt
      ([EvLog LevelInfo "Calculated EndsAt time"],
       Next (Some (Time_Add startsAt d)))
| EndsAtInvalid e :
    EndsAtDuration cfg <> "" ->
    ParseDuration (EndsAtDuration cfg) = Err e ->
    EndsAtOutcome cfg startsAt
      ([EvWriteHeader StatusBadRequest;
        EvWrite ("Invalid ends-at duration" +:+ newline);
        EvLog LevelError "Invalid ends-at duration"], Return).

(** The ways through the forwarding block. *)
Inductive ForwardOutcome {P} (env : Env P) (cfg : Config) (a : V2Alert)
    : Handler unit -> Prop :=
| FwdMarshalFailed e :
    json_Marshal env [a] = Err e ->
    ForwardOutcome env cfg a
      ([EvWriteHeader StatusInternalServerError;
        EvWrite ("Failed to serialize Alertmanager payload" +:+ newline);
        EvLog LevelError "Failed to serialize Alertmanager payload"], Return)
| FwdPostFailed bytes e :
    json_Marshal env [a] = Ok bytes ->
    http_Post env (AlertmanagerURL cfg +:+ "/api/v2/alerts")
      "application/json" bytes = Err e ->
    ForwardOutcome env cfg a
      ([EvLog LevelDebug "Sending payload to Alertmanager";
        EvPost (AlertmanagerURL cfg +:+ "/api/v2/alerts") "application/json" bytes;
        EvWriteHeader StatusInternalServerError;
        EvWrite ("Failed to send payload to Alertmanager" +:+ newline);
        EvLog LevelError "Failed to send payload to Alertmanager"], Return)
| FwdRefused bytes resp :
    json_Marshal env [a] = Ok bytes ->
    http_Post env (AlertmanagerURL cfg +:+ "/api/v2/alerts")
      "application/json" bytes = Ok resp ->
    StatusCode resp <> StatusOK ->
    ForwardOutcome env cfg a
      ([EvLog LevelDebug "Sending payload to Alertmanager";
        EvPost (AlertmanagerURL cfg +:+ "/api/v2/alerts") "application/json" bytes;
        EvWriteHeader StatusInternalServerError;
        EvWrite (("Error from Alertmanager: " +:+ RespBody resp) +:+ newline);
        EvLog LevelError "Error from Alertmanager"], Return)
| FwdAccepted bytes resp :
    json_Marshal env [a] = Ok bytes ->
    http_Post env (AlertmanagerURL cfg +:+ "/api/v2/alerts")
      "application/json" bytes = Ok resp ->
    StatusCode resp = StatusOK ->
    ForwardOutcome env cfg a
      ([EvLog LevelDebug "Sending payload to Alertmanager";
        EvPost (AlertmanagerURL cfg +:+ "/api/v2/alerts") "application/json" bytes;
        EvWriteHeader StatusOK;
        EvWrite ("Payload successfully forwarded to Alertmanager" +:+ newline);
        EvLog LevelInfo "Payload successfully forwarded to Alertmanager"],
       Next tt).

(** The two ways through [Part002.buildAlert]: an early return with status
    400 and nothing sent, or the alert built from a decoded payload whose
    ["_time"] parses. *)
Inductive Built002 (env : Env Part002.SplunkPayload) (cfg : Config)
    (r : Request) : Handler V2Alert -> Prop :=
| Rejected002 t :
    status_of t = Some StatusBadRequest ->
    posts_of t = [] ->
    Built002 env cfg r (t, Return)
| Alert002 t body p s n endsAt :
    Body r = Ok body ->
    json_Unmarshal env body = Ok p ->
    Part002.Result p !! "_time" = Some (JString s) ->
    ParseInt s = Ok n ->
    produced (computeEndsAt cfg (time_Unix n 0)) = Some endsAt ->
    status_of t = None ->
    posts_of t = [] ->
    body_of t = "" ->
    Built002 env cfg r
      (t, Next {| Status := "firing";
                  Labels := Part002.buildLabels cfg (Part002.Result p);
                  Annotations := Part002.buildAnnotations p;
                  StartsAt := time_Unix n 0;
                  EndsAt := endsAt;
                  GeneratorURL := Part002.ResultsLink p |}).

(** The two ways through [Archive.buildAlert]. *)
Inductive BuiltArchive (env : Env Archive.SplunkWebhook) (cfg : Config)
    (r : Request) : Handler V2Alert -> Prop :=
| RejectedArchive t :
    status_of t = Some StatusBadRequest ->
    posts_of t = [] ->
    BuiltArchive env cfg r (t, Return)
| AlertArchive t body p endsAt :
    Body r = Ok body ->
    json_Unmarshal env body = Ok p ->
    produced (computeEndsAt cfg (time_Now env)) = Some endsAt ->
    status_of t = None ->
    posts_of t = [] ->
    body_of t = "" ->
    BuiltArchive env cfg r
      (t, Next {| Status := "firing";
                  Labels := fst (Archive.extract p);
                  Annotations := snd (Archive.extract p);
                  StartsAt := time_Now env;
                  EndsAt := endsAt;
                  GeneratorURL := Archive.ResultsLink p |}).

(** ** The logger  (pkg/logger/logger.go) *)

(** The numeric value of an [slog.Level]. *)
Definition slogLevel (l : Level) : Z :=
  match l with
  | LevelDebug => -4
  | LevelInfo => 0
  | LevelWarn => 4
  | LevelError => 8
  end.

Inductive HandlerKind : Type := TextHandler | JSONHandler.

(** A [*slog.Logger] as [NewLogger] builds it: the kind of handler and the
    minimum level given in its [HandlerOptions]. *)
Record Logger : Type := {
  handlerKind : HandlerKind;
  handlerLevel : Level
}.

Definition NewLogger (logLevel logFormat : string) : Logger :=
  let level :=
    if String.eqb logLevel "debug" then LevelDebug
    else if String.eqb logLevel "info" then LevelInfo
    else if String.eqb logLevel "warn" then LevelWarn
    else if String.eqb logLevel "error" then LevelError
    else LevelInfo in
  if String.eqb logFormat "json"
  then {| handlerKind := JSONHandler; handlerLevel := level |}
  else {| handlerKind := TextHandler; handlerLevel := level |}.

(** [Enabled]: a record is handled when its level is not below the minimum
    level of the handler. *)
Definition Enabled (lg : Logger) (l : Level) : bool :=
  slogLevel (handlerLevel lg) <=? slogLevel l.

(** What a run writes to the log through the logger [lg]. *)
Fixpoint written (lg : Logger) (t : list Event) : list (Level * string) :=
  match t with
  | [] => []
  | EvLog lvl msg :: t' =>
      if Enabled lg lvl then (lvl, msg) :: written lg t' else written lg t'
  | _ :: t' => written lg t'
  end.

(** ** Further vocabulary *)

(** The number of times a run sets the response status. *)
Fixpoint count_headers (t : list Event) : nat :=
  match t with
  | [] => O
  | EvWriteHeader _ :: t' => S (count_headers t')
  | _ :: t' => count_headers t'
  end.

(** The messages a run logs at the level [Error]. *)
Fixpoint error_logs (t : list Event) : list string :=
  match t with
  | [] => []
  | EvLog LevelError msg :: t' => msg :: error_logs t'
  | _ :: t' => error_logs t'
  end.

(** [strings.Join(elems, sep)] for a one-byte separator. *)
Fixpoint Join (elems : list string) (sep : ascii) : string :=
  match elems with
  | [] => EmptyString
  | x :: rest =>
      match rest with
      | [] => x
      | _ => x +:+ String sep (Join rest sep)
      end
  end.

(** [strings.IndexByte(s, c) >= 0] *)
Fixpoint has_byte (c : ascii) (s : string) : bool :=
  match s with
  | EmptyString => false
  | String x s' => eqb_ascii x c || has_byte c s'
  end.

(** A serialiser that fails, as [json.Marshal] does on a time whose year is
    outside 0..9999. *)
Definition failingMarshal (alerts : list V2Alert) : result string :=
  Err (ErrMsg "json: error calling MarshalJSON for type time.Time").

Definition worldPart002Marshal (marshal : list V2Alert -> result string)
    (resp : result HTTPResponse) : Env Part002.SplunkPayload := {|
  json_Unmarshal := GoJSON.UnmarshalPart002;
  json_Marshal := marshal;
  http_Post := fun _ _ _ => resp;
  time_Now := 0
|}.

Definition worldArchiveMarshal (marshal : list V2Alert -> result string)
    (resp : result HTTPResponse) : Env Archive.SplunkWebhook := {|
  json_Unmarshal := GoJSON.UnmarshalArchive;
  json_Marshal := marshal;
  http_Post := fun _ _ _ => resp;
  time_Now := 0
|}.

(** A destination that cannot be reached. *)
Definition respRefused : result HTTPResponse :=
  Err (ErrMsg "dial tcp: connection refused").

(** A request whose body cannot be read to its end. *)
Definition requestUnread : Request :=
  {| Body := Err (ErrMsg "unexpected EOF") |}.

(** Lines 61-83 of the archive with the loop visiting the entries in the
    order of [order]: what the run computes when the runtime enumerates the
    map in that order. *)
Definition extractVisiting (order : list (string * JSON))
    (splunkPayload : Archive.SplunkWebhook)
    : gmap string string * gmap string string :=
  let '(labels, annotations) :=
    foldl (fun st kv => Archive.rangeBody kv.1 kv.2 st) (∅, ∅) order in
  let labels := <["alertname" := Archive.SearchName splunkPayload]> labels in
  let labels := <["app" := Archive.App splunkPayload]> labels in
  let annotations :=
    <["summary" := "Alert triggered in Splunk: " +:+ Archive.SearchName splunkPayload]>
      annotations in
  let annotations :=
    <["link" := Archive.ResultsLink splunkPayload]> annotations in
  (labels, annotations).

(** The one POST a run can make for the alert [a]. *)
Definition postFor {P} (env : Env P) (cfg : Config) (a : V2Alert)
    : list (string * string * string) :=
  match json_Marshal env [a] with
  | Ok bytes =>
      [(AlertmanagerURL cfg +:+ "/api/v2/alerts", "application/json", bytes)]
  | Err _ => []
  end.

(** The steps that take [Part002.HandleSplunkWebhook] apart, one path per
    goal, each with the trace of that path written out; [ends_outcome] and
    [fwd_outcome] are the lemmas on the two shared blocks. *)
Ltac walk_Part002 env cfg r ends_outcome fwd_outcome :=
  unfold Part002.HandleSplunkWebhook, Part002.buildAlert;
  let body := fresh "body" in
  let p := fresh "p" in
  let v := fresh "v" in
  let n := fresh "n" in
  let e := fresh "e" in
  destruct (Body r) as [body|e] eqn:?HBody; simpl;
  [ destruct (json_Unmarshal env body) as [p|e] eqn:?HDecode; simpl;
    [ destruct (Part002.Result p !! "_time") as [v|] eqn:?HTime; simpl;
      [ destruct v as [| | |?s| |]; simpl;
        [ | | |
          match goal with
          | |- context [ParseInt ?s] =>
              destruct (ParseInt s) as [n|e] eqn:?HParse; simpl;
              [ destruct (ends_outcome cfg (time_Unix n 0)); simpl;
                [ match goal with
                  | |- context [forward env cfg ?a] =>
                      destruct (fwd_outcome _ env cfg a); simpl
                  end
                | match goal with
                  | |- context [forward env cfg ?a] =>
                      destruct (fwd_outcome _ env cfg a); simpl
                  end
                | ]
              | ]
          end
        | | ]
      | ]
    | ]
  | ].

(** The same for [Archive.HandleSplunkWebhook]. *)
Ltac walk_Archive env cfg r ends_outcome fwd_outcome :=
  unfold Archive.HandleSplunkWebhook, Archive.buildAlert;
  let body := fresh "body" in
  let p := fresh "p" in
  let e := fresh "e" in
  destruct (Body r) as [body|e] eqn:?HBody; simpl;
  [ destruct (json_Unmarshal env body) as [p|e] eqn:?HDecode; simpl;
    [ destruct (Archive.extract p) as [?labels ?annotations] eqn:?HExtract;
      simpl;
      destruct (ends_outcome cfg (time_Now env)); simpl;
      [ match goal with
        | |- context [forward env cfg ?a] =>
            destruct (fwd_outcome _ env cfg a); simpl
        end
      | match goal with
        | |- context [forward env cfg ?a] =>
            destruct (fwd_outcome _ env cfg a); simpl
        end
      | ]
    | ]
  | ].

(* ===================================================================== *)
(** * Part II: properties                                                 *)
(* ===================================================================== *)

(** ** Traces *)

Lemma status_of_app (t1 t2 : list Event) :
  status_of (t1 ++ t2) =
  match status_of t1 with Some c => Some c | None => status_of t2 end.
Proof.
  induction t1 as [|e t1 IH]; [reflexivity|].
  destruct e; simpl; auto.
Qed.

Lemma posts_of_app (t1 t2 : list Event) :
  posts_of (t1 ++ t2) = (posts_of t1 ++ posts_of t2)%list.
Proof.
  induction t1 as [|e t1 IH]; [reflexivity|].
  destruct e; simpl; rewrite ?IH; reflexivity.
Qed.

Lemma trace_bind {A B} (m : Handler A) (f : A -> Handler B) :
  trace (bind m f) =
  (trace m ++ match produced m with
              | Some a => trace (f a)
              | None => []
              end)%list.
Proof.
  destruct m as [t [a|]]; unfold bind, trace, produced; simpl.
  - destruct (f a); reflexivity.
  - rewrite app_nil_r; reflexivity.
Qed.

Lemma produced_bind {A B} (m : Handler A) (f : A -> Handler B) :
  produced (bind m f) =
  match produced m with
  | Some a => produced (f a)
  | None => None
  end.
Proof.
  destruct m as [t [a|]]; unfold bind, produced; simpl; [|reflexivity].
  destruct (f a); reflexivity.
Qed.

(** ** Strings *)

Lemma eqb_ascii_eq (a b : ascii) : eqb_ascii a b = true <-> a = b.
Proof.
  unfold eqb_ascii, byte. rewrite Z.eqb_eq. split; [|intros ->; reflexivity].
  intros H. apply N2Z.inj in H.
  rewrite <- (ascii_N_embedding a), <- (ascii_N_embedding b), H. reflexivity.
Qed.

Lemma app_String (c : ascii) (p s : string) :
  String c p +:+ s = String c (p +:+ s).
Proof. reflexivity. Qed.

Lemma app_Empty (s : string) : "" +:+ s = s.
Proof. reflexivity. Qed.

Lemma HasPrefix_app (p s : string) : HasPrefix (p +:+ s) p = true.
Proof.
  induction p as [|c p IH]; [reflexivity|].
  rewrite app_String. simpl.
  rewrite IH, andb_true_r. apply eqb_ascii_eq; reflexivity.
Qed.

Lemma HasPrefix_inv (s p : string) :
  HasPrefix s p = true -> s = p +:+ drop_bytes (String.length p) s.
Proof.
  revert s; induction p as [|c p IH]; intros s H; simpl in *; [reflexivity|].
  destruct s as [|d s]; [discriminate|].
  apply andb_prop in H as [Hc Hp]. apply eqb_ascii_eq in Hc; subst d.
  rewrite app_String. simpl. f_equal. apply IH, Hp.
Qed.

Lemma drop_bytes_app (p s : string) : drop_bytes (String.length p) (p +:+ s) = s.
Proof. induction p; [reflexivity|]. rewrite app_String. simpl. auto. Qed.

Lemma TrimPrefix_app (p s : string) : TrimPrefix (p +:+ s) p = s.
Proof. unfold TrimPrefix. rewrite HasPrefix_app. apply drop_bytes_app. Qed.

Lemma TrimPrefix_inv (s p : string) :
  HasPrefix s p = true -> p +:+ TrimPrefix s p = s.
Proof.
  intros H. unfold TrimPrefix. rewrite H. symmetry. apply HasPrefix_inv, H.
Qed.

Lemma Contains_head (s p : string) : HasPrefix s p = true -> Contains s p = true.
Proof. intros H. destruct s; simpl; rewrite H; reflexivity. Qed.

Lemma Contains_app (a b c : string) : Contains (a +:+ (b +:+ c)) b = true.
Proof.
  induction a as [|x a IH].
  - rewrite app_Empty. apply Contains_head, HasPrefix_app.
  - rewrite app_String. simpl. rewrite IH. apply orb_true_r.
Qed.

Lemma app_assoc_string (a b c : string) : (a +:+ b) +:+ c = a +:+ (b +:+ c).
Proof.
  induction a as [|x a IH]; [reflexivity|].
  rewrite !app_String, IH. reflexivity.
Qed.

(** ** The loop of [time.ParseDuration] never runs out of passes *)

Lemma leadingInt_go_length (s : string) (x v : Z) (r : string) :
  leadingInt_go s x = Ok (v, r) -> (String.length r <= String.length s)%nat.
Proof.
  revert x; induction s as [|c s IH]; intros x H; simpl in H.
  - injection H as _ <-. reflexivity.
  - destruct (is_digit c); simpl in H; [|injection H as _ <-; reflexivity].
    destruct (x >? 2 ^ 63 / 10); [discriminate|].
    destruct (_ >? 2 ^ 63); [discriminate|].
    apply IH in H. simpl. lia.
Qed.

Lemma leadingFraction_go_length (s : string) (x : Z) (scale : PrimFloat.float)
    (overflow : bool) :
  (String.length (leadingFraction_go s x scale overflow).2
   <= String.length s)%nat.
Proof.
  revert x scale overflow; induction s as [|c s IH]; intros x scale overflow;
    simpl; [reflexivity|].
  destruct (is_digit c); simpl; [|reflexivity].
  destruct overflow; [etransitivity; [apply IH|lia]|].
  destruct (x >? (2 ^ 63 - 1) / 10); [etransitivity; [apply IH|lia]|].
  destruct (_ >? 2 ^ 63); etransitivity; try apply IH; lia.
Qed.

Lemma span_unit_length (s : string) :
  String.length s
  = (String.length (span_unit s).1 + String.length (span_unit s).2)%nat.
Proof.
  induction s as [|c s IH]; simpl; [reflexivity|].
  destruct (eqb_ascii c "." || is_digit c); simpl; [reflexivity|].
  destruct (span_unit s) as [u r]. simpl in *. lia.
Qed.

(** Every pass consumes at least one byte: the unit is not empty. *)
Lemma ParseDuration_term_consumes (s : string) (v : Z) (s' : string) :
  ParseDuration_term s = Ok (v, s') ->
  (String.length s' < String.length s)%nat.
Proof.
  unfold ParseDuration_term. destruct s as [|c s0]; [discriminate|].
  set (s := String c s0).
  destruct (negb (eqb_ascii c "." || is_digit c)); [discriminate|].
  unfold leadingInt.
  destruct (leadingInt_go s 0) as [[v0 s1]|e] eqn:Hint; [|discriminate].
  apply leadingInt_go_length in Hint.
  assert (Hfrac : forall f scale s2 post,
    (String.length s2 <= String.length s1)%nat ->
    (if negb (negb (String.length s =? String.length s1)%nat) && negb post
     then Err errInvalidDuration
     else
       let '(u, s3) := span_unit s2 in
       match u with
       | EmptyString => Err errMissingUnit
       | _ =>
           match assoc_string u unitMap with
           | None => Err errUnknownUnit
           | Some unit =>
               if v0 >? 2 ^ 63 / unit then Err errInvalidDuration
               else
                 let v1 := u64 (v0 * unit) in
                 if f >? 0 then
                   let v2 :=
                     u64 (v1 + uint64_of_float64
                            (PrimFloat.mul (float64_of_uint64 f)
                               (PrimFloat.div (float64_of_uint64 unit) scale))) in
                   if v2 >? 2 ^ 63 then Err errInvalidDuration
                   else Ok (v2, s3)
                 else Ok (v1, s3)
           end
       end) = Ok (v, s') ->
    (String.length s' < String.length s)%nat).
  { intros f scale s2 post Hle H.
    destruct (_ && _); [discriminate|].
    pose proof (span_unit_length s2) as Hu.
    destruct (span_unit s2) as [u s3]. simpl in Hu.
    destruct u as [|cu u]; [discriminate|].
    destruct (assoc_string _ unitMap) as [unit|]; [|discriminate].
    destruct (v0 >? 2 ^ 63 / unit); [discriminate|].
    assert (Hs3 : (String.length s3 < String.length s)%nat)
      by (simpl in Hu; lia).
    destruct (f >? 0).
    - cbv zeta in H. destruct (_ >? 2 ^ 63); [discriminate|].
      injection H as _ <-. exact Hs3.
    - injection H as _ <-. exact Hs3. }
  destruct s1 as [|c1 s1'].
  - apply Hfrac. reflexivity.
  - destruct (eqb_ascii c1 ".").
    + pose proof (leadingFraction_go_length s1' 0 PrimFloat.one false) as Hlen.
      unfold leadingFraction.
      destruct (leadingFraction_go s1' 0 PrimFloat.one false) as [[f scale] r].
      simpl in Hlen. apply Hfrac. simpl. lia.
    + apply Hfrac. reflexivity.
Qed.

(** So any number of passes at least the length of the input gives the
    result of [ParseDuration_loop] at exactly that length: the bound in
    [ParseDuration] is never what stops the loop. *)
Lemma ParseDuration_loop_fuel (fuel : nat) (s : string) (d : Z) :
  (String.length s <= fuel)%nat ->
  ParseDuration_loop fuel s d = ParseDuration_loop (String.length s) s d.
Proof.
  revert s d.
  induction fuel as [fuel IH] using (well_founded_induction lt_wf).
  intros s d Hlen. destruct s as [|c s0]; [destruct fuel; reflexivity|].
  set (s := String c s0) in *.
  destruct fuel as [|fuel']; [simpl in Hlen; lia|].
  change (String.length s) with (S (String.length s0)).
  change (ParseDuration_loop (S fuel') s d) with
    (match ParseDuration_term s with
     | Err e => Err e
     | Ok (v, s') =>
         let d' := u64 (d + v) in
         if d' >? 2 ^ 63 then Err errInvalidDuration
         else ParseDuration_loop fuel' s' d'
     end).
  change (ParseDuration_loop (S (String.length s0)) s d) with
    (match ParseDuration_term s with
     | Err e => Err e
     | Ok (v, s') =>
         let d' := u64 (d + v) in
         if d' >? 2 ^ 63 then Err errInvalidDuration
         else ParseDuration_loop (String.length s0) s' d'
     end).
  destruct (ParseDuration_term s) as [[v s']|e] eqn:Hterm; [|reflexivity].
  apply ParseDuration_term_consumes in Hterm.
  cbv zeta. destruct (_ >? 2 ^ 63); [reflexivity|].
  change (String.length s) with (S (String.length s0)) in Hterm.
  simpl in Hlen.
  rewrite (IH fuel') by lia.
  rewrite (IH (String.length s0)) by lia. reflexivity.
Qed.

(** ** The shared blocks *)

Lemma computeEndsAt_outcome (cfg : Config) (startsAt : Time) :
  EndsAtOutcome cfg startsAt (computeEndsAt cfg startsAt).
Proof.
  unfold computeEndsAt.
  destruct (String.eqb_spec (EndsAtDuration cfg) "") as [He|Hne]; simpl.
  - apply EndsAtNone, He.
  - destruct (ParseDuration (EndsAtDuration cfg)) as [d|e] eqn:Hd.
    + apply (EndsAtSome cfg startsAt d); auto.
    + apply (EndsAtInvalid cfg startsAt e); auto.
Qed.

Lemma ParseDuration_empty : ParseDuration "" = Err errInvalidDuration.
Proof. reflexivity. Qed.

(** An end time is computed exactly when the offset is absent or parses. *)
Lemma computeEndsAt_produced (cfg : Config) (startsAt : Time) :
  durationOK cfg <-> exists e, produced (computeEndsAt cfg startsAt) = Some e.
Proof.
  split.
  - intros Hok. destruct (computeEndsAt_outcome cfg startsAt) as [He|d Hne Hd|e Hne Hd].
    + eexists; reflexivity.
    + eexists; reflexivity.
    + destruct Hok as [He|[d Hd']]; congruence.
  - intros [e He]. destruct (computeEndsAt_outcome cfg startsAt) as [H0|d Hne Hd|e' Hne Hd].
    + left; exact H0.
    + right; eauto.
    + discriminate He.
Qed.

Lemma forward_outcome {P} (env : Env P) (cfg : Config) (a : V2Alert) :
  ForwardOutcome env cfg a (forward env cfg a).
Proof.
  unfold forward.
  destruct (json_Marshal env [a]) as [bytes|e] eqn:Hm; simpl.
  - destruct (http_Post env (AlertmanagerURL cfg +:+ "/api/v2/alerts")
                "application/json" bytes) as [resp|e] eqn:Hp; simpl.
    + destruct (Z.eqb_spec (StatusCode resp) StatusOK) as [Hs|Hs]; simpl.
      * eapply FwdAccepted; eauto.
      * eapply FwdRefused; eauto.
    + eapply FwdPostFailed; eauto.
  - eapply FwdMarshalFailed; eauto.
Qed.

(** ** The two revisions, path by path *)

Lemma Part002_buildAlert_outcome env cfg r :
  Built002 env cfg r (Part002.buildAlert env cfg r).
Proof.
  unfold Part002.buildAlert.
  destruct (Body r) as [body|e] eqn:Hb; simpl;
    [|apply Rejected002; reflexivity].
  destruct (json_Unmarshal env body) as [p|e] eqn:Hu; simpl;
    [|apply Rejected002; reflexivity].
  destruct (Part002.Result p !! "_time") as [v|] eqn:Ht; simpl;
    [|apply Rejected002; reflexivity].
  destruct v as [|b|lit|s|l|m]; simpl; try (apply Rejected002; reflexivity).
  destruct (ParseInt s) as [n|e] eqn:Hn; simpl;
    [|apply Rejected002; reflexivity].
  destruct (computeEndsAt_outcome cfg (time_Unix n 0)) as [He|d Hne Hd|e Hne Hd];
    simpl.
  - eapply Alert002; eauto. unfold computeEndsAt. rewrite He. reflexivity.
  - eapply Alert002; eauto. unfold computeEndsAt.
    destruct (String.eqb_spec (EndsAtDuration cfg) ""); [contradiction|].
    simpl. rewrite Hd. reflexivity.
  - apply Rejected002; reflexivity.
Qed.

Lemma Archive_buildAlert_outcome env cfg r :
  BuiltArchive env cfg r (Archive.buildAlert env cfg r).
Proof.
  unfold Archive.buildAlert.
  destruct (Body r) as [body|e] eqn:Hb; simpl;
    [|apply RejectedArchive; reflexivity].
  destruct (json_Unmarshal env body) as [p|e] eqn:Hu; simpl;
    [|apply RejectedArchive; reflexivity].
  destruct (Archive.extract p) as [labels annotations] eqn:Hx; simpl.
  destruct (computeEndsAt_outcome cfg (time_Now env)) as [He|d Hne Hd|e Hne Hd];
    simpl.
  - replace labels with (fst (Archive.extract p)) by (rewrite Hx; reflexivity).
    replace annotations with (snd (Archive.extract p)) by (rewrite Hx; reflexivity).
    eapply AlertArchive; eauto. unfold computeEndsAt. rewrite He. reflexivity.
  - replace labels with (fst (Archive.extract p)) by (rewrite Hx; reflexivity).
    replace annotations with (snd (Archive.extract p)) by (rewrite Hx; reflexivity).
    eapply AlertArchive; eauto. unfold computeEndsAt.
    destruct (String.eqb_spec (EndsAtDuration cfg) ""); [contradiction|].
    simpl. rewrite Hd. reflexivity.
  - apply RejectedArchive; reflexivity.
Qed.

(** ** The label loops of [Part002] *)

Lemma copyLabel_lookup (R : gmap string JSON) (L : gmap string string)
    (key k : string) :
  Part002.copyLabel R L key !! k =
  if decide (k = key)
  then match assert_string (R !! key) with Some s => Some s | None => L !! k end
  else L !! k.
Proof.
  unfold Part002.copyLabel.
  destruct (decide (k = key)) as [->|Hne].
  - destruct (R !! key) as [[| | |s| |]|]; simpl; try reflexivity.
    apply lookup_insert_eq.
  - destruct (R !! key) as [[| | |s| |]|]; simpl; try reflexivity.
    apply lookup_insert_ne. congruence.
Qed.

(** A loop that copies the keys of [l] for which [skip] is false. *)
Lemma copy_loop_lookup (R : gmap string JSON) (skip : string -> bool)
    (l : list string) (L : gmap string string) (k : string) (s : string) :
  foldl (fun labels key =>
           if skip key then labels else Part002.copyLabel R labels key) L l
    !! k = Some s <->
  (k ∈ l /\ skip k = false /\ R !! k = Some (JString s)) \/
  (~ (k ∈ l /\ skip k = false /\ exists s', R !! k = Some (JString s')) /\
   L !! k = Some s).
Proof.
  revert L; induction l as [|x l IH]; intros L; simpl.
  - split.
    + intros H. right. split; [|exact H]. intros [Hin _]. inversion Hin.
    + intros [[Hin _]|[_ H]]; [inversion Hin|exact H].
  - rewrite IH. clear IH.
    assert (Hstep :
      (if skip x then L else Part002.copyLabel R L x) !! k = Some s <->
      (k = x /\ skip k = false /\ R !! k = Some (JString s)) \/
      (~ (k = x /\ skip k = false /\ exists s', R !! k = Some (JString s')) /\
       L !! k = Some s)).
    { destruct (skip x) eqn:Hsk.
      - split.
        + intros H. right. split; [|exact H]. intros (-> & Hk & _). congruence.
        + intros [(-> & Hk & _)|[_ H]]; [congruence|exact H].
      - rewrite copyLabel_lookup. destruct (decide (k = x)) as [->|Hne].
        + destruct (R !! x) as [[| | |s0| |]|] eqn:HR; simpl;
            (split;
             [ intros H; first [ left; repeat split; congruence
                               | right; split; [intros (_ & _ & s' & Hs'); congruence|exact H] ]
             | intros [(_ & _ & H)|[Hn H]];
               [ congruence
               | first [exact H | exfalso; apply Hn; repeat split; eauto] ] ]).
        + split.
          * intros H. right. split; [|exact H]. intros (-> & _); congruence.
          * intros [(-> & _)|[_ H]]; [congruence|exact H]. }
    rewrite Hstep, elem_of_cons. clear Hstep.
    split.
    + intros [(Hin & Hk & HR)|[Hn [(-> & Hk & HR)|[Hn' HL]]]].
      * left. auto.
      * left. auto.
      * right. split; [|exact HL].
        intros ([->|Hin] & Hk & Hs); [apply Hn'|apply Hn]; auto.
    + intros [([->|Hin] & Hk & HR)|[Hn HL]].
      * destruct (decide (x ∈ l)) as [Hin|Hnin]; [left; auto|].
        right. split; [intros (Hin & _); contradiction|]. left; auto.
      * left; auto.
      * right. split; [intros (Hin & Hk & Hs); apply Hn; auto|].
        right. split; [intros (-> & Hk & Hs); apply Hn; auto|exact HL].
Qed.

Lemma foldl_copyLabel_skip (R : gmap string JSON) (l : list string)
    (L : gmap string string) :
  foldl (Part002.copyLabel R) L l =
  foldl (fun labels key =>
           if (fun _ : string => false) key then labels
           else Part002.copyLabel R labels key) L l.
Proof. reflexivity. Qed.

(** The label set of [Part002], entry by entry. *)
Lemma buildLabels_lookup (cfg : Config) (R : gmap string JSON) (k s : string) :
  Part002.buildLabels cfg R !! k = Some s <->
  allowed cfg k /\ R !! k = Some (JString s).
Proof.
  unfold Part002.buildLabels, allowed.
  rewrite (copy_loop_lookup R (fun key => String.eqb key "")).
  rewrite foldl_copyLabel_skip, (copy_loop_lookup R (fun _ => false)).
  rewrite lookup_empty.
  split.
  - intros [(Hin & Hk & HR)|[_ [(Hin & _ & HR)|[_ H]]]].
    + split; [right; split; [exact Hin|]|exact HR].
      apply String.eqb_neq, Hk.
    + split; [left; exact Hin|exact HR].
    + discriminate H.
  - intros [[Hin|[Hin Hne]] HR].
    + destruct (decide (k ∈ AdditionalLabels cfg /\ (k =? "")%string = false))
        as [[Hin' Hk]|Hn].
      * left; auto.
      * right. split; [intros (H1 & H2 & _); apply Hn; auto|].
        left; auto.
    + left. repeat split; auto. apply String.eqb_neq, Hne.
Qed.

(** Two result maps that agree on the string-valued entries at the allowed
    keys give the same labels. *)
Lemma buildLabels_ext (cfg : Config) (R1 R2 : gmap string JSON) :
  (forall k s, allowed cfg k ->
     (R1 !! k = Some (JString s) <-> R2 !! k = Some (JString s))) ->
  Part002.buildLabels cfg R1 = Part002.buildLabels cfg R2.
Proof.
  intros H. apply map_eq; intros k. apply option_eq; intros s.
  rewrite !buildLabels_lookup. split; intros [Ha HR]; (split; [exact Ha|]);
    apply (H k s Ha); exact HR.
Qed.

(** ** The range loop of [Archive] *)

(** After the loop: the labels are the string-valued entries whose key does
    not start with ["ann."], the annotations those whose key does, under the
    key without the prefix. *)
Lemma range_lookup (R : gmap string JSON) :
  let st := map_fold Archive.rangeBody (∅, ∅) R in
  (forall k s, st.1 !! k = Some s <->
     R !! k = Some (JString s) /\ HasPrefix k "ann." = false) /\
  (forall k s, st.2 !! k = Some s <-> R !! ("ann." +:+ k) = Some (JString s)).
Proof.
  cbn zeta. apply (map_fold_weak_ind
    (fun (st : gmap string string * gmap string string) (m : gmap string JSON) =>
       (forall k s, st.1 !! k = Some s <->
          m !! k = Some (JString s) /\ HasPrefix k "ann." = false) /\
       (forall k s, st.2 !! k = Some s <-> m !! ("ann." +:+ k) = Some (JString s)))).
  - split; intros k s; cbn [fst snd]; rewrite !lookup_empty; split;
      [discriminate|intros [H _]; discriminate|discriminate|discriminate].
  - intros i x m [L A] Hi [HL HA]. cbn [fst snd] in HL, HA.
    assert (Hlab_keep : forall k s,
      (x = JString s /\ k = i -> HasPrefix i "ann." = true) ->
      (L !! k = Some s <->
       <[i:=x]> m !! k = Some (JString s) /\ HasPrefix k "ann." = false)).
    { intros k s Hx. rewrite HL. destruct (decide (k = i)) as [->|Hne].
      - rewrite lookup_insert_eq, Hi. split.
        + intros [H _]; discriminate.
        + intros [H Hp]. injection H as ->. rewrite Hx in Hp by auto. discriminate.
      - rewrite lookup_insert_ne by congruence. reflexivity. }
    assert (Hann_keep : forall k s,
      (x = JString s /\ "ann." +:+ k = i -> False) ->
      (A !! k = Some s <-> <[i:=x]> m !! ("ann." +:+ k) = Some (JString s))).
    { intros k s Hx. rewrite HA. destruct (decide ("ann." +:+ k = i)) as [<-|Hne].
      - rewrite lookup_insert_eq, Hi. split; [discriminate|].
        intros H. injection H as ->. exfalso; apply Hx; auto.
      - rewrite lookup_insert_ne by congruence. reflexivity. }
    unfold Archive.rangeBody.
    destruct x as [|b|lit|str|l|ms];
      try (split; intros k s; cbn [fst snd];
           [apply Hlab_keep|apply Hann_keep]; intros [Hx _]; discriminate Hx).
    destruct (HasPrefix i "ann.") eqn:Hp; cbn [fst snd]; split; intros k s.
    + apply Hlab_keep. auto.
    + destruct (decide (k = TrimPrefix i "ann.")) as [->|Hne].
      * rewrite TrimPrefix_inv by exact Hp. rewrite !lookup_insert_eq.
        split; intros H; injection H as ->; reflexivity.
      * rewrite lookup_insert_ne by congruence.
        apply Hann_keep. intros [_ Hk]. apply Hne. rewrite <- Hk.
        symmetry. apply TrimPrefix_app.
    + destruct (decide (k = i)) as [->|Hne].
      * rewrite !lookup_insert_eq. split.
        -- intros H; injection H as ->. auto.
        -- intros [H _]; injection H as ->. reflexivity.
      * rewrite !lookup_insert_ne by congruence. rewrite HL. reflexivity.
    + apply Hann_keep. intros [_ Hk]. rewrite <- Hk, HasPrefix_app in Hp.
      discriminate.
Qed.

(** The loop does not depend on the order in which the entries are visited:
    any enumeration of the map without repeated keys gives the same two maps
    as the one [map_fold] uses. *)
Lemma range_list_lookup (l : list (string * JSON)) :
  NoDup l.*1 ->
  let st := foldr (fun kv => Archive.rangeBody kv.1 kv.2) (∅, ∅) l in
  (forall k s, st.1 !! k = Some s <->
     (k, JString s) ∈ l /\ HasPrefix k "ann." = false) /\
  (forall k s, st.2 !! k = Some s <-> ("ann." +:+ k, JString s) ∈ l).
Proof.
  induction l as [|[i x] l IH]; intros Hnd; cbn [foldr fst snd].
  - split; intros k s; rewrite lookup_empty, elem_of_nil; split;
      [discriminate|intros [[] _]|discriminate|intros []].
  - cbn [fmap list_fmap fst] in Hnd. apply NoDup_cons in Hnd as [Hi Hnd].
    specialize (IH Hnd). cbn zeta in IH.
    destruct (foldr (fun kv => Archive.rangeBody kv.1 kv.2) (∅, ∅) l) as [L A].
    destruct IH as [HL HA]. cbn [fst snd] in HL, HA.
    assert (Hfresh : forall v, (i, v) ∈ l -> False).
    { intros v Hv. apply Hi. apply list_elem_of_fmap. exists (i, v). auto. }
    assert (Hlab_keep : forall k s,
      (x = JString s /\ k = i -> HasPrefix i "ann." = true) ->
      (L !! k = Some s <->
       (k, JString s) ∈ (i, x) :: l /\ HasPrefix k "ann." = false)).
    { intros k s Hx. rewrite HL, elem_of_cons. split.
      - intros [H Hp]; auto.
      - intros [[H|H] Hp]; [|auto].
        injection H as -> Hxs. rewrite Hx in Hp by auto. discriminate. }
    assert (Hann_keep : forall k s,
      (x = JString s /\ "ann." +:+ k = i -> False) ->
      (A !! k = Some s <-> ("ann." +:+ k, JString s) ∈ (i, x) :: l)).
    { intros k s Hx. rewrite HA, elem_of_cons. split; [auto|].
      intros [H|H]; [|exact H]. injection H as Hk Hxs. exfalso; apply Hx; auto. }
    unfold Archive.rangeBody.
    destruct x as [|b|lit|str|l0|ms];
      try (split; intros k s; cbn [fst snd];
           [apply Hlab_keep|apply Hann_keep]; intros [Hx _]; discriminate Hx).
    destruct (HasPrefix i "ann.") eqn:Hp; cbn [fst snd]; split; intros k s.
    + apply Hlab_keep. auto.
    + destruct (decide (k = TrimPrefix i "ann.")) as [->|Hne].
      * rewrite TrimPrefix_inv by exact Hp. rewrite lookup_insert_eq, elem_of_cons.
        split.
        -- intros H; injection H as ->. left; reflexivity.
        -- intros [H|H]; [injection H as ->; reflexivity|].
           exfalso; eapply Hfresh, H.
      * rewrite lookup_insert_ne by congruence.
        apply Hann_keep. intros [_ Hk]. apply Hne. rewrite <- Hk.
        symmetry. apply TrimPrefix_app.
    + destruct (decide (k = i)) as [->|Hne].
      * rewrite lookup_insert_eq, elem_of_cons. split.
        -- intros H; injection H as ->. auto.
        -- intros [[H|H] _]; [injection H as ->; reflexivity|].
           exfalso; eapply Hfresh, H.
      * rewrite lookup_insert_ne by congruence. rewrite HL, elem_of_cons.
        split; [intros [H Hq]; auto|].
        intros [[H|H] Hq]; [injection H as -> _; congruence|auto].
    + apply Hann_keep. intros [_ Hk]. rewrite <- Hk, HasPrefix_app in Hp.
      discriminate.
Qed.

Lemma Archive_range_any_order (R : gmap string JSON) (l : list (string * JSON)) :
  l ≡ₚ map_to_list R ->
  foldr (fun kv => Archive.rangeBody kv.1 kv.2) (∅, ∅) l =
  map_fold Archive.rangeBody (∅, ∅) R.
Proof.
  intros Hperm.
  assert (Hnd : NoDup l.*1).
  { rewrite Hperm. apply NoDup_fst_map_to_list. }
  pose proof (range_list_lookup l Hnd) as [HL HA].
  pose proof (range_lookup R) as [HL' HA']. cbn zeta in *.
  destruct (foldr _ _ l) as [L A], (map_fold _ _ R) as [L' A']. cbn [fst snd] in *.
  f_equal; apply map_eq; intros k; apply option_eq; intros s.
  - rewrite HL, HL', Hperm, elem_of_map_to_list. reflexivity.
  - rewrite HA, HA', Hperm, elem_of_map_to_list. reflexivity.
Qed.

(** The label set of [Archive], entry by entry. *)
Lemma labelsArchive_lookup (p : Archive.SplunkWebhook) (R : gmap string JSON)
    (k s : string) :
  labelsArchive p R !! k = Some s <->
  (k = "app" /\ s = Archive.App p) \/
  (k <> "app" /\ k = "alertname" /\ s = Archive.SearchName p) \/
  (k <> "app" /\ k <> "alertname" /\
   R !! k = Some (JString s) /\ HasPrefix k "ann." = false).
Proof.
  unfold labelsArchive, Archive.extract, withResult. cbn [Archive.Result Archive.SearchName Archive.App Archive.ResultsLink].
  pose proof (range_lookup R) as [HL _]. cbn zeta in HL.
  destruct (map_fold Archive.rangeBody (∅, ∅) R) as [L A]. cbn [fst snd] in *.
  destruct (decide (k = "app")) as [->|Hne1].
  { rewrite lookup_insert_eq. split.
    - intros H; injection H as <-. left; auto.
    - intros [[_ ->]|[[H _]|[H _]]]; [reflexivity|congruence|congruence]. }
  rewrite lookup_insert_ne by congruence.
  destruct (decide (k = "alertname")) as [->|Hne2].
  { rewrite lookup_insert_eq. split.
    - intros H; injection H as <-. right; left; auto.
    - intros [[H _]|[(_ & _ & ->)|(_ & H & _)]]; [congruence|reflexivity|congruence]. }
  rewrite lookup_insert_ne by congruence. rewrite HL. split.
  - intros H. right; right; tauto.
  - intros [[H _]|[(_ & H & _)|(_ & _ & H)]]; [congruence|congruence|exact H].
Qed.

(** The annotation set of [Archive], entry by entry. *)
Lemma annotationsArchive_lookup (p : Archive.SplunkWebhook)
    (R : gmap string JSON) (k s : string) :
  annotationsArchive p R !! k = Some s <->
  (k = "link" /\ s = Archive.ResultsLink p) \/
  (k <> "link" /\ k = "summary" /\
   s = "Alert triggered in Splunk: " +:+ Archive.SearchName p) \/
  (k <> "link" /\ k <> "summary" /\ R !! ("ann." +:+ k) = Some (JString s)).
Proof.
  unfold annotationsArchive, Archive.extract, withResult. cbn [Archive.Result Archive.SearchName Archive.App Archive.ResultsLink].
  pose proof (range_lookup R) as [_ HA]. cbn zeta in HA.
  destruct (map_fold Archive.rangeBody (∅, ∅) R) as [L A]. cbn [fst snd] in *.
  destruct (decide (k = "link")) as [->|Hne1].
  { rewrite lookup_insert_eq. split.
    - intros H; injection H as <-. left; auto.
    - intros [[_ ->]|[[H _]|[H _]]]; [reflexivity|congruence|congruence]. }
  rewrite lookup_insert_ne by congruence.
  destruct (decide (k = "summary")) as [->|Hne2].
  { rewrite lookup_insert_eq. split.
    - intros H; injection H as <-. right; left; auto.
    - intros [[H _]|[(_ & _ & ->)|(_ & H & _)]]; [congruence|reflexivity|congruence]. }
  rewrite lookup_insert_ne by congruence. rewrite HA. split.
  - intros H. right; right; tauto.
  - intros [[H _]|[(_ & H & _)|(_ & _ & H)]]; [congruence|congruence|exact H].
Qed.

Lemma labelsArchive_ext (p : Archive.SplunkWebhook) (R1 R2 : gmap string JSON) :
  (forall k s, HasPrefix k "ann." = false ->
     (R1 !! k = Some (JString s) <-> R2 !! k = Some (JString s))) ->
  labelsArchive p R1 = labelsArchive p R2.
Proof.
  intros H. apply map_eq; intros k. apply option_eq; intros s.
  rewrite !labelsArchive_lookup.
  split; (intros [Ha|[Ha|(H1 & H2 & HR & Hp)]]; [left; exact Ha|right; left; exact Ha|]);
    right; right; repeat split; auto; apply (H k s Hp); exact HR.
Qed.

Lemma annotationsArchive_ext (p : Archive.SplunkWebhook)
    (R1 R2 : gmap string JSON) :
  (forall k s, HasPrefix k "ann." = true ->
     (R1 !! k = Some (JString s) <-> R2 !! k = Some (JString s))) ->
  annotationsArchive p R1 = annotationsArchive p R2.
Proof.
  intros H. apply map_eq; intros k. apply option_eq; intros s.
  rewrite !annotationsArchive_lookup.
  split; (intros [Ha|[Ha|(H1 & H2 & HR)]]; [left; exact Ha|right; left; exact Ha|]);
    right; right; repeat split; auto;
    apply (H ("ann." +:+ k) s (HasPrefix_app "ann." k)); exact HR.
Qed.

(** ** The range loop, visited from left to right *)

Lemma foldl_foldr_reverse {A B} (f : A -> B -> A) (a : A) (l : list B) :
  foldl f a l = foldr (fun x acc => f acc x) a (reverse l).
Proof.
  revert a; induction l as [|x l IH]; intros a; [reflexivity|].
  rewrite reverse_cons, foldr_app. simpl. apply IH.
Qed.

(** Go leaves the order of [range] over a map unspecified.  Whatever order
    the entries are visited in, the loop ends with the two maps that
    [Archive.extract] computes. *)
Lemma Archive_range_order_irrelevant (R : gmap string JSON)
    (l : list (string * JSON)) :
  l ≡ₚ map_to_list R ->
  foldl (fun st kv => Archive.rangeBody kv.1 kv.2 st) (∅, ∅) l =
  map_fold Archive.rangeBody (∅, ∅) R.
Proof.
  intros Hperm. rewrite foldl_foldr_reverse.
  apply Archive_range_any_order. rewrite reverse_Permutation. exact Hperm.
Qed.

(** ** [strconv.ParseInt] against the decimal literals *)

Lemma is_digit_range (c : ascii) :
  is_digit c = true -> 0 <= byte c - 48 <= 9.
Proof. unfold is_digit. intros H. apply andb_prop in H as [H1 H2]. lia. Qed.

Lemma digits_value_mono (s : string) (acc : Z) :
  all_digits s = true -> 0 <= acc -> acc <= digits_value s acc.
Proof.
  revert acc; induction s as [|c s IH]; intros acc Hd Hacc; simpl in *; [lia|].
  apply andb_prop in Hd as [Hc Hs]. apply is_digit_range in Hc.
  specialize (IH (acc * 10 + (byte c - 48)) Hs). lia.
Qed.

Lemma ParseUint_loop_spec (s : string) (n m : Z) :
  0 <= n <= maxUint64 ->
  ParseUint_loop s n = Ok m <->
  all_digits s = true /\ digits_value s n = m /\ m <= maxUint64.
Proof.
  revert n; induction s as [|c s IH]; intros n Hn; simpl.
  - split.
    + intros H; injection H as <-. repeat split; lia.
    + intros (_ & <- & _). reflexivity.
  - destruct (is_digit c) eqn:Hc; simpl;
      [|split; [discriminate|intros [H _]; discriminate]].
    pose proof (is_digit_range c Hc) as Hd.
    unfold maxUint64, u64 in *.
    change (2 ^ 64) with 18446744073709551616 in *.
    change ((18446744073709551616 - 1) / 10 + 1) with 1844674407370955162.
    destruct (Z.geb_spec n 1844674407370955162) as [Hcut|Hcut].
    + split; [discriminate|]. intros (Hs & Hv & Hm).
      pose proof (digits_value_mono s (n * 10 + (byte c - 48)) Hs). lia.
    + rewrite (Z.mod_small (n * 10)) by lia.
      destruct (Z.leb_spec (n * 10 + (byte c - 48)) 18446744073709551615) as [Hfit|Hover].
      * rewrite (Z.mod_small (n * 10 + (byte c - 48))) by lia.
        replace ((n * 10 + (byte c - 48) <? n * 10) ||
                 (n * 10 + (byte c - 48) >? 18446744073709551616 - 1)) with false
          by (symmetry; apply orb_false_intro; [apply Z.ltb_ge|rewrite Z.gtb_ltb; apply Z.ltb_ge]; lia).
        apply IH. lia.
      * replace ((n * 10 + (byte c - 48)) mod 18446744073709551616)
          with (n * 10 + (byte c - 48) - 18446744073709551616)
          by (apply Z.mod_unique with (q := 1); lia).
        replace (n * 10 + (byte c - 48) - 18446744073709551616 <? n * 10) with true
          by (symmetry; apply Z.ltb_lt; lia).
        simpl. split; [discriminate|]. intros (Hs & Hv & Hm).
        pose proof (digits_value_mono s (n * 10 + (byte c - 48)) Hs). lia.
Qed.

Lemma ParseUint_spec (s : string) (m : Z) :
  ParseUint s = Ok m <->
  s <> "" /\ all_digits s = true /\ digits_value s 0 = m /\ m <= maxUint64.
Proof.
  unfold ParseUint. destruct s as [|c s].
  - split; [discriminate|intros [H _]; congruence].
  - rewrite ParseUint_loop_spec by (unfold maxUint64; lia).
    split; [intros H; split; [discriminate|exact H]|intros [_ H]; exact H].
Qed.

Lemma ParseUint_nonneg (s : string) (m : Z) : ParseUint s = Ok m -> 0 <= m.
Proof.
  intros H. apply ParseUint_spec in H as (_ & Hd & <- & _).
  apply digits_value_mono; [exact Hd|lia].
Qed.

Lemma i64_small (x : Z) : 0 <= x < 2 ^ 63 -> i64 x = x.
Proof.
  intros H. unfold i64.
  change (2 ^ 64) with 18446744073709551616.
  change (2 ^ 63) with 9223372036854775808 in *.
  rewrite Z.mod_small by lia.
  destruct (Z.ltb_spec x 9223372036854775808); lia.
Qed.

Lemma i64_neg (x : Z) : 0 <= x <= 2 ^ 63 -> i64 (- i64 x) = - x.
Proof.
  intros H. change (2 ^ 63) with 9223372036854775808 in H.
  destruct (Z.eq_dec x 9223372036854775808) as [->|Hne]; [reflexivity|].
  rewrite (i64_small x) by (change (2 ^ 63) with 9223372036854775808; lia).
  destruct (Z.eq_dec x 0) as [->|Hnz]; [reflexivity|].
  unfold i64. change (2 ^ 64) with 18446744073709551616.
  change (2 ^ 63) with 9223372036854775808.
  replace (- x mod 18446744073709551616) with (18446744073709551616 - x)
    by (apply Z.mod_unique with (q := -1); lia).
  destruct (Z.ltb_spec (18446744073709551616 - x) 9223372036854775808); lia.
Qed.

Lemma in_int64_true (n : Z) :
  -9223372036854775808 <= n < 9223372036854775808 ->
  (- 2 ^ 63 <=? n) && (n <? 2 ^ 63) = true.
Proof.
  intros H. change (2 ^ 63) with 9223372036854775808.
  apply andb_true_intro; split; [apply Z.leb_le|apply Z.ltb_lt]; lia.
Qed.

Lemma in_int64_false (n : Z) :
  n < -9223372036854775808 \/ 9223372036854775808 <= n ->
  (- 2 ^ 63 <=? n) && (n <? 2 ^ 63) = false.
Proof.
  intros H. change (2 ^ 63) with 9223372036854775808.
  destruct H as [H|H].
  - apply andb_false_intro1, Z.leb_gt. lia.
  - apply andb_false_intro2, Z.ltb_ge. lia.
Qed.

(** [ParseInt] accepts exactly the decimal literals that name an integer of
    64 bits, and returns that integer. *)
Lemma ParseInt_spec (s : string) (n : Z) :
  ParseInt s = Ok n <-> decimalInt64 s = Some n.
Proof.
  unfold ParseInt, decimalInt64, decimalInteger.
  destruct s as [|c s]; [split; discriminate|].
  set (sel := if eqb_ascii c "+" then (false, s)
              else if eqb_ascii c "-" then (true, s) else (false, String c s)).
  destruct sel as [neg ds]. clear c s.
  destruct (ParseUint ds) as [un|e] eqn:Hu.
  - pose proof (ParseUint_nonneg ds un Hu) as Hpos.
    apply ParseUint_spec in Hu as (Hne & Hd & Hv & Hm).
    destruct ds as [|c s]; [congruence|]. rewrite Hd, Hv.
    unfold maxUint64 in Hm. change (2 ^ 64) with 18446744073709551616 in Hm.
    destruct neg; simpl negb; cbn [andb].
    + destruct (Z.gtb_spec un (2 ^ 63)) as [Hbig|Hfit].
      * change (2 ^ 63) with 9223372036854775808 in Hbig.
        rewrite in_int64_false by lia. split; discriminate.
      * change (2 ^ 63) with 9223372036854775808 in Hfit.
        rewrite in_int64_true by lia.
        rewrite i64_neg by (change (2 ^ 63) with 9223372036854775808; lia).
        split; intros H; injection H as <-; reflexivity.
    + destruct (Z.geb_spec un (2 ^ 63)) as [Hbig|Hfit].
      * change (2 ^ 63) with 9223372036854775808 in Hbig.
        rewrite in_int64_false by lia. split; discriminate.
      * change (2 ^ 63) with 9223372036854775808 in Hfit.
        rewrite in_int64_true by lia.
        rewrite i64_small by (change (2 ^ 63) with 9223372036854775808; lia).
        split; intros H; injection H as <-; reflexivity.
  - assert (Hnone : forall m, ~ (ds <> "" /\ all_digits ds = true /\
                                  digits_value ds 0 = m /\ m <= maxUint64)).
    { intros m Hm. apply ParseUint_spec in Hm. congruence. }
    transitivity False.
    { destruct e; split; (discriminate || contradiction). }
    destruct ds as [|c s]; [split; [contradiction|discriminate]|].
    destruct (all_digits (String c s)) eqn:Hd; [|split; [contradiction|discriminate]].
    set (v := digits_value (String c s) 0) in *.
    assert (Hv : maxUint64 < v).
    { destruct (Z.le_gt_cases v maxUint64) as [Hle|Hgt]; [|lia].
      exfalso. apply (Hnone v). repeat split; auto; discriminate. }
    unfold maxUint64 in Hv. change (2 ^ 64) with 18446744073709551616 in Hv.
    destruct neg; rewrite in_int64_false by lia; split;
      [contradiction|discriminate|contradiction|discriminate].
Qed.

Lemma body_of_app (t1 t2 : list Event) :
  body_of (t1 ++ t2) = body_of t1 +:+ body_of t2.
Proof.
  induction t1 as [|e t1 IH]; [reflexivity|].
  destruct e; simpl; rewrite ?IH, ?app_assoc_string; reflexivity.
Qed.

(** ** The handlers as a whole *)

(** What the caller and the destination see of a run that built an alert is
    what the forwarding block did. *)
Lemma handle_built {A} (build : Handler A) (fwd : A -> Handler unit) (a : A) :
  produced build = Some a ->
  status_of (trace build) = None ->
  posts_of (trace build) = [] ->
  body_of (trace build) = "" ->
  status_of (trace (bind build fwd)) = status_of (trace (fwd a)) /\
  posts_of (trace (bind build fwd)) = posts_of (trace (fwd a)) /\
  body_of (trace (bind build fwd)) = body_of (trace (fwd a)).
Proof.
  intros Hp Hs Hposts Hb. rewrite trace_bind, Hp.
  rewrite status_of_app, posts_of_app, body_of_app, Hs, Hposts, Hb. auto.
Qed.

Lemma handle_rejected {A} (build : Handler A) (fwd : A -> Handler unit) :
  produced build = None ->
  trace (bind build fwd) = trace build.
Proof. intros Hp. rewrite trace_bind, Hp. apply app_nil_r. Qed.

(** A run of [Part002] that builds no alert answers 400 and sends nothing. *)
Lemma Part002_no_alert env cfg r :
  produced (Part002.buildAlert env cfg r) = None ->
  status_of (trace (Part002.HandleSplunkWebhook env cfg r)) = Some StatusBadRequest /\
  posts_of (trace (Part002.HandleSplunkWebhook env cfg r)) = [].
Proof.
  intros Hp. unfold Part002.HandleSplunkWebhook.
  rewrite handle_rejected by exact Hp.
  destruct (Part002_buildAlert_outcome env cfg r); [auto|discriminate Hp].
Qed.

Lemma Archive_no_alert env cfg r :
  produced (Archive.buildAlert env cfg r) = None ->
  status_of (trace (Archive.HandleSplunkWebhook env cfg r)) = Some StatusBadRequest /\
  posts_of (trace (Archive.HandleSplunkWebhook env cfg r)) = [].
Proof.
  intros Hp. unfold Archive.HandleSplunkWebhook.
  rewrite handle_rejected by exact Hp.
  destruct (Archive_buildAlert_outcome env cfg r); [auto|discriminate Hp].
Qed.

(** What an alert built by [Part002] is made of. *)
Lemma Part002_alert_inv env cfg r a :
  produced (Part002.buildAlert env cfg r) = Some a ->
  exists body p s n,
    Body r = Ok body /\
    json_Unmarshal env body = Ok p /\
    Part002.Result p !! "_time" = Some (JString s) /\
    ParseInt s = Ok n /\
    produced (computeEndsAt cfg (time_Unix n 0)) = Some (EndsAt a) /\
    Labels a = Part002.buildLabels cfg (Part002.Result p) /\
    Annotations a = Part002.buildAnnotations p /\
    StartsAt a = time_Unix n 0.
Proof.
  intros Hp.
  destruct (Part002_buildAlert_outcome env cfg r)
    as [t Hs Hposts|t body p s n endsAt Hb Hu Ht Hn He Hs Hposts Hbody];
    [discriminate Hp|].
  injection Hp as <-. exists body, p, s, n. simpl. auto 10.
Qed.

(** What an alert built by [Archive] is made of. *)
Lemma Archive_alert_inv env cfg r a :
  produced (Archive.buildAlert env cfg r) = Some a ->
  exists body p,
    Body r = Ok body /\
    json_Unmarshal env body = Ok p /\
    produced (computeEndsAt cfg (time_Now env)) = Some (EndsAt a) /\
    Labels a = labelsArchive p (Archive.Result p) /\
    Annotations a = annotationsArchive p (Archive.Result p) /\
    StartsAt a = time_Now env.
Proof.
  intros Hp.
  destruct (Archive_buildAlert_outcome env cfg r)
    as [t Hs Hposts|t body p endsAt Hb Hu He Hs Hposts Hbody];
    [discriminate Hp|].
  injection Hp as <-. exists body, p. simpl.
  unfold labelsArchive, annotationsArchive, withResult.
  destruct p; simpl. auto 10.
Qed.

(** [Archive] builds an alert from every decodable body unless the
    configured offset is invalid. *)
Lemma Archive_alert_built env cfg r body p :
  Body r = Ok body ->
  json_Unmarshal env body = Ok p ->
  durationOK cfg ->
  exists a, produced (Archive.buildAlert env cfg r) = Some a.
Proof.
  intros Hb Hu Hd.
  apply (computeEndsAt_produced cfg (time_Now env)) in Hd as [e He].
  unfold Archive.buildAlert. rewrite Hb. simpl. rewrite Hu. simpl.
  destruct (Archive.extract p) as [labels annotations].
  destruct (computeEndsAt cfg (time_Now env)) as [t [x|]]; [|discriminate He].
  simpl. eauto.
Qed.

(** [Part002] builds an alert when, in addition, ["_time"] parses. *)
Lemma Part002_alert_built env cfg r body p s n :
  Body r = Ok body ->
  json_Unmarshal env body = Ok p ->
  Part002.Result p !! "_time" = Some (JString s) ->
  ParseInt s = Ok n ->
  durationOK cfg ->
  exists a, produced (Part002.buildAlert env cfg r) = Some a.
Proof.
  intros Hb Hu Ht Hn Hd.
  apply (computeEndsAt_produced cfg (time_Unix n 0)) in Hd as [e He].
  unfold Part002.buildAlert. rewrite Hb. simpl. rewrite Hu. simpl.
  rewrite Ht. simpl. rewrite Hn. simpl.
  destruct (computeEndsAt cfg (time_Unix n 0)) as [t [x|]]; [|discriminate He].
  simpl. eauto.
Qed.

(** ** Routing of the result-set entries *)

Lemma routed_exactly_one
    (labels annotations : gmap string JSON -> gmap string string)
    (R : gmap string JSON) (key : string) :
  ~ feeds labels R key \/ ~ feeds annotations R key ->
  exists! d, routed labels annotations R key d.
Proof.
  intros Hone. unfold feeds in *.
  destruct (decide (labels (delete key R) = labels R)) as [HL|HL];
    destruct (decide (annotations (delete key R) = annotations R)) as [HA|HA].
  - exists Dropped. split; [simpl; unfold feeds; tauto|].
    intros [| |]; simpl; unfold feeds; tauto.
  - exists ToAnnotations. split; [simpl; unfold feeds; tauto|].
    intros [| |]; simpl; unfold feeds; tauto.
  - exists ToLabels. split; [simpl; unfold feeds; tauto|].
    intros [| |]; simpl; unfold feeds; tauto.
  - exfalso. destruct Hone as [H|H]; apply H; assumption.
Qed.

(** [Part002] never looks at the result map for its annotations. *)
Lemma Part002_annotations_fixed (p : Part002.SplunkPayload)
    (R : gmap string JSON) (key : string) :
  ~ feeds (annotationsPart002 p) R key.
Proof. unfold feeds. intros H. apply H. reflexivity. Qed.

Lemma annotationsPart002_self (p : Part002.SplunkPayload) :
  annotationsPart002 p (Part002.Result p) = Part002.buildAnnotations p.
Proof. destruct p; reflexivity. Qed.

(** In [Archive] a key under the prefix never reaches the labels, and a key
    outside it never reaches the annotations. *)
Lemma Archive_prefixed_not_label (p : Archive.SplunkWebhook)
    (R : gmap string JSON) (key : string) :
  HasPrefix key "ann." = true -> ~ feeds (labelsArchive p) R key.
Proof.
  intros Hp H. apply H. apply labelsArchive_ext. intros k s Hk.
  rewrite lookup_delete_ne by congruence. reflexivity.
Qed.

Lemma Archive_unprefixed_not_annotation (p : Archive.SplunkWebhook)
    (R : gmap string JSON) (key : string) :
  HasPrefix key "ann." = false -> ~ feeds (annotationsArchive p) R key.
Proof.
  intros Hp H. apply H. apply annotationsArchive_ext. intros k s Hk.
  rewrite lookup_delete_ne by congruence. reflexivity.
Qed.

(** Taking away an entry that is not a string changes no string lookup. *)
Lemma delete_nonstring_lookup (R : gmap string JSON) (key : string) (v : JSON)
    (k s : string) :
  R !! key = Some v ->
  (forall s', v <> JString s') ->
  delete key R !! k = Some (JString s) <-> R !! k = Some (JString s).
Proof.
  intros Hv Hns. destruct (decide (k = key)) as [->|Hne].
  - rewrite lookup_delete_eq, Hv. split; [discriminate|].
    intros H; injection H as ->. exfalso; eapply Hns; reflexivity.
  - rewrite lookup_delete_ne by congruence. reflexivity.
Qed.

(** C1.  In both revisions the label set and the annotation set of the alert
    are functions of the decoded payload, and every key of its result set is
    routed to exactly one of the label set, the annotation set, or nowhere:
    no key feeds both sets. *)
Theorem C1_result_keys_partitioned :
  (forall env cfg r a,
     produced (Part002.buildAlert env cfg r) = Some a ->
     exists body p,
       Body r = Ok body /\ json_Unmarshal env body = Ok p /\
       Labels a = labelsPart002 cfg p (Part002.Result p) /\
       Annotations a = annotationsPart002 p (Part002.Result p) /\
       forall key,
         exists! d, routed (labelsPart002 cfg p) (annotationsPart002 p)
                      (Part002.Result p) key d) /\
  (forall env cfg r a,
     produced (Archive.buildAlert env cfg r) = Some a ->
     exists body p,
       Body r = Ok body /\ json_Unmarshal env body = Ok p /\
       Labels a = labelsArchive p (Archive.Result p) /\
       Annotations a = annotationsArchive p (Archive.Result p) /\
       forall key,
         exists! d, routed (labelsArchive p) (annotationsArchive p)
                      (Archive.Result p) key d).
Proof.
  split; intros env cfg r a Hp.
  - apply Part002_alert_inv in Hp
      as (body & p & s & n & Hb & Hu & _ & _ & _ & HL & HA & _).
    exists body, p. rewrite annotationsPart002_self. repeat split; auto.
    intros key. apply routed_exactly_one. right.
    apply Part002_annotations_fixed.
  - apply Archive_alert_inv in Hp as (body & p & Hb & Hu & _ & HL & HA & _).
    exists body, p. repeat split; auto.
    intros key. apply routed_exactly_one.
    destruct (HasPrefix key "ann.") eqn:Hk.
    + left. apply Archive_prefixed_not_label, Hk.
    + right. apply Archive_unprefixed_not_annotation, Hk.
Qed.

(** C1 on two requests, one for each revision. *)
Lemma C1_witness :
  (exists a,
     produced (Part002.buildAlert (worldPart002 0 respOK) defaultConfig
                 (request "{'result':{'_time':'7','host':'h1','ann.foo':'bar'}}"))
     = Some a /\
     exists body p,
       Body (request "{'result':{'_time':'7','host':'h1','ann.foo':'bar'}}") = Ok body /\
       GoJSON.UnmarshalPart002 body = Ok p /\
       Labels a = labelsPart002 defaultConfig p (Part002.Result p) /\
       Annotations a = annotationsPart002 p (Part002.Result p) /\
       forall key,
         exists! d, routed (labelsPart002 defaultConfig p) (annotationsPart002 p)
                      (Part002.Result p) key d) /\
  (exists a,
     produced (Archive.buildAlert (worldArchive 0 respOK) defaultConfig
                 (request "{'result':{'host':'h1','ann.foo':'bar'}}"))
     = Some a /\
     exists body p,
       Body (request "{'result':{'host':'h1','ann.foo':'bar'}}") = Ok body /\
       GoJSON.UnmarshalArchive body = Ok p /\
       Labels a = labelsArchive p (Archive.Result p) /\
       Annotations a = annotationsArchive p (Archive.Result p) /\
       forall key,
         exists! d, routed (labelsArchive p) (annotationsArchive p)
                      (Archive.Result p) key d).
Proof.
  split.
  - eexists. split; [vm_compute; reflexivity|].
    apply (proj1 C1_result_keys_partitioned (worldPart002 0 respOK)
             defaultConfig
             (request "{'result':{'_time':'7','host':'h1','ann.foo':'bar'}}")).
    vm_compute; reflexivity.
  - eexists. split; [vm_compute; reflexivity|].
    apply (proj2 C1_result_keys_partitioned (worldArchive 0 respOK)
             defaultConfig
             (request "{'result':{'host':'h1','ann.foo':'bar'}}")).
    vm_compute; reflexivity.
Defined.

(** C3.  In both revisions a result-set entry whose value is not a JSON
    string is dropped: with or without it the alert has the same labels and
    the same annotations. *)
Theorem C3_non_string_entries_dropped :
  (forall env cfg r a,
     produced (Part002.buildAlert env cfg r) = Some a ->
     exists body p,
       Body r = Ok body /\ json_Unmarshal env body = Ok p /\
       Labels a = labelsPart002 cfg p (Part002.Result p) /\
       Annotations a = annotationsPart002 p (Part002.Result p) /\
       forall key v,
         Part002.Result p !! key = Some v ->
         (forall s, v <> JString s) ->
         routed (labelsPart002 cfg p) (annotationsPart002 p)
           (Part002.Result p) key Dropped) /\
  (forall env cfg r a,
     produced (Archive.buildAlert env cfg r) = Some a ->
     exists body p,
       Body r = Ok body /\ json_Unmarshal env body = Ok p /\
       Labels a = labelsArchive p (Archive.Result p) /\
       Annotations a = annotationsArchive p (Archive.Result p) /\
       forall key v,
         Archive.Result p !! key = Some v ->
         (forall s, v <> JString s) ->
         routed (labelsArchive p) (annotationsArchive p)
           (Archive.Result p) key Dropped).
Proof.
  split; intros env cfg r a Hp.
  - apply Part002_alert_inv in Hp
      as (body & p & s & n & Hb & Hu & _ & _ & _ & HL & HA & _).
    exists body, p. rewrite annotationsPart002_self.
    split; [exact Hb|split; [exact Hu|split; [exact HL|split; [exact HA|]]]].
    intros key v Hv Hns. split.
    + intros H. apply H. unfold labelsPart002. apply buildLabels_ext.
      intros k s' _. eapply delete_nonstring_lookup; eauto.
    + apply Part002_annotations_fixed.
  - apply Archive_alert_inv in Hp as (body & p & Hb & Hu & _ & HL & HA & _).
    exists body, p.
    split; [exact Hb|split; [exact Hu|split; [exact HL|split; [exact HA|]]]].
    intros key v Hv Hns. split.
    + intros H. apply H. apply labelsArchive_ext.
      intros k s' _. eapply delete_nonstring_lookup; eauto.
    + intros H. apply H. apply annotationsArchive_ext.
      intros k s' _. eapply delete_nonstring_lookup; eauto.
Qed.

(** C3 on result sets that carry the number 42. *)
Lemma C3_witness :
  (exists a,
     produced (Part002.buildAlert (worldPart002 0 respOK) defaultConfig
                 (request "{'result':{'_time':'7','host':42}}"))
     = Some a /\
     Labels a = ∅ /\
     exists body p,
       Body (request "{'result':{'_time':'7','host':42}}") = Ok body /\
       GoJSON.UnmarshalPart002 body = Ok p /\
       Labels a = labelsPart002 defaultConfig p (Part002.Result p) /\
       Annotations a = annotationsPart002 p (Part002.Result p) /\
       forall key v,
         Part002.Result p !! key = Some v ->
         (forall s, v <> JString s) ->
         routed (labelsPart002 defaultConfig p) (annotationsPart002 p)
           (Part002.Result p) key Dropped) /\
  (exists a,
     produced (Archive.buildAlert (worldArchive 0 respOK) defaultConfig
                 (request "{'result':{'host':42,'ann.n':42}}"))
     = Some a /\
     Labels a !! "host" = None /\ Annotations a !! "n" = None /\
     exists body p,
       Body (request "{'result':{'host':42,'ann.n':42}}") = Ok body /\
       GoJSON.UnmarshalArchive body = Ok p /\
       Labels a = labelsArchive p (Archive.Result p) /\
       Annotations a = annotationsArchive p (Archive.Result p) /\
       forall key v,
         Archive.Result p !! key = Some v ->
         (forall s, v <> JString s) ->
         routed (labelsArchive p) (annotationsArchive p)
           (Archive.Result p) key Dropped).
Proof.
  split.
  - eexists. split; [vm_compute; reflexivity|].
    split; [vm_compute; reflexivity|].
    apply (proj1 C3_non_string_entries_dropped (worldPart002 0 respOK)
             defaultConfig (request "{'result':{'_time':'7','host':42}}")).
    vm_compute; reflexivity.
  - eexists. split; [vm_compute; reflexivity|].
    split; [vm_compute; reflexivity|].
    split; [vm_compute; reflexivity|].
    apply (proj2 C3_non_string_entries_dropped (worldArchive 0 respOK)
             defaultConfig (request "{'result':{'host':42,'ann.n':42}}")).
    vm_compute; reflexivity.
Defined.

(** ** Rejected requests *)

Lemma Part002_undecodable env cfg r body :
  Body r = Ok body ->
  is_ok (json_Unmarshal env body) = false ->
  produced (Part002.buildAlert env cfg r) = None.
Proof.
  intros Hb Hu.
  destruct (produced (Part002.buildAlert env cfg r)) as [a|] eqn:Hp; [|reflexivity].
  apply Part002_alert_inv in Hp as (body' & p & s & n & Hb' & Hu' & _).
  rewrite Hb in Hb'. injection Hb' as <-. rewrite Hu' in Hu. discriminate Hu.
Qed.

Lemma Part002_invalid_offset env cfg r :
  EndsAtDuration cfg <> "" ->
  is_ok (ParseDuration (EndsAtDuration cfg)) = false ->
  produced (Part002.buildAlert env cfg r) = None.
Proof.
  intros Hne Hd.
  destruct (produced (Part002.buildAlert env cfg r)) as [a|] eqn:Hp; [|reflexivity].
  apply Part002_alert_inv in Hp as (body & p & s & n & _ & _ & _ & _ & He & _).
  assert (Hok : durationOK cfg) by (apply (computeEndsAt_produced cfg (time_Unix n 0)); eauto).
  destruct Hok as [H|[d H]]; [contradiction|]. rewrite H in Hd. discriminate Hd.
Qed.

(** The decoder of [GoJSON] rejects the empty text, as [encoding/json] does
    ("unexpected end of JSON input"). *)
Lemma GoJSON_rejects_empty :
  GoJSON.UnmarshalPart002 "" = Err GoJSON.errSyntax /\
  GoJSON.UnmarshalArchive "" = Err GoJSON.errSyntax.
Proof. split; reflexivity. Qed.

(** C4.  A request whose body is empty, or more generally is not accepted by
    [json.Unmarshal] for the payload struct, is answered with status 400 and
    no POST is made.  That [json.Unmarshal] fails on the empty text is a fact
    of the library, taken as a hypothesis on the world. *)
Theorem C4_malformed_body_rejected :
  forall (env : Env Part002.SplunkPayload) (cfg : Config) (r : Request)
         (body : string),
    Body r = Ok body ->
    is_ok (json_Unmarshal env "") = false ->
    body = "" \/ is_ok (json_Unmarshal env body) = false ->
    status_of (trace (Part002.HandleSplunkWebhook env cfg r))
      = Some StatusBadRequest /\
    posts_of (trace (Part002.HandleSplunkWebhook env cfg r)) = [].
Proof.
  intros env cfg r body Hb Hempty Hbad.
  apply Part002_no_alert. apply (Part002_undecodable env cfg r body Hb).
  destruct Hbad as [->|H]; assumption.
Qed.

(** C4 on the empty body and on a body cut short, with the decoder [GoJSON]. *)
Lemma C4_witness :
  (status_of (trace (Part002.HandleSplunkWebhook (worldPart002 0 respOK)
                       defaultConfig (request ""))) = Some 400 /\
   posts_of (trace (Part002.HandleSplunkWebhook (worldPart002 0 respOK)
                      defaultConfig (request ""))) = []) /\
  (status_of (trace (Part002.HandleSplunkWebhook (worldPart002 0 respOK)
                       defaultConfig (request "{'result':{'_time':'7'}")))
     = Some 400 /\
   posts_of (trace (Part002.HandleSplunkWebhook (worldPart002 0 respOK)
                      defaultConfig (request "{'result':{'_time':'7'}"))) = []).
Proof.
  split.
  - apply (C4_malformed_body_rejected (worldPart002 0 respOK) defaultConfig
             (request "") "").
    + reflexivity.
    + vm_compute; reflexivity.
    + left; reflexivity.
  - apply (C4_malformed_body_rejected (worldPart002 0 respOK) defaultConfig
             (request "{'result':{'_time':'7'}")
             (q "{'result':{'_time':'7'}")).
    + reflexivity.
    + vm_compute; reflexivity.
    + right; vm_compute; reflexivity.
Defined.

(** The server answers the requests one by one, each as if it were alone. *)
Lemma StartServer_app {P} (handle : Env P -> Config -> Request -> Handler unit)
    (cfg : Config) (before after : list (Env P * Request)) (x : Env P * Request) :
  StartServer handle cfg (before ++ x :: after) =
  (StartServer handle cfg before
     ++ trace (handle (fst x) cfg (snd x)) :: StartServer handle cfg after)%list.
Proof. unfold StartServer. rewrite map_app. reflexivity. Qed.

(** C6.  Under a configuration whose end-time offset is not empty and does
    not parse, every request is answered with status 400 and no POST is
    made; the server answers every request that arrives, and the requests
    that come after a rejected one are served as they would be on their
    own. *)
Theorem C6_invalid_offset_rejected_per_request :
  forall cfg : Config,
    EndsAtDuration cfg <> "" ->
    is_ok (ParseDuration (EndsAtDuration cfg)) = false ->
    (forall env r,
       status_of (trace (Part002.HandleSplunkWebhook env cfg r))
         = Some StatusBadRequest /\
       posts_of (trace (Part002.HandleSplunkWebhook env cfg r)) = []) /\
    (forall arrivals,
       length (StartServer Part002.HandleSplunkWebhook cfg arrivals)
         = length arrivals /\
       Forall (fun t => status_of t = Some StatusBadRequest /\ posts_of t = [])
              (StartServer Part002.HandleSplunkWebhook cfg arrivals)) /\
    (forall before x after,
       StartServer Part002.HandleSplunkWebhook cfg (before ++ x :: after) =
       (StartServer Part002.HandleSplunkWebhook cfg before
          ++ trace (Part002.HandleSplunkWebhook (fst x) cfg (snd x))
          :: StartServer Part002.HandleSplunkWebhook cfg after)%list).
Proof.
  intros cfg Hne Hd.
  assert (Hone : forall env r,
    status_of (trace (Part002.HandleSplunkWebhook env cfg r))
      = Some StatusBadRequest /\
    posts_of (trace (Part002.HandleSplunkWebhook env cfg r)) = []).
  { intros env r. apply Part002_no_alert, Part002_invalid_offset; assumption. }
  split; [exact Hone|]. split.
  - intros arrivals. unfold StartServer. split; [apply length_map|].
    induction arrivals as [|x l IH]; simpl; constructor; auto.
  - intros before x after. apply StartServer_app.
Qed.

(** C6 under the offset [1x]: three requests in a row, each answered 400. *)
Lemma C6_witness :
  (forall env r,
     status_of (trace (Part002.HandleSplunkWebhook env (configWith "1x" "") r))
       = Some 400 /\
     posts_of (trace (Part002.HandleSplunkWebhook env (configWith "1x" "") r))
       = []) /\
  map status_of
    (StartServer Part002.HandleSplunkWebhook (configWith "1x" "")
       [ (worldPart002 0 respOK, request "{'result':{'_time':'7'}}");
         (worldPart002 5 respOK, request "not json");
         (worldPart002 9 respOK, request "{'result':{'_time':'8'}}") ])
  = [Some 400; Some 400; Some 400].
Proof.
  assert (Hne : EndsAtDuration (configWith "1x" "") <> "")
    by (vm_compute; discriminate).
  assert (Hd : is_ok (ParseDuration (EndsAtDuration (configWith "1x" ""))) = false)
    by (vm_compute; reflexivity).
  destruct (C6_invalid_offset_rejected_per_request (configWith "1x" "") Hne Hd)
    as (H1 & _ & _).
  split; [exact H1|].
  unfold StartServer. cbn [map fst snd].
  rewrite (proj1 (H1 (worldPart002 0 respOK) (request "{'result':{'_time':'7'}}"))).
  rewrite (proj1 (H1 (worldPart002 5 respOK) (request "not json"))).
  rewrite (proj1 (H1 (worldPart002 9 respOK) (request "{'result':{'_time':'8'}}"))).
  reflexivity.
Defined.

(** ** The end time *)

Lemma ParseDuration_1h : ParseDuration "1h" = Ok Hour.
Proof. vm_compute. reflexivity. Qed.

(** *** [Time.Add] inside the range of [time.Time] *)

Lemma i64_id (x : Z) : - 2 ^ 63 <= x < 2 ^ 63 -> i64 x = x.
Proof.
  intros H. change (2 ^ 63) with 9223372036854775808 in H.
  destruct (Z.le_gt_cases 0 x) as [Hx|Hx].
  - apply i64_small. change (2 ^ 63) with 9223372036854775808. lia.
  - unfold i64. change (2 ^ 64) with 18446744073709551616.
    change (2 ^ 63) with 9223372036854775808.
    replace (x mod 18446744073709551616) with (x + 18446744073709551616)
      by (apply Z.mod_unique with (q := -1); lia).
    destruct (Z.ltb_spec (x + 18446744073709551616) 9223372036854775808); lia.
Qed.

(** Arithmetic in [int64] is arithmetic modulo 2^64. *)
Lemma i64_add_l (a b : Z) : i64 (i64 a + b) = i64 (a + b).
Proof.
  assert (H : (i64 a + b) mod 2 ^ 64 = (a + b) mod 2 ^ 64).
  { unfold i64. destruct (a mod 2 ^ 64 <? 2 ^ 63).
    - apply Z.add_mod_idemp_l. discriminate.
    - replace (a mod 2 ^ 64 - 2 ^ 64 + b)
        with (a mod 2 ^ 64 + b + (-1) * 2 ^ 64) by ring.
      rewrite Z.mod_add by discriminate. apply Z.add_mod_idemp_l. discriminate. }
  unfold i64 at 1 3. rewrite H. reflexivity.
Qed.

(** [time.Unix(sec, nsec)] sets the fields as [unixTime] does, for every
    [int64] [sec]: [ext = sec + unixToInternal] with wrap-around. *)
Lemma time_Unix_fields (sec nsec : Z) :
  - 2 ^ 63 <= sec < 2 ^ 63 -> 0 <= nsec < 1000000000 ->
  Time_sec (time_Unix sec nsec) = i64 (sec + unixToInternal) /\
  Time_nsec (time_Unix sec nsec) = nsec /\
  Time_of (i64 (sec + unixToInternal)) nsec = time_Unix sec nsec.
Proof.
  intros Hs Hn. unfold Time_sec, Time_nsec, Time_of, time_Unix.
  change Second with 1000000000.
  assert (Hq : (sec * 1000000000 + nsec) / 1000000000 = sec)
    by (symmetry; apply Z.div_unique with (r := nsec); lia).
  assert (Hr : (sec * 1000000000 + nsec) mod 1000000000 = nsec)
    by (symmetry; apply Z.mod_unique with (q := sec); lia).
  rewrite Hq, Hr. split; [reflexivity|]. split; [reflexivity|].
  replace (i64 (sec + unixToInternal) - unixToInternal)
    with (i64 (sec + unixToInternal) + - unixToInternal) by ring.
  rewrite i64_add_l.
  replace (sec + unixToInternal + - unixToInternal) with sec by ring.
  rewrite i64_id by exact Hs. reflexivity.
Qed.

(** The seconds and nanoseconds that [Add] hands to [addSec] make up the
    exact sum. *)
Lemma Time_Add_split (t : Time) (d : Duration) :
  exists dsec nsec,
    Time_Add t d = Time_of (addSec (Time_sec t) dsec) nsec /\
    0 <= nsec < 1000000000 /\
    t + d = (t / Second + dsec) * 1000000000 + nsec.
Proof.
  unfold Time_Add, Time_nsec. change Second with 1000000000.
  pose proof (Z.mod_pos_bound t 1000000000 ltac:(lia)) as Hn.
  pose proof (Z.div_mod t 1000000000 ltac:(lia)) as Ht.
  pose proof (Z.quot_rem' d 1000000000) as Hd.
  pose proof (Z.rem_bound_abs d 1000000000 ltac:(lia)) as Hr.
  set (n := t mod 1000000000) in *. set (s := t / 1000000000) in *.
  set (q := Z.quot d 1000000000) in *. set (r := Z.rem d 1000000000) in *.
  destruct (Z.geb_spec (n + r) 1000000000) as [H1|H1].
  - exists (q + 1), (n + r - 1000000000). split; [reflexivity|]. lia.
  - destruct (Z.ltb_spec (n + r) 0) as [H2|H2].
    + exists (q - 1), (n + r + 1000000000). split; [reflexivity|]. lia.
    + exists q, (n + r). split; [reflexivity|]. lia.
Qed.

(** Between two representable instants [Add] is the addition of the
    nanoseconds: nothing wraps and nothing saturates. *)
Lemma Time_Add_exact (t : Time) (d : Duration) :
  representable t = true -> representable (t + d) = true ->
  Time_Add t d = t + d.
Proof.
  unfold representable. intros Ht Htd.
  apply andb_prop in Ht as [Ht1 Ht2]. apply andb_prop in Htd as [Hd1 Hd2].
  apply Z.leb_le in Ht1, Ht2, Hd1, Hd2.
  destruct (Time_Add_split t d) as (dsec & nsec & -> & Hn & Hsum).
  unfold Time_of, addSec, Time_sec in *.
  change Second with 1000000000 in *. unfold unixToInternal in *.
  change (2 ^ 63) with 9223372036854775808 in *.
  set (s := t / 1000000000) in *.
  assert (Hs' : (t + d) / 1000000000 = s + dsec).
  { symmetry. apply Z.div_unique with (r := nsec); lia. }
  rewrite Hs' in *.
  rewrite (i64_id (s + 62135596800))
    by (change (2 ^ 63) with 9223372036854775808; lia).
  rewrite (i64_id (s + 62135596800 + dsec))
    by (change (2 ^ 63) with 9223372036854775808; lia).
  replace (s + 62135596800 + dsec >? s + 62135596800) with (dsec >? 0)
    by (rewrite !Z.gtb_ltb; destruct (Z.ltb_spec 0 dsec);
        symmetry; [apply Z.ltb_lt|apply Z.ltb_ge]; lia).
  rewrite Bool.eqb_reflx.
  rewrite i64_id by (change (2 ^ 63) with 9223372036854775808; lia).
  lia.
Qed.

(** *** [time.ParseDuration] on an integer and a unit *)

Lemma length_app_string (a b : string) :
  String.length (a +:+ b) = (String.length a + String.length b)%nat.
Proof.
  induction a as [|c a IH]; [reflexivity|].
  rewrite app_String. simpl. rewrite IH. reflexivity.
Qed.

(** [leadingInt] on digits followed by something that is not a digit. *)
Lemma leadingInt_go_digits (ds r : string) (x : Z) :
  all_digits ds = true ->
  match r with
  | EmptyString => True
  | String c _ => is_digit c = false
  end ->
  0 <= x -> digits_value ds x <= 2 ^ 63 ->
  leadingInt_go (ds +:+ r) x = Ok (digits_value ds x, r).
Proof.
  revert x; induction ds as [|c ds IH]; intros x Hd Hr Hx Hv.
  - rewrite app_Empty. simpl. destruct r as [|c r]; [reflexivity|].
    simpl. rewrite Hr. reflexivity.
  - rewrite app_String. simpl in Hd, Hv |- *.
    apply andb_prop in Hd as [Hc Hds]. rewrite Hc. simpl.
    pose proof (is_digit_range c Hc) as Hb.
    pose proof (digits_value_mono ds (x * 10 + (byte c - 48)) Hds ltac:(lia)) as Hm.
    change (2 ^ 63) with 9223372036854775808 in *.
    change (9223372036854775808 / 10) with 922337203685477580.
    destruct (Z.gtb_spec x 922337203685477580) as [H|H]; [lia|].
    unfold u64. change (2 ^ 64) with 18446744073709551616.
    rewrite (Z.mod_small (x * 10)) by lia.
    replace (x * 10 + byte c - 48) with (x * 10 + (byte c - 48)) by ring.
    rewrite Z.mod_small by lia.
    destruct (Z.gtb_spec (x * 10 + (byte c - 48)) 9223372036854775808) as [H'|H'];
      [lia|].
    apply IH; auto. lia.
Qed.

Lemma digit_not_sign (c : ascii) :
  is_digit c = true ->
  eqb_ascii c "-" = false /\ eqb_ascii c "+" = false /\ eqb_ascii c "." = false.
Proof.
  intros H. apply is_digit_range in H. unfold eqb_ascii.
  change (byte "-") with 45. change (byte "+") with 43. change (byte ".") with 46.
  repeat split; apply Z.eqb_neq; lia.
Qed.

(** What the parser needs of a unit of [unitMap]. *)
Lemma unitMap_entry (u : string) (unit : Z) :
  In (u, unit) unitMap ->
  (exists c u', u = String c u' /\ is_digit c = false /\ eqb_ascii c "." = false) /\
  span_unit u = (u, "") /\
  assoc_string u unitMap = Some unit /\
  1 <= unit.
Proof.
  unfold unitMap. intros Hin.
  repeat (destruct Hin as [Hin|Hin];
          [injection Hin as <- <-;
           split; [do 2 eexists; split; [reflexivity|split; vm_compute; reflexivity]|];
           split; [vm_compute; reflexivity|];
           split; [vm_compute; reflexivity|vm_compute; discriminate]|]).
  destruct Hin.
Qed.

Lemma ParseDuration_term_integer_unit (ds u : string) (unit : Z) :
  ds <> "" -> all_digits ds = true -> In (u, unit) unitMap ->
  digits_value ds 0 * unit <= 2 ^ 63 - 1 ->
  ParseDuration_term (ds +:+ u) = Ok (digits_value ds 0 * unit, "").
Proof.
  intros Hne Hd Hin Hv.
  assert (Hpos : 0 <= digits_value ds 0) by (apply digits_value_mono; [exact Hd|lia]).
  apply unitMap_entry in Hin as ((c1 & u' & Hu & Hc1 & Hdot1) & Hspan & Hassoc & Hunit).
  assert (Hfit : digits_value ds 0 <= 2 ^ 63).
  { change (2 ^ 63) with 9223372036854775808 in *. nia. }
  assert (Hlead : leadingInt_go (ds +:+ u) 0 = Ok (digits_value ds 0, u)).
  { apply leadingInt_go_digits; auto; [|lia]. rewrite Hu. exact Hc1. }
  assert (Hlen : (String.length (ds +:+ u) =? String.length u)%nat = false).
  { rewrite length_app_string. apply Nat.eqb_neq.
    destruct ds; [congruence|]. simpl. lia. }
  destruct ds as [|c ds]; [congruence|].
  pose proof Hd as Hd'. simpl in Hd'. apply andb_prop in Hd' as [Hc Hds].
  destruct (digit_not_sign c Hc) as (_ & _ & Hdot).
  unfold ParseDuration_term. rewrite app_String. rewrite Hdot, Hc. cbn [orb negb].
  rewrite <- app_String. unfold leadingInt. rewrite Hlead, Hlen.
  subst u. rewrite Hdot1. cbn [negb andb]. rewrite Hspan, Hassoc.
  set (V := digits_value (String c ds) 0) in *.
  assert (Hq : V <= 2 ^ 63 / unit).
  { apply Z.div_le_lower_bound; [lia|].
    change (2 ^ 63) with 9223372036854775808 in *. lia. }
  destruct (Z.gtb_spec V (2 ^ 63 / unit)) as [H|_]; [lia|].
  change (0 >? 0) with false. cbv iota.
  unfold u64. rewrite Z.mod_small; [reflexivity|].
  change (2 ^ 63) with 9223372036854775808 in *.
  change (2 ^ 64) with 18446744073709551616. nia.
Qed.

(** An offset written as decimal digits and one unit parses to the number
    the digits name times the unit, as long as that fits a [Duration]. *)
Lemma ParseDuration_integer_unit (ds u : string) (unit : Z) :
  ds <> "" -> all_digits ds = true -> In (u, unit) unitMap ->
  digits_value ds 0 * unit <= 2 ^ 63 - 1 ->
  ParseDuration (ds +:+ u) = Ok (digits_value ds 0 * unit).
Proof.
  intros Hne Hd Hin Hv.
  pose proof (ParseDuration_term_integer_unit ds u unit Hne Hd Hin Hv) as Hterm.
  assert (Hpos : 0 <= digits_value ds 0) by (apply digits_value_mono; [exact Hd|lia]).
  apply unitMap_entry in Hin as ((c1 & u' & Hu & Hc1 & Hdot1) & _ & _ & Hunit).
  destruct ds as [|c ds]; [congruence|].
  pose proof Hd as Hd'. simpl in Hd'. apply andb_prop in Hd' as [Hc Hds].
  destruct (digit_not_sign c Hc) as (Hm & Hp & _).
  set (V := digits_value (String c ds) 0) in *.
  unfold ParseDuration. rewrite app_String, Hm, Hp. cbn [orb].
  assert (H0 : String.eqb (String c (ds +:+ u)) "0" = false).
  { apply String.eqb_neq. intros H. injection H as _ H.
    destruct ds; [rewrite app_Empty in H; congruence|discriminate H]. }
  rewrite H0. cbn [String.length ParseDuration_loop].
  rewrite <- app_String, Hterm.
  assert (HV : 0 <= V * unit) by nia.
  unfold u64. change (2 ^ 63) with 9223372036854775808 in *.
  change (2 ^ 64) with 18446744073709551616.
  rewrite Z.add_0_l, Z.mod_small by lia.
  destruct (Z.gtb_spec (V * unit) 9223372036854775808) as [H|_]; [lia|].
  destruct (String.length (ds +:+ u)); cbn [ParseDuration_loop];
    (destruct (Z.gtb_spec (V * unit) (9223372036854775808 - 1)) as [H|_]; [lia|]);
    rewrite i64_small by (change (2 ^ 63) with 9223372036854775808; lia);
    reflexivity.
Qed.

(** *** The end time of an alert *)

(** The end time the shared block computes, when it computes one. *)
Lemma computeEndsAt_value (cfg : Config) (startsAt : Time) (e : option Time) :
  produced (computeEndsAt cfg startsAt) = Some e ->
  (EndsAtDuration cfg = "" /\ e = None) \/
  (exists d, EndsAtDuration cfg <> "" /\
             ParseDuration (EndsAtDuration cfg) = Ok d /\
             e = Some (Time_Add startsAt d)).
Proof.
  intros He.
  destruct (computeEndsAt_outcome cfg startsAt) as [H0|d Hne Hd|e' Hne Hd].
  - left. split; [exact H0|]. injection He as <-. reflexivity.
  - right. exists d. repeat split; auto. injection He as <-. reflexivity.
  - discriminate He.
Qed.

Lemma endsAt_law (cfg : Config) (startsAt : Time) (e : option Time) :
  produced (computeEndsAt cfg startsAt) = Some e ->
  (forall d, ParseDuration (EndsAtDuration cfg) = Ok d ->
             e = Some (Time_Add startsAt d) /\
             (representable startsAt = true ->
              representable (startsAt + d) = true ->
              e = Some (startsAt + d))) /\
  (EndsAtDuration cfg = "" -> e = None).
Proof.
  intros He. apply computeEndsAt_value in He as [[H0 ->]|(d & Hne & Hd & ->)].
  - split; [|reflexivity].
    intros d Hd. rewrite H0, ParseDuration_empty in Hd. discriminate Hd.
  - split; [|intros H0; contradiction].
    intros d' Hd'. rewrite Hd in Hd'. injection Hd' as <-.
    split; [reflexivity|]. intros H1 H2. rewrite Time_Add_exact; auto.
Qed.

(** C5 as first stated fails on [Part002]: under the offset ["1h"], a request
    whose ["_time"] lies 100 seconds before the last second that a
    [time.Time] holds gets an end time 100 seconds after its start time, not
    3600: the seconds of [Add] saturate. *)
Lemma C5_counterexample :
  exists a,
    produced (Part002.buildAlert (worldPart002 0 respOK) (configWith "1h" "")
                (request "{'result':{'_time':'9223371974719178907'}}")) = Some a /\
    ParseDuration (EndsAtDuration (configWith "1h" "")) = Ok (3600 * 1000000000) /\
    StartsAt a = 9223371974719178907 * 1000000000 /\
    EndsAt a = Some (StartsAt a + 100 * 1000000000) /\
    EndsAt a <> Some (StartsAt a + 3600 * 1000000000).
Proof.
  eexists. split; [vm_compute; reflexivity|].
  split; [vm_compute; reflexivity|].
  split; [reflexivity|].
  split; [vm_compute; reflexivity|].
  vm_compute. discriminate.
Qed.

(** C5, amended.  For an alert built by either revision: when the configured
    end-time offset parses as a duration, the end time is what [Time.Add]
    makes of the start time and that duration, and it is the start time plus
    the duration whenever the start time and that sum are both representable
    instants; so it is for an offset written as decimal digits and one unit,
    with the number the digits name times the unit, and for ["1h"] with 3600
    seconds; the empty offset leaves the alert without an end time. *)
Theorem C5_end_time_in_range :
  forall (cfg : Config) (a : V2Alert),
    (exists env r, produced (Part002.buildAlert env cfg r) = Some a) \/
    (exists env r, produced (Archive.buildAlert env cfg r) = Some a) ->
    (forall d, ParseDuration (EndsAtDuration cfg) = Ok d ->
       EndsAt a = Some (Time_Add (StartsAt a) d) /\
       (representable (StartsAt a) = true ->
        representable (StartsAt a + d) = true ->
        EndsAt a = Some (StartsAt a + d))) /\
    (forall (ds u : string) (unit : Z),
       EndsAtDuration cfg = ds +:+ u ->
       ds <> "" -> all_digits ds = true -> In (u, unit) unitMap ->
       digits_value ds 0 * unit <= 2 ^ 63 - 1 ->
       representable (StartsAt a) = true ->
       representable (StartsAt a + digits_value ds 0 * unit) = true ->
       EndsAt a = Some (StartsAt a + digits_value ds 0 * unit)) /\
    (EndsAtDuration cfg = "1h" ->
       representable (StartsAt a) = true ->
       representable (StartsAt a + 3600 * 1000000000) = true ->
       EndsAt a = Some (StartsAt a + 3600 * 1000000000)) /\
    (EndsAtDuration cfg = "" -> EndsAt a = None).
Proof.
  intros cfg a Hbuilt.
  assert (Hlaw :
    (forall d, ParseDuration (EndsAtDuration cfg) = Ok d ->
       EndsAt a = Some (Time_Add (StartsAt a) d) /\
       (representable (StartsAt a) = true ->
        representable (StartsAt a + d) = true ->
        EndsAt a = Some (StartsAt a + d))) /\
    (EndsAtDuration cfg = "" -> EndsAt a = None)).
  { destruct Hbuilt as [(env & r & Hp)|(env & r & Hp)].
    - apply Part002_alert_inv in Hp
        as (body & p & s & n & _ & _ & _ & _ & He & _ & _ & ->).
      apply endsAt_law, He.
    - apply Archive_alert_inv in Hp as (body & p & _ & _ & He & _ & _ & ->).
      apply endsAt_law, He. }
  destruct Hlaw as [Hadd Hempty].
  split; [exact Hadd|]. split; [|split; [|exact Hempty]].
  - intros ds u unit Hoff Hne Hd Hin Hv H1 H2.
    apply (Hadd (digits_value ds 0 * unit)); auto.
    rewrite Hoff. apply ParseDuration_integer_unit; auto.
  - intros Hoff H1 H2.
    apply (Hadd (3600 * 1000000000)); auto.
    rewrite Hoff. apply ParseDuration_1h.
Qed.

(** C5, amended, under the offsets [1h], [1m30s], [90m] and the empty
    one. *)
Lemma C5_witness :
  (exists a,
     produced (Part002.buildAlert (worldPart002 0 respOK) (configWith "1h" "")
                 (request "{'result':{'_time':'1700000000'}}")) = Some a /\
     StartsAt a = 1700000000 * 1000000000 /\
     EndsAt a = Some (StartsAt a + 3600 * 1000000000)) /\
  (exists a,
     produced (Archive.buildAlert (worldArchive 42 respOK) (configWith "1h" "")
                 (request "{'result':{}}")) = Some a /\
     StartsAt a = 42 /\
     EndsAt a = Some (StartsAt a + 3600 * 1000000000)) /\
  (exists a,
     produced (Archive.buildAlert (worldArchive 42 respOK) (configWith "1m30s" "")
                 (request "{'result':{}}")) = Some a /\
     EndsAt a = Some (StartsAt a + 90000000000)) /\
  (exists a,
     produced (Archive.buildAlert (worldArchive 42 respOK) (configWith "90m" "")
                 (request "{'result':{}}")) = Some a /\
     EndsAt a = Some (StartsAt a + 90 * 60000000000)) /\
  (exists a,
     produced (Part002.buildAlert (worldPart002 0 respOK) (configWith "" "")
                 (request "{'result':{'_time':'1700000000'}}")) = Some a /\
     EndsAt a = None).
Proof.
  split; [|split; [|split; [|split]]].
  - eexists. split; [vm_compute; reflexivity|]. split; [reflexivity|].
    apply (C5_end_time_in_range (configWith "1h" "")).
    + left. exists (worldPart002 0 respOK),
        (request "{'result':{'_time':'1700000000'}}").
      vm_compute; reflexivity.
    + reflexivity.
    + vm_compute; reflexivity.
    + vm_compute; reflexivity.
  - eexists. split; [vm_compute; reflexivity|]. split; [reflexivity|].
    apply (C5_end_time_in_range (configWith "1h" "")).
    + right. exists (worldArchive 42 respOK), (request "{'result':{}}").
      vm_compute; reflexivity.
    + reflexivity.
    + vm_compute; reflexivity.
    + vm_compute; reflexivity.
  - eexists. split; [vm_compute; reflexivity|].
    apply (proj1 (C5_end_time_in_range (configWith "1m30s" "") _
                    (or_intror (ex_intro _ (worldArchive 42 respOK)
                                  (ex_intro _ (request "{'result':{}}") eq_refl))))
             90000000000).
    + vm_compute; reflexivity.
    + vm_compute; reflexivity.
    + vm_compute; reflexivity.
  - eexists. split; [vm_compute; reflexivity|].
    apply (proj1 (proj2 (C5_end_time_in_range (configWith "90m" "") _
                    (or_intror (ex_intro _ (worldArchive 42 respOK)
                                  (ex_intro _ (request "{'result':{}}") eq_refl)))))
             "90" "m" Minute).
    + reflexivity.
    + discriminate.
    + vm_compute; reflexivity.
    + unfold unitMap. do 6 right. left. reflexivity.
    + vm_compute; discriminate.
    + vm_compute; reflexivity.
    + vm_compute; reflexivity.
  - eexists. split; [vm_compute; reflexivity|].
    apply (C5_end_time_in_range (configWith "" "")).
    + left. exists (worldPart002 0 respOK),
        (request "{'result':{'_time':'1700000000'}}").
      vm_compute; reflexivity.
    + reflexivity.
Defined.

(** ** Relaying the destination's answer *)

(** What the caller and the destination see of the forwarding block. *)
Lemma forward_observed {P} (env : Env P) (cfg : Config) (a : V2Alert)
    (url ct payload : string) :
  posts_of (trace (forward env cfg a)) = [(url, ct, payload)] ->
  (status_of (trace (forward env cfg a)) = Some StatusOK <->
   exists resp, http_Post env url ct payload = Ok resp /\
                StatusCode resp = StatusOK) /\
  (forall resp,
     http_Post env url ct payload = Ok resp ->
     StatusCode resp <> StatusOK ->
     status_of (trace (forward env cfg a)) = Some StatusInternalServerError /\
     Contains (body_of (trace (forward env cfg a))) (RespBody resp) = true).
Proof.
  intros Hposts.
  destruct (forward_outcome env cfg a)
    as [e Hm|bytes e Hm Hp|bytes resp Hm Hp Hs|bytes resp Hm Hp Hs];
    cbn [trace fst posts_of] in Hposts; try discriminate Hposts;
    injection Hposts as <- <- <-; cbn [trace fst status_of body_of].
  - split.
    + split; [discriminate|]. intros (resp & H & _). congruence.
    + intros resp H. congruence.
  - split.
    + split; [discriminate|]. intros (resp' & H & Hok).
      rewrite Hp in H. injection H as <-. contradiction.
    + intros resp' H _. rewrite Hp in H. injection H as <-.
      split; [reflexivity|].
      rewrite !app_assoc_string. apply Contains_app.
  - split.
    + split; [intros _; eauto|reflexivity].
    + intros resp' H Hne. rewrite Hp in H. injection H as <-. contradiction.
Qed.

(** A run that made a POST built an alert first. *)
Lemma Part002_posted env cfg r :
  posts_of (trace (Part002.HandleSplunkWebhook env cfg r)) <> [] ->
  exists a,
    produced (Part002.buildAlert env cfg r) = Some a /\
    status_of (trace (Part002.HandleSplunkWebhook env cfg r))
      = status_of (trace (forward env cfg a)) /\
    posts_of (trace (Part002.HandleSplunkWebhook env cfg r))
      = posts_of (trace (forward env cfg a)) /\
    body_of (trace (Part002.HandleSplunkWebhook env cfg r))
      = body_of (trace (forward env cfg a)).
Proof.
  intros Hposts.
  destruct (produced (Part002.buildAlert env cfg r)) as [a|] eqn:Hp.
  - exists a. split; [reflexivity|].
    unfold Part002.HandleSplunkWebhook.
    destruct (Part002_buildAlert_outcome env cfg r)
      as [t Hs Hpo|t body p s n endsAt Hb Hu Ht Hn He Hs Hpo Hbody];
      [discriminate Hp|].
    injection Hp as <-. apply handle_built; auto.
  - apply Part002_no_alert in Hp as [_ Hp]. contradiction.
Qed.

(** A run makes at most one POST: the serialised one-element list holding
    the alert, sent to the configured destination. *)
Lemma Part002_at_most_one_post env cfg r :
  posts_of (trace (Part002.HandleSplunkWebhook env cfg r)) = [] \/
  exists a bytes,
    produced (Part002.buildAlert env cfg r) = Some a /\
    json_Marshal env [a] = Ok bytes /\
    posts_of (trace (Part002.HandleSplunkWebhook env cfg r))
      = [(AlertmanagerURL cfg +:+ "/api/v2/alerts", "application/json", bytes)].
Proof.
  destruct (posts_of (trace (Part002.HandleSplunkWebhook env cfg r)))
    as [|x l] eqn:Hposts; [left; reflexivity|right].
  destruct (Part002_posted env cfg r) as (a & Ha & _ & Hp & _);
    [rewrite Hposts; discriminate|].
  rewrite Hposts in Hp.
  destruct (forward_outcome env cfg a)
    as [e Hm|bytes e Hm Hq|bytes resp Hm Hq Hs|bytes resp Hm Hq Hs];
    cbn [trace fst posts_of] in Hp; try discriminate Hp;
    exists a, bytes; rewrite Hp; auto.
Qed.

(** C8.  For a request that was forwarded: the caller is told 200 exactly
    when the destination answered 200; when the destination answered with
    another status the caller is told 500 and the response body contains
    the body the destination sent. *)
Theorem C8_destination_answer_relayed :
  forall (env : Env Part002.SplunkPayload) (cfg : Config) (r : Request)
         (url ct payload : string),
    posts_of (trace (Part002.HandleSplunkWebhook env cfg r))
      = [(url, ct, payload)] ->
    (status_of (trace (Part002.HandleSplunkWebhook env cfg r)) = Some StatusOK <->
     exists resp, http_Post env url ct payload = Ok resp /\
                  StatusCode resp = StatusOK) /\
    (forall resp,
       http_Post env url ct payload = Ok resp ->
       StatusCode resp <> StatusOK ->
       status_of (trace (Part002.HandleSplunkWebhook env cfg r))
         = Some StatusInternalServerError /\
       Contains (body_of (trace (Part002.HandleSplunkWebhook env cfg r)))
                (RespBody resp) = true).
Proof.
  intros env cfg r url ct payload Hposts.
  destruct (Part002_posted env cfg r) as (a & _ & Hs & Hp & Hb);
    [rewrite Hposts; discriminate|].
  rewrite Hs, Hb. apply forward_observed. rewrite <- Hp. exact Hposts.
Qed.

(** C8 with a destination that answers 503, and with one that answers 200. *)
Lemma C8_witness :
  (status_of (trace (Part002.HandleSplunkWebhook (worldPart002 0 respDown)
                       defaultConfig
                       (request "{'result':{'_time':'7'},'search_name':'errors'}")))
     = Some 500 /\
   Contains (body_of (trace (Part002.HandleSplunkWebhook (worldPart002 0 respDown)
                               defaultConfig
                               (request "{'result':{'_time':'7'},'search_name':'errors'}"))))
            "alertmanager is down" = true) /\
  (status_of (trace (Part002.HandleSplunkWebhook (worldPart002 0 respOK)
                       defaultConfig
                       (request "{'result':{'_time':'7'},'search_name':'errors'}")))
     = Some 200 <->
   exists resp, respOK = Ok resp /\ StatusCode resp = 200).
Proof.
  split.
  - apply (proj2 (C8_destination_answer_relayed (worldPart002 0 respDown)
             defaultConfig
             (request "{'result':{'_time':'7'},'search_name':'errors'}")
             "http://localhost:9093/api/v2/alerts" "application/json" "{alert}"
             ltac:(vm_compute; reflexivity))
             {| StatusCode := 503; RespBody := "alertmanager is down" |}).
    + reflexivity.
    + vm_compute; discriminate.
  - apply (proj1 (C8_destination_answer_relayed (worldPart002 0 respOK)
             defaultConfig
             (request "{'result':{'_time':'7'},'search_name':'errors'}")
             "http://localhost:9093/api/v2/alerts" "application/json" "{alert}"
             ltac:(vm_compute; reflexivity))).
Defined.

(** ** Where the two revisions differ *)

Lemma Part002_annotation_keys (p : Part002.SplunkPayload) (k : string) :
  is_Some (Part002.buildAnnotations p !! k) <-> k = "summary" \/ k = "link".
Proof.
  unfold Part002.buildAnnotations.
  destruct (decide (k = "link")) as [->|Hl].
  { rewrite lookup_insert_eq. split; [auto|eauto]. }
  rewrite lookup_insert_ne by congruence.
  destruct (decide (k = "summary")) as [->|Hs].
  { rewrite lookup_insert_eq. split; [auto|eauto]. }
  rewrite lookup_insert_ne by congruence. rewrite lookup_empty.
  split; [intros [x Hx]; discriminate Hx|intros [H|H]; contradiction].
Qed.

(** In [Archive] the entry ["ann." ++ k] with a string value becomes the
    annotation [k], unless [k] is one of the two fixed annotations. *)
Lemma Archive_annotation_from_entry (p : Archive.SplunkWebhook)
    (R : gmap string JSON) (k s : string) :
  k <> "link" -> k <> "summary" ->
  R !! ("ann." +:+ k) = Some (JString s) ->
  annotationsArchive p R !! k = Some s.
Proof.
  intros Hl Hs HR. apply annotationsArchive_lookup. right; right. auto.
Qed.

Lemma Archive_no_label_under_prefix (p : Archive.SplunkWebhook)
    (R : gmap string JSON) (k : string) :
  HasPrefix k "ann." = true -> labelsArchive p R !! k = None.
Proof.
  intros Hp. destruct (labelsArchive p R !! k) as [s|] eqn:E; [|reflexivity].
  apply labelsArchive_lookup in E
    as [[-> _]|[(_ & -> & _)|(_ & _ & _ & Hq)]];
    [discriminate Hp|discriminate Hp|congruence].
Qed.

(** C2 as first stated fails on [Part002]: with [ann.foo] among the
    additional label keys, the entry gives no annotation and does give a
    label. *)
Lemma C2_counterexample :
  AnnotationPrefix (configWith "" "ann.foo") = "ann." /\
  exists body p a,
    Body (request "{'result':{'_time':'7','ann.foo':'bar'}}") = Ok body /\
    GoJSON.UnmarshalPart002 body = Ok p /\
    Part002.Result p !! "ann.foo" = Some (JString "bar") /\
    produced (Part002.buildAlert (worldPart002 0 respOK)
                (configWith "" "ann.foo")
                (request "{'result':{'_time':'7','ann.foo':'bar'}}")) = Some a /\
    Annotations a !! "foo" = None /\
    Labels a !! "ann.foo" = Some "bar".
Proof.
  split; [reflexivity|].
  do 3 eexists.
  split; [reflexivity|].
  split; [vm_compute; reflexivity|].
  split; [vm_compute; reflexivity|].
  split; [vm_compute; reflexivity|].
  split; vm_compute; reflexivity.
Qed.

(** C2, amended.  In the revision [Archive], whose prefix is the constant
    ["ann."], a result-set entry ["ann.foo"] with the string value ["bar"]
    gives the annotation [foo = bar]; the label set has no entry under that
    key and is the same with or without the entry.  In the revision
    [Part002] the annotation set holds the keys ["summary"] and ["link"] and
    no other, whatever the result set, and the entry becomes the label
    ["ann.foo" = "bar"] exactly when ["ann.foo"] is one of the allowed label
    keys. *)
Theorem C2_annotation_prefix_per_revision :
  (forall env cfg r body p,
     Body r = Ok body ->
     json_Unmarshal env body = Ok p ->
     Archive.Result p !! "ann.foo" = Some (JString "bar") ->
     durationOK cfg ->
     exists a,
       produced (Archive.buildAlert env cfg r) = Some a /\
       Annotations a !! "foo" = Some "bar" /\
       Labels a !! "ann.foo" = None /\
       ~ feeds (labelsArchive p) (Archive.Result p) "ann.foo") /\
  (forall env cfg r a,
     produced (Part002.buildAlert env cfg r) = Some a ->
     exists body p,
       Body r = Ok body /\
       json_Unmarshal env body = Ok p /\
       (forall k, is_Some (Annotations a !! k) <-> k = "summary" \/ k = "link") /\
       (Labels a !! "ann.foo" = Some "bar" <->
        allowed cfg "ann.foo" /\
        Part002.Result p !! "ann.foo" = Some (JString "bar"))).
Proof.
  split.
  - intros env cfg r body p Hb Hu HR Hd.
    destruct (Archive_alert_built env cfg r body p Hb Hu Hd) as [a Ha].
    exists a. split; [exact Ha|].
    apply Archive_alert_inv in Ha as (body' & p' & Hb' & Hu' & _ & HL & HA & _).
    rewrite Hb in Hb'. injection Hb' as <-.
    rewrite Hu in Hu'. injection Hu' as <-.
    rewrite HL, HA. split; [|split].
    + apply Archive_annotation_from_entry; [discriminate|discriminate|exact HR].
    + apply Archive_no_label_under_prefix. reflexivity.
    + apply Archive_prefixed_not_label. reflexivity.
  - intros env cfg r a Hp.
    apply Part002_alert_inv in Hp
      as (body & p & s & n & Hb & Hu & _ & _ & _ & HL & HA & _).
    exists body, p. rewrite HL, HA.
    split; [exact Hb|]. split; [exact Hu|]. split.
    + intros k. apply Part002_annotation_keys.
    + apply buildLabels_lookup.
Qed.

(** C2, amended, on one request for each revision. *)
Lemma C2_witness :
  (exists a,
     produced (Archive.buildAlert (worldArchive 0 respOK) defaultConfig
                 (request "{'result':{'ann.foo':'bar'}}")) = Some a /\
     Annotations a !! "foo" = Some "bar" /\
     Labels a !! "ann.foo" = None) /\
  (exists a,
     produced (Part002.buildAlert (worldPart002 0 respOK) defaultConfig
                 (request "{'result':{'_time':'7','ann.foo':'bar'}}")) = Some a /\
     Annotations a !! "foo" = None).
Proof.
  split.
  - destruct (proj1 C2_annotation_prefix_per_revision
                (worldArchive 0 respOK) defaultConfig
                (request "{'result':{'ann.foo':'bar'}}")
                (q "{'result':{'ann.foo':'bar'}}")
                {| Archive.Sid := ""; Archive.SearchName := "";
                   Archive.App := ""; Archive.ResultsLink := "";
                   Archive.Result := <["ann.foo" := JString "bar"]> ∅ |})
      as (a & Ha & HA & HL & _).
    + reflexivity.
    + vm_compute; reflexivity.
    + vm_compute; reflexivity.
    + left; reflexivity.
    + exists a. auto.
  - eexists. split; [vm_compute; reflexivity|].
    destruct (proj2 C2_annotation_prefix_per_revision
                (worldPart002 0 respOK) defaultConfig
                (request "{'result':{'_time':'7','ann.foo':'bar'}}") _
                ltac:(vm_compute; reflexivity))
      as (body & p & _ & _ & Hk & _).
    destruct (Annotations _ !! "foo") as [x|] eqn:E; [|reflexivity].
    exfalso. destruct (proj1 (Hk "foo")) as [H|H]; [eauto|discriminate|discriminate].
Defined.

(** C7 as first stated fails on [Part002]: two requests handled at the same
    clock reading get the start times their [_time] entries name. *)
Lemma C7_counterexample :
  exists a b,
    produced (Part002.buildAlert (worldPart002 1700000000000000000 respOK)
                defaultConfig (request "{'result':{'_time':'7'}}")) = Some a /\
    produced (Part002.buildAlert (worldPart002 1700000000000000000 respOK)
                defaultConfig (request "{'result':{'_time':'8'}}")) = Some b /\
    StartsAt a <> time_Now (worldPart002 1700000000000000000 respOK) /\
    StartsAt a <> StartsAt b.
Proof.
  do 2 eexists.
  split; [vm_compute; reflexivity|].
  split; [vm_compute; reflexivity|].
  split; vm_compute; discriminate.
Qed.

(** C7, amended.  In the revision [Archive] the start time of the alert is
    the clock reading taken while the request is handled, so two requests
    handled at the same clock reading get the same start time whatever they
    carry.  In the revision [Part002] the start time is the Unix time, in
    seconds, that the string at ["_time"] in the result set names. *)
Theorem C7_start_time_per_revision :
  (forall env cfg r a,
     produced (Archive.buildAlert env cfg r) = Some a ->
     StartsAt a = time_Now env) /\
  (forall env env' cfg cfg' r r' a a',
     produced (Archive.buildAlert env cfg r) = Some a ->
     produced (Archive.buildAlert env' cfg' r') = Some a' ->
     time_Now env = time_Now env' ->
     StartsAt a = StartsAt a') /\
  (forall env cfg r a,
     produced (Part002.buildAlert env cfg r) = Some a ->
     exists body p s n,
       Body r = Ok body /\
       json_Unmarshal env body = Ok p /\
       Part002.Result p !! "_time" = Some (JString s) /\
       ParseInt s = Ok n /\
       StartsAt a = time_Unix n 0).
Proof.
  assert (Hnow : forall env cfg r a,
    produced (Archive.buildAlert env cfg r) = Some a -> StartsAt a = time_Now env).
  { intros env cfg r a Hp.
    apply Archive_alert_inv in Hp as (body & p & _ & _ & _ & _ & _ & Hs).
    exact Hs. }
  split; [exact Hnow|]. split.
  - intros env env' cfg cfg' r r' a a' Hp Hp' Hclock.
    rewrite (Hnow _ _ _ _ Hp), (Hnow _ _ _ _ Hp'). exact Hclock.
  - intros env cfg r a Hp.
    apply Part002_alert_inv in Hp
      as (body & p & s & n & Hb & Hu & Ht & Hn & _ & _ & _ & Hs).
    exists body, p, s, n. auto.
Qed.

(** C7, amended, on one request for each revision. *)
Lemma C7_witness :
  (exists a,
     produced (Archive.buildAlert (worldArchive 1700000000000000000 respOK)
                 defaultConfig (request "{'result':{'_time':'7'}}")) = Some a /\
     StartsAt a = 1700000000000000000) /\
  (exists a,
     produced (Part002.buildAlert (worldPart002 1700000000000000000 respOK)
                 defaultConfig (request "{'result':{'_time':'7'}}")) = Some a /\
     exists body p s n,
       Body (request "{'result':{'_time':'7'}}") = Ok body /\
       GoJSON.UnmarshalPart002 body = Ok p /\
       Part002.Result p !! "_time" = Some (JString s) /\
       ParseInt s = Ok n /\
       StartsAt a = time_Unix n 0).
Proof.
  split.
  - eexists. split; [vm_compute; reflexivity|].
    apply (proj1 C7_start_time_per_revision
             (worldArchive 1700000000000000000 respOK) defaultConfig
             (request "{'result':{'_time':'7'}}")).
    vm_compute; reflexivity.
  - eexists. split; [vm_compute; reflexivity|].
    apply (proj2 (proj2 C7_start_time_per_revision)
             (worldPart002 1700000000000000000 respOK) defaultConfig
             (request "{'result':{'_time':'7'}}")).
    vm_compute; reflexivity.
Defined.

(** C9 as first stated fails on [Part002]: a payload with a search name and
    an application gives an alert without any label. *)
Lemma C9_counterexample :
  exists body p a,
    Body (request "{'search_name':'errors','app':'search','result':{'_time':'7'}}")
      = Ok body /\
    GoJSON.UnmarshalPart002 body = Ok p /\
    Part002.SearchName p = "errors" /\
    Part002.App p = "search" /\
    produced (Part002.buildAlert (worldPart002 0 respOK) defaultConfig
                (request "{'search_name':'errors','app':'search','result':{'_time':'7'}}"))
      = Some a /\
    Labels a = ∅.
Proof.
  do 3 eexists.
  split; [reflexivity|].
  split; [vm_compute; reflexivity|].
  split; [reflexivity|]. split; [reflexivity|].
  split; vm_compute; reflexivity.
Qed.

(** C9, amended.  In the revision [Archive] the label set of every alert
    holds ["alertname"], the search name of the payload, and ["app"], its
    application, whatever the result set holds.  The revision [Part002]
    injects no label: its label set is made of the string-valued result
    entries at the allowed keys and of nothing else. *)
Theorem C9_source_labels_per_revision :
  (forall env cfg r a,
     produced (Archive.buildAlert env cfg r) = Some a ->
     exists body p,
       Body r = Ok body /\
       json_Unmarshal env body = Ok p /\
       Labels a !! "alertname" = Some (Archive.SearchName p) /\
       Labels a !! "app" = Some (Archive.App p)) /\
  (forall env cfg r a,
     produced (Part002.buildAlert env cfg r) = Some a ->
     exists body p,
       Body r = Ok body /\
       json_Unmarshal env body = Ok p /\
       forall k s,
         Labels a !! k = Some s <->
         allowed cfg k /\ Part002.Result p !! k = Some (JString s)).
Proof.
  split; intros env cfg r a Hp.
  - apply Archive_alert_inv in Hp as (body & p & Hb & Hu & _ & HL & _).
    exists body, p. rewrite HL.
    split; [exact Hb|]. split; [exact Hu|]. split.
    + apply labelsArchive_lookup. right; left.
      split; [discriminate|]. auto.
    + apply labelsArchive_lookup. left. auto.
  - apply Part002_alert_inv in Hp
      as (body & p & s & n & Hb & Hu & _ & _ & _ & HL & _).
    exists body, p. rewrite HL.
    split; [exact Hb|]. split; [exact Hu|].
    intros k s'. apply buildLabels_lookup.
Qed.

(** C9, amended, on one request for each revision. *)
Lemma C9_witness :
  (exists a,
     produced (Archive.buildAlert (worldArchive 0 respOK) defaultConfig
                 (request "{'search_name':'errors','app':'search','result':{'app':'x'}}"))
       = Some a /\
     Labels a !! "alertname" = Some "errors" /\
     Labels a !! "app" = Some "search") /\
  (exists a,
     produced (Part002.buildAlert (worldPart002 0 respOK) defaultConfig
                 (request "{'search_name':'errors','result':{'_time':'7','host':'h1'}}"))
       = Some a /\
     exists body p,
       Body (request "{'search_name':'errors','result':{'_time':'7','host':'h1'}}")
         = Ok body /\
       GoJSON.UnmarshalPart002 body = Ok p /\
       forall k s,
         Labels a !! k = Some s <->
         allowed defaultConfig k /\ Part002.Result p !! k = Some (JString s)).
Proof.
  split.
  - eexists. split; [vm_compute; reflexivity|].
    destruct (proj1 C9_source_labels_per_revision
                (worldArchive 0 respOK) defaultConfig
                (request "{'search_name':'errors','app':'search','result':{'app':'x'}}")
                _ ltac:(vm_compute; reflexivity))
      as (body & p & Hb & Hu & H1 & H2).
    injection Hb as <-. vm_compute in Hu. injection Hu as <-.
    split; [exact H1|exact H2].
  - eexists. split; [vm_compute; reflexivity|].
    apply (proj2 C9_source_labels_per_revision
             (worldPart002 0 respOK) defaultConfig
             (request "{'search_name':'errors','result':{'_time':'7','host':'h1'}}")).
    vm_compute; reflexivity.
Defined.

(** ** The trigger time of [Part002] *)

Lemma Part002_bad_trigger_time env cfg r body p :
  Body r = Ok body ->
  json_Unmarshal env body = Ok p ->
  (forall s n, Part002.Result p !! "_time" = Some (JString s) ->
               ParseInt s = Ok n -> False) ->
  produced (Part002.buildAlert env cfg r) = None.
Proof.
  intros Hb Hu Hbad.
  destruct (produced (Part002.buildAlert env cfg r)) as [a|] eqn:Hp; [|reflexivity].
  apply Part002_alert_inv in Hp as (body' & p' & s & n & Hb' & Hu' & Ht & Hn & _).
  rewrite Hb in Hb'. injection Hb' as <-.
  rewrite Hu in Hu'. injection Hu' as <-.
  exfalso. eapply Hbad; eauto.
Qed.

(** C10 as first stated fails at 2^63: the string is a base-10 integer, and
    the request is rejected all the same. *)
Lemma C10_counterexample :
  decimalInteger "9223372036854775808" = Some 9223372036854775808 /\
  exists body p,
    Body (request "{'result':{'_time':'9223372036854775808'}}") = Ok body /\
    GoJSON.UnmarshalPart002 body = Ok p /\
    Part002.Result p !! "_time" = Some (JString "9223372036854775808") /\
    produced (Part002.buildAlert (worldPart002 0 respOK) defaultConfig
                (request "{'result':{'_time':'9223372036854775808'}}")) = None /\
    status_of (trace (Part002.HandleSplunkWebhook (worldPart002 0 respOK)
                        defaultConfig
                        (request "{'result':{'_time':'9223372036854775808'}}")))
      = Some 400.
Proof.
  split; [vm_compute; reflexivity|].
  do 2 eexists.
  split; [reflexivity|].
  split; [vm_compute; reflexivity|].
  split; [vm_compute; reflexivity|].
  split; vm_compute; reflexivity.
Qed.

(** C10, amended.  For a request whose body decodes: when the result set has
    no ["_time"], or its ["_time"] is not a JSON string, or that string is
    not a base-10 integer that fits 64 signed bits, the request is answered
    with status 400 and no POST is made; otherwise the string names an
    integer [n], every alert built has the start time [n] seconds after the
    Unix epoch, and an alert is built unless the configured end-time offset
    is invalid. *)
Theorem C10_trigger_time :
  forall (env : Env Part002.SplunkPayload) (cfg : Config) (r : Request)
         (body : string) (p : Part002.SplunkPayload),
    Body r = Ok body ->
    json_Unmarshal env body = Ok p ->
    ((Part002.Result p !! "_time" = None \/
      (exists v, Part002.Result p !! "_time" = Some v /\
                 forall s, v <> JString s) \/
      (exists s, Part002.Result p !! "_time" = Some (JString s) /\
                 decimalInt64 s = None)) ->
     status_of (trace (Part002.HandleSplunkWebhook env cfg r))
       = Some StatusBadRequest /\
     posts_of (trace (Part002.HandleSplunkWebhook env cfg r)) = []) /\
    (forall s n,
       Part002.Result p !! "_time" = Some (JString s) ->
       decimalInt64 s = Some n ->
       (forall a, produced (Part002.buildAlert env cfg r) = Some a ->
                  StartsAt a = time_Unix n 0 /\
                  StartsAt a = n * 1000000000) /\
       (durationOK cfg ->
        exists a, produced (Part002.buildAlert env cfg r) = Some a)).
Proof.
  intros env cfg r body p Hb Hu. split.
  - intros Hbad. apply Part002_no_alert.
    apply (Part002_bad_trigger_time env cfg r body p Hb Hu).
    intros s n Ht Hn.
    destruct Hbad as [H|[(v & Hv & Hns)|(s' & Hs' & Hd)]].
    + congruence.
    + rewrite Ht in Hv. injection Hv as <-. eapply Hns; reflexivity.
    + rewrite Ht in Hs'. injection Hs' as <-.
      apply ParseInt_spec in Hn. congruence.
  - intros s n Ht Hd. apply ParseInt_spec in Hd. split.
    + intros a Hp.
      apply Part002_alert_inv in Hp
        as (body' & p' & s' & n' & Hb' & Hu' & Ht' & Hn' & _ & _ & _ & Hs).
      rewrite Hb in Hb'. injection Hb' as <-.
      rewrite Hu in Hu'. injection Hu' as <-.
      rewrite Ht in Ht'. injection Ht' as <-.
      rewrite Hd in Hn'. injection Hn' as <-.
      split; [exact Hs|]. rewrite Hs. unfold time_Unix. change Second with 1000000000.
      lia.
    + intros Hok. eapply Part002_alert_built; eauto.
Qed.

(** C10, amended: a missing, a numeric, a fractional and a valid [_time]. *)
Lemma C10_witness :
  (status_of (trace (Part002.HandleSplunkWebhook (worldPart002 0 respOK)
                       defaultConfig (request "{'result':{'host':'h1'}}")))
     = Some 400 /\
   posts_of (trace (Part002.HandleSplunkWebhook (worldPart002 0 respOK)
                      defaultConfig (request "{'result':{'host':'h1'}}"))) = []) /\
  (status_of (trace (Part002.HandleSplunkWebhook (worldPart002 0 respOK)
                       defaultConfig (request "{'result':{'_time':1700000000}}")))
     = Some 400 /\
   posts_of (trace (Part002.HandleSplunkWebhook (worldPart002 0 respOK)
                      defaultConfig (request "{'result':{'_time':1700000000}}")))
     = []) /\
  (status_of (trace (Part002.HandleSplunkWebhook (worldPart002 0 respOK)
                       defaultConfig (request "{'result':{'_time':'12.5'}}")))
     = Some 400 /\
   posts_of (trace (Part002.HandleSplunkWebhook (worldPart002 0 respOK)
                      defaultConfig (request "{'result':{'_time':'12.5'}}")))
     = []) /\
  (exists a,
     produced (Part002.buildAlert (worldPart002 0 respOK) defaultConfig
                 (request "{'result':{'_time':'1700000000'}}")) = Some a /\
     StartsAt a = 1700000000 * 1000000000).
Proof.
  split; [|split; [|split]].
  - edestruct (C10_trigger_time (worldPart002 0 respOK) defaultConfig
                 (request "{'result':{'host':'h1'}}")) as [Hrej _];
      [reflexivity|vm_compute; reflexivity|].
    apply Hrej. left. vm_compute; reflexivity.
  - edestruct (C10_trigger_time (worldPart002 0 respOK) defaultConfig
                 (request "{'result':{'_time':1700000000}}")) as [Hrej _];
      [reflexivity|vm_compute; reflexivity|].
    apply Hrej. right; left. exists (JNumber "1700000000").
    split; [vm_compute; reflexivity|discriminate].
  - edestruct (C10_trigger_time (worldPart002 0 respOK) defaultConfig
                 (request "{'result':{'_time':'12.5'}}")) as [Hrej _];
      [reflexivity|vm_compute; reflexivity|].
    apply Hrej. right; right. exists "12.5".
    split; vm_compute; reflexivity.
  - edestruct (C10_trigger_time (worldPart002 0 respOK) defaultConfig
                 (request "{'result':{'_time':'1700000000'}}")) as [_ Hok];
      [reflexivity|vm_compute; reflexivity|].
    destruct (Hok "1700000000" 1700000000) as [Hstart Hbuilt];
      [vm_compute; reflexivity|vm_compute; reflexivity|].
    destruct (Hbuilt (or_introl eq_refl)) as [a Ha].
    exists a. split; [exact Ha|]. apply (Hstart a Ha).
Defined.


(* ===================================================================== *)
(** * Part III: further properties of the handlers, the configuration and
      the logger                                                          *)
(* ===================================================================== *)

(** ** One answer per request *)

(** X1.  Whatever the request and the world, a run of either revision sets
    the response status exactly once, to 200, 400 or 500. *)
Theorem handlers_answer_exactly_once :
  forall (cfg : Config) (r : Request),
    (forall env : Env Part002.SplunkPayload,
       count_headers (trace (Part002.HandleSplunkWebhook env cfg r)) = 1%nat /\
       (status_of (trace (Part002.HandleSplunkWebhook env cfg r)) = Some StatusOK \/
        status_of (trace (Part002.HandleSplunkWebhook env cfg r))
          = Some StatusBadRequest \/
        status_of (trace (Part002.HandleSplunkWebhook env cfg r))
          = Some StatusInternalServerError)) /\
    (forall env : Env Archive.SplunkWebhook,
       count_headers (trace (Archive.HandleSplunkWebhook env cfg r)) = 1%nat /\
       (status_of (trace (Archive.HandleSplunkWebhook env cfg r)) = Some StatusOK \/
        status_of (trace (Archive.HandleSplunkWebhook env cfg r))
          = Some StatusBadRequest \/
        status_of (trace (Archive.HandleSplunkWebhook env cfg r))
          = Some StatusInternalServerError)).
Proof.
  intros cfg r. split; intros env.
  - walk_Part002 env cfg r computeEndsAt_outcome @forward_outcome; auto.
  - walk_Archive env cfg r computeEndsAt_outcome @forward_outcome; auto.
Qed.

(** X2.  When the body of the request cannot be read, either revision
    answers 400 with the text "Failed to read request body", logs one error
    and does nothing else: no decoding, no POST. *)
Theorem unreadable_body_rejected :
  forall (cfg : Config) (r : Request) (e : error),
    Body r = Err e ->
    (forall env : Env Part002.SplunkPayload,
       trace (Part002.HandleSplunkWebhook env cfg r) =
       [EvWriteHeader StatusBadRequest;
        EvWrite ("Failed to read request body" +:+ newline);
        EvLog LevelError "Failed to read request body"]) /\
    (forall env : Env Archive.SplunkWebhook,
       trace (Archive.HandleSplunkWebhook env cfg r) =
       [EvWriteHeader StatusBadRequest;
        EvWrite ("Failed to read request body" +:+ newline);
        EvLog LevelError "Failed to read request body"]).
Proof.
  intros cfg r e Hb. split; intros env.
  - unfold Part002.HandleSplunkWebhook, Part002.buildAlert.
    rewrite Hb. reflexivity.
  - unfold Archive.HandleSplunkWebhook, Archive.buildAlert.
    rewrite Hb. reflexivity.
Qed.

(** X2 on a request whose body breaks off. *)
Lemma unreadable_body_rejected_witness :
  status_of (trace (Part002.HandleSplunkWebhook (worldPart002 0 respOK)
                      defaultConfig requestUnread)) = Some 400 /\
  posts_of (trace (Archive.HandleSplunkWebhook (worldArchive 0 respOK)
                     defaultConfig requestUnread)) = [].
Proof.
  destruct (unreadable_body_rejected defaultConfig requestUnread
              (ErrMsg "unexpected EOF") eq_refl) as [H1 H2].
  rewrite (H1 (worldPart002 0 respOK)), (H2 (worldArchive 0 respOK)).
  split; reflexivity.
Defined.

(** ** Failures and the log *)

(** X3.  A run of either revision logs at the level [Error] exactly when it
    does not answer 200, and then it logs one such message. *)
Theorem error_logged_iff_not_ok :
  forall (cfg : Config) (r : Request),
    (forall env : Env Part002.SplunkPayload,
       (status_of (trace (Part002.HandleSplunkWebhook env cfg r)) = Some StatusOK /\
        error_logs (trace (Part002.HandleSplunkWebhook env cfg r)) = []) \/
       (status_of (trace (Part002.HandleSplunkWebhook env cfg r)) <> Some StatusOK /\
        exists msg,
          error_logs (trace (Part002.HandleSplunkWebhook env cfg r)) = [msg])) /\
    (forall env : Env Archive.SplunkWebhook,
       (status_of (trace (Archive.HandleSplunkWebhook env cfg r)) = Some StatusOK /\
        error_logs (trace (Archive.HandleSplunkWebhook env cfg r)) = []) \/
       (status_of (trace (Archive.HandleSplunkWebhook env cfg r)) <> Some StatusOK /\
        exists msg,
          error_logs (trace (Archive.HandleSplunkWebhook env cfg r)) = [msg])).
Proof.
  intros cfg r. split; intros env.
  - walk_Part002 env cfg r computeEndsAt_outcome @forward_outcome;
      first [ left; split; reflexivity
            | right; split; [discriminate|eexists; reflexivity] ].
  - walk_Archive env cfg r computeEndsAt_outcome @forward_outcome;
      first [ left; split; reflexivity
            | right; split; [discriminate|eexists; reflexivity] ].
Qed.

(** The logger never holds back a message of the level [Error]. *)
Lemma Enabled_error (logLevel logFormat : string) :
  Enabled (NewLogger logLevel logFormat) LevelError = true.
Proof.
  unfold NewLogger, Enabled.
  destruct (String.eqb logFormat "json");
    destruct (String.eqb logLevel "debug"); [reflexivity| |reflexivity|];
    destruct (String.eqb logLevel "info"); try reflexivity;
    destruct (String.eqb logLevel "warn"); try reflexivity;
    destruct (String.eqb logLevel "error"); reflexivity.
Qed.

Lemma Enabled_debug (logLevel logFormat : string) :
  Enabled (NewLogger logLevel logFormat) LevelDebug = true -> logLevel = "debug".
Proof.
  unfold NewLogger, Enabled.
  destruct (String.eqb_spec logLevel "debug") as [H|H]; [intros _; exact H|].
  destruct (String.eqb logFormat "json");
    destruct (String.eqb logLevel "info"); try discriminate;
    destruct (String.eqb logLevel "warn"); try discriminate;
    destruct (String.eqb logLevel "error"); discriminate.
Qed.

Lemma written_error_logs (lg : Logger) (t : list Event) (msg : string) :
  Enabled lg LevelError = true ->
  In msg (error_logs t) -> In (LevelError, msg) (written lg t).
Proof.
  intros Hen. induction t as [|ev t IH]; simpl; [auto|].
  destruct ev as [c|d|lvl m|u ct pl]; auto.
  destruct lvl; simpl.
  - intros H. destruct (Enabled lg LevelDebug); [right|]; auto.
  - intros H. destruct (Enabled lg LevelInfo); [right|]; auto.
  - intros H. destruct (Enabled lg LevelWarn); [right|]; auto.
  - rewrite Hen. intros [->|H]; [left; reflexivity|right; auto].
Qed.

Lemma written_In (lg : Logger) (t : list Event) (lvl : Level) (msg : string) :
  In (lvl, msg) (written lg t) -> Enabled lg lvl = true.
Proof.
  induction t as [|ev t IH]; simpl; [intros []|].
  destruct ev as [c|d|lvl' m|u ct pl]; auto.
  destruct (Enabled lg lvl') eqn:E; [|auto].
  intros [H|H]; [injection H as -> _; exact E|auto].
Qed.

(** X4.  With the logger that [main] builds from the configuration, whatever
    the configured level and format: a run of either revision that does not
    answer 200 writes a message of the level [Error] to the log; and a
    message of the level [Debug] is written only when the configured level
    is exactly ["debug"]. *)
Theorem logger_keeps_errors_and_gates_debug :
  forall (cfg : Config) (r : Request),
    (forall env : Env Part002.SplunkPayload,
       status_of (trace (Part002.HandleSplunkWebhook env cfg r)) <> Some StatusOK ->
       exists msg,
         In (LevelError, msg)
            (written (NewLogger (LogLevel cfg) (LogFormat cfg))
               (trace (Part002.HandleSplunkWebhook env cfg r)))) /\
    (forall env : Env Archive.SplunkWebhook,
       status_of (trace (Archive.HandleSplunkWebhook env cfg r)) <> Some StatusOK ->
       exists msg,
         In (LevelError, msg)
            (written (NewLogger (LogLevel cfg) (LogFormat cfg))
               (trace (Archive.HandleSplunkWebhook env cfg r)))) /\
    (forall (t : list Event) (msg : string),
       In (LevelDebug, msg)
          (written (NewLogger (LogLevel cfg) (LogFormat cfg)) t) ->
       LogLevel cfg = "debug").
Proof.
  intros cfg r.
  assert (Hkey : forall t : list Event,
    ((status_of t = Some StatusOK /\ error_logs t = []) \/
     (status_of t <> Some StatusOK /\ exists msg, error_logs t = [msg])) ->
    status_of t <> Some StatusOK ->
    exists msg,
      In (LevelError, msg) (written (NewLogger (LogLevel cfg) (LogFormat cfg)) t)).
  { intros t [[Hs _]|[_ [msg Hm]]] Hne; [contradiction|].
    exists msg. apply written_error_logs; [apply Enabled_error|].
    rewrite Hm. left; reflexivity. }
  split; [|split].
  - intros env. apply Hkey.
    walk_Part002 env cfg r computeEndsAt_outcome @forward_outcome;
      first [ left; split; reflexivity
            | right; split; [discriminate|eexists; reflexivity] ].
  - intros env. apply Hkey.
    walk_Archive env cfg r computeEndsAt_outcome @forward_outcome;
      first [ left; split; reflexivity
            | right; split; [discriminate|eexists; reflexivity] ].
  - intros t msg H. apply written_In in H. eapply Enabled_debug, H.
Qed.

(** X4 under the level [error]: a rejected request leaves its error in the
    log, and nothing at the level [Debug]. *)
Lemma logger_keeps_errors_and_gates_debug_witness :
  written (NewLogger "error" "json")
    (trace (Part002.HandleSplunkWebhook (worldPart002 0 respOK)
              (LoadConfig {| flag_u := "http://localhost:9093";
                             flag_b := "localhost:8080";
                             flag_l := "error"; flag_f := "json";
                             flag_e := ""; flag_add_labels := "";
                             flag_p := "ann." |})
              (request "{'result':{}}")))
  = [(LevelError, "Invalid or missing trigger time in Splunk payload")] /\
  exists msg,
    In (LevelError, msg)
       (written (NewLogger "error" "json")
          (trace (Part002.HandleSplunkWebhook (worldPart002 0 respOK)
                    (LoadConfig {| flag_u := "http://localhost:9093";
                                   flag_b := "localhost:8080";
                                   flag_l := "error"; flag_f := "json";
                                   flag_e := ""; flag_add_labels := "";
                                   flag_p := "ann." |})
                    (request "{'result':{}}")))).
Proof.
  split; [vm_compute; reflexivity|].
  apply (proj1 (logger_keeps_errors_and_gates_debug
                  (LoadConfig {| flag_u := "http://localhost:9093";
                                 flag_b := "localhost:8080";
                                 flag_l := "error"; flag_f := "json";
                                 flag_e := ""; flag_add_labels := "";
                                 flag_p := "ann." |})
                  (request "{'result':{}}")) (worldPart002 0 respOK)).
  vm_compute. discriminate.
Defined.

(** ** When an alert is built, and what is sent *)

(** X5.  [Archive] builds an alert exactly when the body can be read and
    decoded and the configured offset is empty or parses: nothing in the
    payload can make it reject a request.  [Part002] asks in addition that
    ["_time"] in the result set be a string that [strconv.ParseInt] accepts.
    A request for which no alert is built is answered 400 without a POST. *)
Theorem alert_built_iff :
  (forall env cfg r,
     (exists a, produced (Archive.buildAlert env cfg r) = Some a) <->
     (exists body p, Body r = Ok body /\ json_Unmarshal env body = Ok p) /\
     durationOK cfg) /\
  (forall env cfg r,
     (exists a, produced (Part002.buildAlert env cfg r) = Some a) <->
     (exists body p s n,
        Body r = Ok body /\ json_Unmarshal env body = Ok p /\
        Part002.Result p !! "_time" = Some (JString s) /\
        ParseInt s = Ok n) /\
     durationOK cfg) /\
  (forall env cfg r,
     produced (Archive.buildAlert env cfg r) = None ->
     status_of (trace (Archive.HandleSplunkWebhook env cfg r))
       = Some StatusBadRequest /\
     posts_of (trace (Archive.HandleSplunkWebhook env cfg r)) = []) /\
  (forall env cfg r,
     produced (Part002.buildAlert env cfg r) = None ->
     status_of (trace (Part002.HandleSplunkWebhook env cfg r))
       = Some StatusBadRequest /\
     posts_of (trace (Part002.HandleSplunkWebhook env cfg r)) = []).
Proof.
  split; [|split; [|split]].
  - intros env cfg r. split.
    + intros [a Ha].
      apply Archive_alert_inv in Ha as (body & p & Hb & Hu & He & _).
      split; [eauto|]. apply (computeEndsAt_produced cfg (time_Now env)). eauto.
    + intros [(body & p & Hb & Hu) Hd]. eapply Archive_alert_built; eauto.
  - intros env cfg r. split.
    + intros [a Ha].
      apply Part002_alert_inv in Ha as (body & p & s & n & Hb & Hu & Ht & Hn & He & _).
      split; [exists body, p, s, n; auto|].
      apply (computeEndsAt_produced cfg (time_Unix n 0)). eauto.
    + intros [(body & p & s & n & Hb & Hu & Ht & Hn) Hd].
      eapply Part002_alert_built; eauto.
  - intros env cfg r. apply Archive_no_alert.
  - intros env cfg r. apply Part002_no_alert.
Qed.

Lemma Archive_posted env cfg r :
  posts_of (trace (Archive.HandleSplunkWebhook env cfg r)) <> [] ->
  exists a,
    produced (Archive.buildAlert env cfg r) = Some a /\
    status_of (trace (Archive.HandleSplunkWebhook env cfg r))
      = status_of (trace (forward env cfg a)) /\
    posts_of (trace (Archive.HandleSplunkWebhook env cfg r))
      = posts_of (trace (forward env cfg a)) /\
    body_of (trace (Archive.HandleSplunkWebhook env cfg r))
      = body_of (trace (forward env cfg a)).
Proof.
  intros Hposts.
  destruct (produced (Archive.buildAlert env cfg r)) as [a|] eqn:Hp.
  - exists a. split; [reflexivity|].
    unfold Archive.HandleSplunkWebhook.
    destruct (Archive_buildAlert_outcome env cfg r)
      as [t Hs Hpo|t body p endsAt Hb Hu He Hs Hpo Hbody];
      [discriminate Hp|].
    injection Hp as <-. apply handle_built; auto.
  - apply Archive_no_alert in Hp as [_ Hp]. contradiction.
Qed.

Lemma forward_posts {P} (env : Env P) (cfg : Config) (a : V2Alert) :
  posts_of (trace (forward env cfg a)) = postFor env cfg a.
Proof.
  unfold postFor.
  destruct (forward_outcome env cfg a) as [e Hm|bytes e Hm Hq|bytes resp Hm Hq Hs|bytes resp Hm Hq Hs];
    rewrite Hm; reflexivity.
Qed.

(** X6.  A run of either revision makes no POST unless it built an alert and
    could serialise it; then it makes one POST, of the serialised one-element
    list holding that alert, to the configured URL followed by
    [/api/v2/alerts], with the content type [application/json]. *)
Theorem posts_are_the_serialised_alert :
  (forall env cfg r,
     posts_of (trace (Part002.HandleSplunkWebhook env cfg r)) =
     match produced (Part002.buildAlert env cfg r) with
     | Some a => postFor env cfg a
     | None => []
     end) /\
  (forall env cfg r,
     posts_of (trace (Archive.HandleSplunkWebhook env cfg r)) =
     match produced (Archive.buildAlert env cfg r) with
     | Some a => postFor env cfg a
     | None => []
     end).
Proof.
  split; intros env cfg r.
  - destruct (produced (Part002.buildAlert env cfg r)) as [a|] eqn:Hp.
    + unfold Part002.HandleSplunkWebhook.
      destruct (Part002_buildAlert_outcome env cfg r)
        as [t Hs Hpo|t body p s n endsAt Hb Hu Ht Hn He Hs Hpo Hbody];
        [discriminate Hp|].
      injection Hp as <-.
      rewrite trace_bind, posts_of_app. cbn [produced snd trace fst].
      rewrite Hpo. apply forward_posts.
    + apply Part002_no_alert, Hp.
  - destruct (produced (Archive.buildAlert env cfg r)) as [a|] eqn:Hp.
    + unfold Archive.HandleSplunkWebhook.
      destruct (Archive_buildAlert_outcome env cfg r)
        as [t Hs Hpo|t body p endsAt Hb Hu He Hs Hpo Hbody];
        [discriminate Hp|].
      injection Hp as <-.
      rewrite trace_bind, posts_of_app. cbn [produced snd trace fst].
      rewrite Hpo. apply forward_posts.
    + apply Archive_no_alert, Hp.
Qed.

Lemma forward_failures {P} (env : Env P) (cfg : Config) (a : V2Alert) :
  (forall e,
     json_Marshal env [a] = Err e ->
     status_of (trace (forward env cfg a)) = Some StatusInternalServerError /\
     body_of (trace (forward env cfg a))
       = "Failed to serialize Alertmanager payload" +:+ newline /\
     posts_of (trace (forward env cfg a)) = []) /\
  (forall bytes e,
     json_Marshal env [a] = Ok bytes ->
     http_Post env (AlertmanagerURL cfg +:+ "/api/v2/alerts")
       "application/json" bytes = Err e ->
     status_of (trace (forward env cfg a)) = Some StatusInternalServerError /\
     body_of (trace (forward env cfg a))
       = "Failed to send payload to Alertmanager" +:+ newline).
Proof.
  split.
  - intros e He.
    destruct (forward_outcome env cfg a) as [e' Hm|bytes e' Hm Hq|bytes resp Hm Hq Hs|bytes resp Hm Hq Hs];
      try congruence.
    repeat split; reflexivity.
  - intros bytes e Hb He.
    destruct (forward_outcome env cfg a) as [e' Hm|bytes' e' Hm Hq|bytes' resp Hm Hq Hs|bytes' resp Hm Hq Hs];
      try congruence;
      try (rewrite Hb in Hm; injection Hm as <-; congruence).
    split; reflexivity.
Qed.

(** X7.  For an alert that either revision built: when the alert cannot be
    serialised the answer is 500 with the text "Failed to serialize
    Alertmanager payload" and no POST is made; when the POST fails in
    transport the answer is 500 with the text "Failed to send payload to
    Alertmanager". *)
Theorem forwarding_failures_answer_500 :
  forall (cfg : Config) (r : Request) (a : V2Alert),
    (forall env : Env Part002.SplunkPayload,
       produced (Part002.buildAlert env cfg r) = Some a ->
       (forall e,
          json_Marshal env [a] = Err e ->
          status_of (trace (Part002.HandleSplunkWebhook env cfg r))
            = Some StatusInternalServerError /\
          body_of (trace (Part002.HandleSplunkWebhook env cfg r))
            = "Failed to serialize Alertmanager payload" +:+ newline /\
          posts_of (trace (Part002.HandleSplunkWebhook env cfg r)) = []) /\
       (forall bytes e,
          json_Marshal env [a] = Ok bytes ->
          http_Post env (AlertmanagerURL cfg +:+ "/api/v2/alerts")
            "application/json" bytes = Err e ->
          status_of (trace (Part002.HandleSplunkWebhook env cfg r))
            = Some StatusInternalServerError /\
          body_of (trace (Part002.HandleSplunkWebhook env cfg r))
            = "Failed to send payload to Alertmanager" +:+ newline)) /\
    (forall env : Env Archive.SplunkWebhook,
       produced (Archive.buildAlert env cfg r) = Some a ->
       (forall e,
          json_Marshal env [a] = Err e ->
          status_of (trace (Archive.HandleSplunkWebhook env cfg r))
            = Some StatusInternalServerError /\
          body_of (trace (Archive.HandleSplunkWebhook env cfg r))
            = "Failed to serialize Alertmanager payload" +:+ newline /\
          posts_of (trace (Archive.HandleSplunkWebhook env cfg r)) = []) /\
       (forall bytes e,
          json_Marshal env [a] = Ok bytes ->
          http_Post env (AlertmanagerURL cfg +:+ "/api/v2/alerts")
            "application/json" bytes = Err e ->
          status_of (trace (Archive.HandleSplunkWebhook env cfg r))
            = Some StatusInternalServerError /\
          body_of (trace (Archive.HandleSplunkWebhook env cfg r))
            = "Failed to send payload to Alertmanager" +:+ newline)).
Proof.
  intros cfg r a. split; intros env Hp.
  - assert (Hobs :
      status_of (trace (Part002.HandleSplunkWebhook env cfg r))
        = status_of (trace (forward env cfg a)) /\
      posts_of (trace (Part002.HandleSplunkWebhook env cfg r))
        = posts_of (trace (forward env cfg a)) /\
      body_of (trace (Part002.HandleSplunkWebhook env cfg r))
        = body_of (trace (forward env cfg a))).
    { unfold Part002.HandleSplunkWebhook.
      destruct (Part002_buildAlert_outcome env cfg r)
        as [t Hs Hpo|t body p s n endsAt Hb Hu Ht Hn He Hs Hpo Hbody];
        [discriminate Hp|].
      injection Hp as <-. apply handle_built; auto. }
    destruct Hobs as (-> & -> & ->). apply forward_failures.
  - assert (Hobs :
      status_of (trace (Archive.HandleSplunkWebhook env cfg r))
        = status_of (trace (forward env cfg a)) /\
      posts_of (trace (Archive.HandleSplunkWebhook env cfg r))
        = posts_of (trace (forward env cfg a)) /\
      body_of (trace (Archive.HandleSplunkWebhook env cfg r))
        = body_of (trace (forward env cfg a))).
    { unfold Archive.HandleSplunkWebhook.
      destruct (Archive_buildAlert_outcome env cfg r)
        as [t Hs Hpo|t body p endsAt Hb Hu He Hs Hpo Hbody];
        [discriminate Hp|].
      injection Hp as <-. apply handle_built; auto. }
    destruct Hobs as (-> & -> & ->). apply forward_failures.
Qed.

(** X7 with a serialiser that fails, and with a destination that cannot be
    reached. *)
Lemma forwarding_failures_answer_500_witness :
  (exists a,
     produced (Part002.buildAlert (worldPart002Marshal failingMarshal respOK)
                 defaultConfig (request "{'result':{'_time':'7'}}")) = Some a /\
     status_of (trace (Part002.HandleSplunkWebhook
                         (worldPart002Marshal failingMarshal respOK)
                         defaultConfig (request "{'result':{'_time':'7'}}")))
       = Some 500 /\
     posts_of (trace (Part002.HandleSplunkWebhook
                        (worldPart002Marshal failingMarshal respOK)
                        defaultConfig (request "{'result':{'_time':'7'}}")))
       = []) /\
  (exists a,
     produced (Archive.buildAlert (worldArchive 0 respRefused)
                 defaultConfig (request "{'result':{}}")) = Some a /\
     status_of (trace (Archive.HandleSplunkWebhook (worldArchive 0 respRefused)
                         defaultConfig (request "{'result':{}}")))
       = Some 500).
Proof.
  split.
  - eexists. split; [vm_compute; reflexivity|].
    destruct (proj1 (proj1 (forwarding_failures_answer_500 defaultConfig
                (request "{'result':{'_time':'7'}}") _)
                (worldPart002Marshal failingMarshal respOK)
                ltac:(vm_compute; reflexivity))
                (ErrMsg "json: error calling MarshalJSON for type time.Time")
                eq_refl) as (Hs & _ & Hp).
    split; [exact Hs|exact Hp].
  - eexists. split; [vm_compute; reflexivity|].
    apply (proj2 (proj2 (forwarding_failures_answer_500 defaultConfig
                (request "{'result':{}}") _)
                (worldArchive 0 respRefused)
                ltac:(vm_compute; reflexivity))
                "{alert}" (ErrMsg "dial tcp: connection refused")
                eq_refl eq_refl).
Defined.

(** X8.  [Archive] relays the answer of the destination as [Part002] does:
    for a request that was forwarded, the caller is told 200 exactly when
    the destination answered 200, and is told 500 with the destination's
    body inside the response when it answered anything else. *)
Theorem Archive_destination_answer_relayed :
  forall (env : Env Archive.SplunkWebhook) (cfg : Config) (r : Request)
         (url ct payload : string),
    posts_of (trace (Archive.HandleSplunkWebhook env cfg r))
      = [(url, ct, payload)] ->
    (status_of (trace (Archive.HandleSplunkWebhook env cfg r)) = Some StatusOK <->
     exists resp, http_Post env url ct payload = Ok resp /\
                  StatusCode resp = StatusOK) /\
    (forall resp,
       http_Post env url ct payload = Ok resp ->
       StatusCode resp <> StatusOK ->
       status_of (trace (Archive.HandleSplunkWebhook env cfg r))
         = Some StatusInternalServerError /\
       Contains (body_of (trace (Archive.HandleSplunkWebhook env cfg r)))
                (RespBody resp) = true).
Proof.
  intros env cfg r url ct payload Hposts.
  destruct (Archive_posted env cfg r) as (a & _ & Hs & Hp & Hb);
    [rewrite Hposts; discriminate|].
  rewrite Hs, Hb. apply forward_observed. rewrite <- Hp. exact Hposts.
Qed.

(** X8 with a destination that answers 503. *)
Lemma Archive_destination_answer_relayed_witness :
  status_of (trace (Archive.HandleSplunkWebhook (worldArchive 0 respDown)
                      defaultConfig (request "{'result':{'host':'h1'}}")))
    = Some 500 /\
  Contains (body_of (trace (Archive.HandleSplunkWebhook (worldArchive 0 respDown)
                              defaultConfig (request "{'result':{'host':'h1'}}"))))
           "alertmanager is down" = true.
Proof.
  apply (proj2 (Archive_destination_answer_relayed (worldArchive 0 respDown)
           defaultConfig (request "{'result':{'host':'h1'}}")
           "http://localhost:9093/api/v2/alerts" "application/json" "{alert}"
           ltac:(vm_compute; reflexivity))
           {| StatusCode := 503; RespBody := "alertmanager is down" |}).
  - reflexivity.
  - vm_compute; discriminate.
Defined.

(** X5 on requests that are rejected before an alert is built. *)
Lemma alert_built_iff_witness :
  (status_of (trace (Archive.HandleSplunkWebhook (worldArchive 0 respOK)
                       (configWith "soon" "") (request "{'result':{}}")))
     = Some 400 /\
   posts_of (trace (Archive.HandleSplunkWebhook (worldArchive 0 respOK)
                      (configWith "soon" "") (request "{'result':{}}"))) = []) /\
  (exists a,
     produced (Archive.buildAlert (worldArchive 0 respOK) defaultConfig
                 (request "null")) = Some a).
Proof.
  split.
  - apply (proj1 (proj2 (proj2 alert_built_iff)) (worldArchive 0 respOK)
             (configWith "soon" "") (request "{'result':{}}")).
    vm_compute; reflexivity.
  - apply (proj2 (proj1 alert_built_iff (worldArchive 0 respOK) defaultConfig
                    (request "null"))).
    split; [|left; reflexivity].
    do 2 eexists. split; [reflexivity|vm_compute; reflexivity].
Defined.

(** ** The fields of the alert *)

(** X9.  Every alert built by either revision has the status ["firing"], the
    results link of the payload as its generator URL and as its annotation
    ["link"], and the annotation ["summary"] made of the fixed text and the
    search name.  In [Archive] this holds whatever the result set carries
    under ["ann.summary"] and ["ann.link"]. *)
Theorem alert_fixed_fields :
  (forall env cfg r a,
     produced (Part002.buildAlert env cfg r) = Some a ->
     exists body p,
       Body r = Ok body /\ json_Unmarshal env body = Ok p /\
       Status a = "firing" /\
       GeneratorURL a = Part002.ResultsLink p /\
       Annotations a !! "link" = Some (Part002.ResultsLink p) /\
       Annotations a !! "summary"
         = Some ("Alert triggered in Splunk: " +:+ Part002.SearchName p)) /\
  (forall env cfg r a,
     produced (Archive.buildAlert env cfg r) = Some a ->
     exists body p,
       Body r = Ok body /\ json_Unmarshal env body = Ok p /\
       Status a = "firing" /\
       GeneratorURL a = Archive.ResultsLink p /\
       Annotations a !! "link" = Some (Archive.ResultsLink p) /\
       Annotations a !! "summary"
         = Some ("Alert triggered in Splunk: " +:+ Archive.SearchName p)).
Proof.
  split; intros env cfg r a Hp.
  - destruct (Part002_buildAlert_outcome env cfg r)
      as [t Hs Hpo|t body p s n endsAt Hb Hu Ht Hn He Hs Hpo Hbody];
      [discriminate Hp|].
    injection Hp as <-. exists body, p. cbn [Status GeneratorURL Annotations].
    repeat split; auto.
  - destruct (Archive_buildAlert_outcome env cfg r)
      as [t Hs Hpo|t body p endsAt Hb Hu He Hs Hpo Hbody];
      [discriminate Hp|].
    injection Hp as <-. exists body, p. cbn [Status GeneratorURL Annotations].
    split; [exact Hb|]. split; [exact Hu|]. split; [reflexivity|].
    split; [reflexivity|].
    unfold Archive.extract.
    destruct (map_fold Archive.rangeBody (∅, ∅) (Archive.Result p)) as [L A].
    cbn [snd]. split.
    + apply lookup_insert_eq.
    + rewrite lookup_insert_ne by discriminate. apply lookup_insert_eq.
Qed.

(** X9 on a payload whose result set tries to set the two annotations. *)
Lemma alert_fixed_fields_witness :
  exists a,
    produced (Archive.buildAlert (worldArchive 0 respOK) defaultConfig
                (request "{'search_name':'errors','results_link':'http://s/1','result':{'ann.summary':'x','ann.link':'y'}}"))
      = Some a /\
    Annotations a !! "summary" = Some "Alert triggered in Splunk: errors" /\
    Annotations a !! "link" = Some "http://s/1" /\
    GeneratorURL a = "http://s/1".
Proof.
  eexists. split; [vm_compute; reflexivity|].
  destruct (proj2 alert_fixed_fields (worldArchive 0 respOK) defaultConfig
              (request "{'search_name':'errors','results_link':'http://s/1','result':{'ann.summary':'x','ann.link':'y'}}")
              _ ltac:(vm_compute; reflexivity))
    as (body & p & Hb & Hu & _ & Hg & Hl & Hsum).
  injection Hb as <-. vm_compute in Hu. injection Hu as <-.
  repeat split; assumption.
Defined.

(** X10.  In [Archive] every string-valued entry of the result set reaches
    the alert: an entry whose key does not start with ["ann."] is the label
    under that key, unless the key is ["alertname"] or ["app"]; an entry
    ["ann." ++ k] is the annotation [k], unless [k] is ["summary"] or
    ["link"]; and the alert has no other labels or annotations than these
    and the four fixed ones. *)
Theorem Archive_routes_every_string_entry :
  forall env cfg r a,
    produced (Archive.buildAlert env cfg r) = Some a ->
    exists body p,
      Body r = Ok body /\ json_Unmarshal env body = Ok p /\
      (forall k s,
         k <> "app" -> k <> "alertname" ->
         (Labels a !! k = Some s <->
          Archive.Result p !! k = Some (JString s) /\
          HasPrefix k "ann." = false)) /\
      (forall k s,
         k <> "link" -> k <> "summary" ->
         (Annotations a !! k = Some s <->
          Archive.Result p !! ("ann." +:+ k) = Some (JString s))).
Proof.
  intros env cfg r a Hp.
  apply Archive_alert_inv in Hp as (body & p & Hb & Hu & _ & HL & HA & _).
  exists body, p. rewrite HL, HA.
  split; [exact Hb|]. split; [exact Hu|]. split.
  - intros k s H1 H2. rewrite labelsArchive_lookup. split.
    + intros [[H _]|[(_ & H & _)|(_ & _ & H)]]; [contradiction|contradiction|exact H].
    + intros H. right; right. tauto.
  - intros k s H1 H2. rewrite annotationsArchive_lookup. split.
    + intros [[H _]|[(_ & H & _)|(_ & _ & H)]]; [contradiction|contradiction|exact H].
    + intros H. right; right. tauto.
Qed.

(** X10 on a result set with a plain key, a prefixed key and the bare
    prefix. *)
Lemma Archive_routes_every_string_entry_witness :
  exists a,
    produced (Archive.buildAlert (worldArchive 0 respOK) defaultConfig
                (request "{'result':{'severity':'high','ann.runbook':'wiki','ann.':'bare'}}"))
      = Some a /\
    Labels a !! "severity" = Some "high" /\
    Annotations a !! "runbook" = Some "wiki" /\
    Annotations a !! "" = Some "bare" /\
    Labels a !! "ann.runbook" = None.
Proof.
  eexists. split; [vm_compute; reflexivity|].
  destruct (Archive_routes_every_string_entry (worldArchive 0 respOK)
              defaultConfig
              (request "{'result':{'severity':'high','ann.runbook':'wiki','ann.':'bare'}}")
              _ ltac:(vm_compute; reflexivity))
    as (body & p & Hb & Hu & HL & HA).
  injection Hb as <-. vm_compute in Hu. injection Hu as <-.
  split; [|split; [|split]].
  - apply HL; [discriminate|discriminate|]. split; vm_compute; reflexivity.
  - apply HA; [discriminate|discriminate|]. vm_compute; reflexivity.
  - apply HA; [discriminate|discriminate|]. vm_compute; reflexivity.
  - vm_compute; reflexivity.
Defined.

(** X11.  Go does not fix the order in which [range] visits a map.  In
    whatever order the loop of [Archive] visits the entries of the result
    set, it ends with the same labels and annotations. *)
Theorem Archive_extract_any_order :
  forall (p : Archive.SplunkWebhook) (order : list (string * JSON)),
    order ≡ₚ map_to_list (Archive.Result p) ->
    extractVisiting order p = Archive.extract p.
Proof.
  intros p order Hperm. unfold extractVisiting, Archive.extract.
  rewrite (Archive_range_order_irrelevant (Archive.Result p) order Hperm).
  reflexivity.
Qed.

(** X11 on three entries, visited in the reverse of the order [map_fold]
    uses. *)
Lemma Archive_extract_any_order_witness :
  extractVisiting
    (reverse (map_to_list (<["a" := JString "1"]>
                             (<["ann.b" := JString "2"]>
                                (<["c" := JString "3"]> (∅ : gmap string JSON))))))
    {| Archive.Sid := ""; Archive.SearchName := "s"; Archive.App := "x";
       Archive.ResultsLink := "";
       Archive.Result :=
         <["a" := JString "1"]>
           (<["ann.b" := JString "2"]>
              (<["c" := JString "3"]> (∅ : gmap string JSON))) |}
  = Archive.extract
    {| Archive.Sid := ""; Archive.SearchName := "s"; Archive.App := "x";
       Archive.ResultsLink := "";
       Archive.Result :=
         <["a" := JString "1"]>
           (<["ann.b" := JString "2"]>
              (<["c" := JString "3"]> (∅ : gmap string JSON))) |}.
Proof.
  apply Archive_extract_any_order. apply reverse_Permutation.
Defined.

(** ** The label allow-list of [Part002] and the configuration *)

(** X12.  The labels of [Part002] depend on the additional label keys only
    as a set: listing the keys in another order, or a key twice, or a key
    that is already a default label, changes nothing. *)
Theorem Part002_labels_depend_on_key_set :
  forall (cfg cfg' : Config) (R : gmap string JSON),
    (forall k, k <> "" ->
       (k ∈ Part002.defaultLabels \/ k ∈ AdditionalLabels cfg <->
        k ∈ Part002.defaultLabels \/ k ∈ AdditionalLabels cfg')) ->
    Part002.buildLabels cfg R = Part002.buildLabels cfg' R.
Proof.
  intros cfg cfg' R Hsame. apply map_eq; intros k. apply option_eq; intros s.
  rewrite !buildLabels_lookup. unfold allowed.
  assert (Hne : k ∈ Part002.defaultLabels -> k <> "").
  { intros Hin ->. unfold Part002.defaultLabels in Hin.
    repeat (apply elem_of_cons in Hin as [Hin|Hin]; [discriminate Hin|]).
    inversion Hin. }
  split; intros [[Hd|[Ha Hk]] HR]; (split; [|exact HR]).
  - left; exact Hd.
  - destruct (proj1 (Hsame k Hk)) as [H|H]; [right; exact Ha|left; exact H|].
    right; split; assumption.
  - left; exact Hd.
  - destruct (proj2 (Hsame k Hk)) as [H|H]; [right; exact Ha|left; exact H|].
    right; split; assumption.
Qed.

(** X12 on the command lines [--add-labels severity,team] and
    [--add-labels team,host,severity,team]. *)
Lemma Part002_labels_depend_on_key_set_witness :
  Part002.buildLabels (configWith "" "severity,team")
    (<["team" := JString "db"]> (<["host" := JString "h1"]> ∅)) =
  Part002.buildLabels (configWith "" "team,host,severity,team")
    (<["team" := JString "db"]> (<["host" := JString "h1"]> ∅)).
Proof.
  apply Part002_labels_depend_on_key_set.
  intros k Hk. vm_compute AdditionalLabels. unfold Part002.defaultLabels.
  rewrite !elem_of_cons, !elem_of_nil. tauto.
Defined.

(** X13.  [Part002] never gives an alert more labels than there are default
    and additional label keys, nor more than the result set has entries, and
    every label repeats a string-valued entry of the result set under its
    own key. *)
Theorem Part002_labels_bounded :
  forall (cfg : Config) (R : gmap string JSON),
    (size (Part002.buildLabels cfg R)
       <= length Part002.defaultLabels + length (AdditionalLabels cfg))%nat /\
    (size (Part002.buildLabels cfg R) <= size R)%nat /\
    (forall k s, Part002.buildLabels cfg R !! k = Some s ->
                 R !! k = Some (JString s)).
Proof.
  intros cfg R.
  assert (Hkeys : forall k,
    k ∈ (map_to_list (Part002.buildLabels cfg R)).*1 ->
    allowed cfg k /\ exists s, R !! k = Some (JString s)).
  { intros k Hk. apply list_elem_of_fmap in Hk as [[k' s] [-> Hin]].
    apply elem_of_map_to_list in Hin. cbn [fst].
    apply buildLabels_lookup in Hin as [Ha HR]. eauto. }
  split; [|split].
  - rewrite <- length_map_to_list.
    rewrite <- (length_fmap fst (map_to_list (Part002.buildLabels cfg R))).
    rewrite <- length_app. apply submseteq_length, NoDup_submseteq.
    + apply NoDup_fst_map_to_list.
    + intros k Hk. apply Hkeys in Hk as [[Hd|[Ha _]] _];
        apply elem_of_app; [left|right]; assumption.
  - rewrite <- !length_map_to_list.
    rewrite <- (length_fmap fst (map_to_list (Part002.buildLabels cfg R))).
    rewrite <- (length_fmap fst (map_to_list R)).
    apply submseteq_length, NoDup_submseteq.
    + apply NoDup_fst_map_to_list.
    + intros k Hk. apply Hkeys in Hk as [_ [s Hs]].
      apply list_elem_of_fmap. exists (k, JString s). split; [reflexivity|].
      apply elem_of_map_to_list, Hs.
  - intros k s Hk. apply buildLabels_lookup in Hk as [_ HR]. exact HR.
Qed.

Lemma Split_go_not_nil (sep : ascii) (s cur : string) : Split_go sep s cur <> [].
Proof.
  revert cur; induction s as [|c s IH]; intros cur; simpl; [discriminate|].
  destruct (eqb_ascii c sep); [discriminate|apply IH].
Qed.

Lemma app_nil_r_string (s : string) : s +:+ "" = s.
Proof. induction s as [|c s IH]; [reflexivity|]. rewrite app_String, IH. reflexivity. Qed.

Lemma Join_cons (x : string) (rest : list string) (sep : ascii) :
  rest <> [] -> Join (x :: rest) sep = x +:+ String sep (Join rest sep).
Proof. destruct rest; [congruence|reflexivity]. Qed.

Lemma Join_Split_go (sep : ascii) (s cur : string) :
  Join (Split_go sep s cur) sep = cur +:+ s.
Proof.
  revert cur; induction s as [|c s IH]; intros cur; simpl.
  - symmetry. apply app_nil_r_string.
  - destruct (eqb_ascii c sep) eqn:E.
    + apply eqb_ascii_eq in E. subst c.
      rewrite Join_cons by apply Split_go_not_nil.
      rewrite IH. reflexivity.
    + rewrite IH, app_assoc_string. reflexivity.
Qed.

Lemma has_byte_app (c : ascii) (a b : string) :
  has_byte c (a +:+ b) = has_byte c a || has_byte c b.
Proof.
  induction a as [|x a IH]; [reflexivity|].
  rewrite app_String. simpl. rewrite IH. apply orb_assoc.
Qed.

Lemma Split_go_no_sep (sep : ascii) (s cur piece : string) :
  has_byte sep cur = false ->
  piece ∈ Split_go sep s cur -> has_byte sep piece = false.
Proof.
  revert cur; induction s as [|c s IH]; intros cur Hcur; simpl.
  - intros Hin. apply list_elem_of_singleton in Hin. subst; exact Hcur.
  - destruct (eqb_ascii c sep) eqn:E.
    + intros Hin. apply elem_of_cons in Hin as [->|Hin]; [exact Hcur|].
      apply (IH ""); [reflexivity|exact Hin].
    + apply IH. rewrite has_byte_app, Hcur. simpl. rewrite E. reflexivity.
Qed.

(** X14.  [LoadConfig] cuts the value of [--add-labels] at its commas:
    joining the additional label keys with commas gives the value back, no
    key contains a comma, and there is always at least one key (the empty
    one, when the value is empty). *)
Theorem LoadConfig_additional_labels :
  forall flags : Flags,
    Join (AdditionalLabels (LoadConfig flags)) "," = flag_add_labels flags /\
    (forall k, k ∈ AdditionalLabels (LoadConfig flags) -> has_byte "," k = false) /\
    AdditionalLabels (LoadConfig flags) <> [] /\
    (flag_add_labels flags = "" -> AdditionalLabels (LoadConfig flags) = [""]).
Proof.
  intros flags. cbn [LoadConfig AdditionalLabels]. unfold Split.
  split; [|split; [|split]].
  - rewrite Join_Split_go. reflexivity.
  - intros k. apply Split_go_no_sep. reflexivity.
  - apply Split_go_not_nil.
  - intros ->. reflexivity.
Qed.

(** X15.  When [--add-labels] is left empty, the one empty key that
    [strings.Split] returns is skipped: the labels of [Part002] are exactly
    the string-valued result entries at the six default keys. *)
Theorem Part002_labels_without_additional :
  forall (flags : Flags) (R : gmap string JSON) (k s : string),
    flag_add_labels flags = "" ->
    (Part002.buildLabels (LoadConfig flags) R !! k = Some s <->
     k ∈ Part002.defaultLabels /\ R !! k = Some (JString s)).
Proof.
  intros flags R k s Hempty. rewrite buildLabels_lookup. unfold allowed.
  cbn [LoadConfig AdditionalLabels]. rewrite Hempty.
  change (Split "" ",") with [""].
  split.
  - intros [[Hd|[Hin Hne]] HR]; [auto|].
    apply list_elem_of_singleton in Hin. contradiction.
  - intros [Hd HR]. auto.
Qed.

(** X15 under the default flags: [host] is a default label key, [team] is
    not. *)
Lemma Part002_labels_without_additional_witness :
  Part002.buildLabels defaultConfig
    (<["team" := JString "db"]> (<["host" := JString "h1"]> ∅)) !! "host"
    = Some "h1" /\
  Part002.buildLabels defaultConfig
    (<["team" := JString "db"]> (<["host" := JString "h1"]> ∅)) !! "team"
    <> Some "db".
Proof.
  split.
  - apply (Part002_labels_without_additional defaultFlags _ "host" "h1" eq_refl).
    split; [|vm_compute; reflexivity].
    unfold Part002.defaultLabels. rewrite !elem_of_cons. auto.
  - intros H.
    apply (Part002_labels_without_additional defaultFlags _ "team" "db" eq_refl)
      in H as [Hin _].
    unfold Part002.defaultLabels in Hin.
    repeat (apply elem_of_cons in Hin as [Hin|Hin]; [discriminate Hin|]).
    inversion Hin.
Defined.

(** X13 on a result set of three entries, one of them at a default key. *)
Lemma Part002_labels_bounded_witness :
  (size (Part002.buildLabels defaultConfig
           (<["team" := JString "db"]>
              (<["host" := JString "h1"]> (<["n" := JNumber "1"]> ∅))))
     <= 7)%nat /\
  (size (Part002.buildLabels defaultConfig
           (<["team" := JString "db"]>
              (<["host" := JString "h1"]> (<["n" := JNumber "1"]> ∅))))
     <= 3)%nat.
Proof.
  destruct (Part002_labels_bounded defaultConfig
              (<["team" := JString "db"]>
                 (<["host" := JString "h1"]> (<["n" := JNumber "1"]> ∅))))
    as (H1 & H2 & _).
  split; [exact H1|exact H2].
Defined.

(** X14 on the command line [--add-labels severity,,team]. *)
Lemma LoadConfig_additional_labels_witness :
  AdditionalLabels (configWith "" "severity,,team") = ["severity"; ""; "team"] /\
  Join (AdditionalLabels (configWith "" "severity,,team")) "," = "severity,,team" /\
  AdditionalLabels (LoadConfig defaultFlags) = [""].
Proof.
  split; [reflexivity|]. split.
  - exact (proj1 (LoadConfig_additional_labels
             {| flag_u := flag_u defaultFlags; flag_b := flag_b defaultFlags;
                flag_l := flag_l defaultFlags; flag_f := flag_f defaultFlags;
                flag_e := ""; flag_add_labels := "severity,,team";
                flag_p := flag_p defaultFlags |})).
  - apply (proj2 (proj2 (proj2 (LoadConfig_additional_labels defaultFlags)))).
    reflexivity.
Defined.

(** X1 on a request that is forwarded and on one that is not. *)
Lemma handlers_answer_exactly_once_witness :
  count_headers (trace (Part002.HandleSplunkWebhook (worldPart002 0 respOK)
                          defaultConfig (request "{'result':{'_time':'7'}}")))
    = 1%nat /\
  count_headers (trace (Archive.HandleSplunkWebhook (worldArchive 0 respDown)
                          defaultConfig (request "[1,2]")))
    = 1%nat.
Proof.
  split.
  - apply (proj1 (handlers_answer_exactly_once defaultConfig
                    (request "{'result':{'_time':'7'}}"))).
  - apply (proj2 (handlers_answer_exactly_once defaultConfig (request "[1,2]"))).
Defined.

(** X3 on a request that the destination refuses. *)
Lemma error_logged_iff_not_ok_witness :
  (status_of (trace (Archive.HandleSplunkWebhook (worldArchive 0 respDown)
                       defaultConfig (request "{'result':{}}")))
     = Some StatusOK /\
   error_logs (trace (Archive.HandleSplunkWebhook (worldArchive 0 respDown)
                        defaultConfig (request "{'result':{}}"))) = []) \/
  (status_of (trace (Archive.HandleSplunkWebhook (worldArchive 0 respDown)
                       defaultConfig (request "{'result':{}}")))
     <> Some StatusOK /\
   exists msg,
     error_logs (trace (Archive.HandleSplunkWebhook (worldArchive 0 respDown)
                          defaultConfig (request "{'result':{}}"))) = [msg]).
Proof.
  apply (proj2 (error_logged_iff_not_ok defaultConfig (request "{'result':{}}"))).
Defined.

(** X6 on a request that is forwarded. *)
Lemma posts_are_the_serialised_alert_witness :
  posts_of (trace (Part002.HandleSplunkWebhook (worldPart002 0 respOK)
                     defaultConfig (request "{'result':{'_time':'7'}}")))
  = match produced (Part002.buildAlert (worldPart002 0 respOK) defaultConfig
                      (request "{'result':{'_time':'7'}}")) with
    | Some a => postFor (worldPart002 0 respOK) defaultConfig a
    | None => []
    end.
Proof.
  apply (proj1 posts_are_the_serialised_alert).
Defined.
